(** * Snake game simulation core: [useGameState] and [useKeyboard]

    A shallow embedding of the React hooks [hooks/useGameState.ts] and
    [hooks/useKeyboard.ts] of the snake application, together with the
    constants of [constants/gameConfig.ts].

    Conventions of the embedding.
    - A JavaScript number holding an integer is a [Z]; the remainder
      operator [%] is [Z.rem] (the sign follows the dividend).
    - [Math.random()] is a draw from a [RandomSource], an infinite tape of
      rationals; [Math.floor(Math.random() * n)] is the floor of the exact
      product, which for draws in [0, 1) ranges over the same integers as
      the floating-point product does.  Every theorem quantifies over the
      tape.
    - [Date.now()] is an explicit argument [now].
    - A functional updater passed to [setGameState] is one atomic step on
      the hook's state [Hook]: the React state plus the refs, the pending
      timers and the calls made to the storage service. *)

From Stdlib Require Import ZArith QArith Qround Qabs Qminmax Lia Lqa List Bool.
From Stdlib Require String Ascii.
From stdpp Require Import base gmap sets list.
Import ListNotations.

Local Open Scope Z_scope.

(** ** Types ([types/index.ts]) *)

Module Position.
Record t := mk { x : Z; y : Z }.

(** [a.x === b.x && a.y === b.y] *)
Definition same (a b : t) : bool := (x a =? x b) && (y a =? y b).
End Position.

(** Identifiers are template strings; each constructor stands for one
    template, and two such strings are equal exactly when the template and
    the interpolated numbers are. *)
Inductive Ident :=
| TrapIdent (now : Z) (salt : Q)   (* `trap_${Date.now()}_${Math.random()}` *)
| ObstacleIdent (i : Z)            (* `obstacle_${i}` *)
| ReshapeIdent (now : Z) (i : Z).  (* `obstacle_reshape_${Date.now()}_${i}` *)

Definition ident_eqb (a b : Ident) : bool :=
  match a, b with
  | TrapIdent n1 s1, TrapIdent n2 s2 => (n1 =? n2) && Qeq_bool s1 s2
  | ObstacleIdent i1, ObstacleIdent i2 => i1 =? i2
  | ReshapeIdent n1 i1, ReshapeIdent n2 i2 => (n1 =? n2) && (i1 =? i2)
  | _, _ => false
  end.

Module Trap.
Record t := mk
  { id : Ident; x : Z; y : Z; spawnTime : Z; isTriggered : bool }.

Definition position (tr : t) : Position.t := Position.mk (x tr) (y tr).

(** [{ ...trap, isTriggered: true }] *)
Definition trigger (tr : t) : t :=
  mk (id tr) (x tr) (y tr) (spawnTime tr) true.
End Trap.

Module Obstacle.
Record t := mk { id : Ident; x : Z; y : Z; width : Z; height : Z }.
End Obstacle.

Inductive Direction := UP | DOWN | LEFT | RIGHT.

Definition direction_eqb (a b : Direction) : bool :=
  match a, b with
  | UP, UP | DOWN, DOWN | LEFT, LEFT | RIGHT, RIGHT => true
  | _, _ => false
  end.

Record GameState := mkGameState
  { snake : list Position.t;
    food : Position.t;
    traps : list Trap.t;
    obstacles : list Obstacle.t;
    direction : Direction;
    score : Z;
    isGameOver : bool;
    isPlaying : bool;
    trapWarning : option Position.t;
    obstacleReshapeCountdown : Z }.

(** ** Constants ([constants/gameConfig.ts]) *)

Module GAME_CONFIG.
Definition BOARD_WIDTH : Z := 40.
Definition BOARD_HEIGHT : Z := 40.
Definition INITIAL_SPEED : Z := 150.
Definition SPEED_INCREASE : Z := 10.
Definition CELL_SIZE : Z := 20.
Definition TRAP_SPAWN_MIN_INTERVAL : Z := 10000.
Definition TRAP_SPAWN_MAX_INTERVAL : Z := 15000.
Definition MAX_TRAPS : Z := 8.
Definition TRAP_WARNING_DURATION : Z := 500.
Definition OBSTACLES_COUNT : Z := 15.
Definition MIN_OBSTACLE_SIZE : Z := 1.
Definition MAX_OBSTACLE_SIZE : Z := 3.
Definition OBSTACLE_RESHAPE_MIN_TIME : Z := 30000.
Definition OBSTACLE_RESHAPE_MAX_TIME : Z := 45000.
Definition SAFE_DISTANCE_FROM_SNAKE : Z := 3.
End GAME_CONFIG.

Definition DIRECTIONS (d : Direction) : Position.t :=
  match d with
  | UP => Position.mk 0 (-1)
  | DOWN => Position.mk 0 1
  | LEFT => Position.mk (-1) 0
  | RIGHT => Position.mk 1 0
  end.

Definition INITIAL_SNAKE : list Position.t :=
  [Position.mk 20 20; Position.mk 19 20; Position.mk 18 20].

(** ** Randomness *)

Definition RandomSource := nat -> Q.

(** Every draw lies in [0, 1), as [Math.random()] promises. *)
Definition in_unit_interval (g : RandomSource) : Prop :=
  forall n, (0 <= g n)%Q /\ (g n < 1)%Q.

(** A computation that consumes random draws. *)
Definition Rand (A : Type) : Type := RandomSource -> A * RandomSource.

Definition ret {A} (a : A) : Rand A := fun g => (a, g).

Definition bind {A B} (m : Rand A) (k : A -> Rand B) : Rand B :=
  fun g => let (a, g') := m g in k a g'.

Notation "'let*' x ':=' m 'in' k" := (bind m (fun x => k))
  (at level 10, x name, m at level 100, k at level 200).

(** [Math.random()] *)
Definition Math_random : Rand Q :=
  fun g => (g O, fun n => g (S n)).

(** [Math.floor(Math.random() * n)] *)
Definition randomBelow (n : Z) : Rand Z :=
  let* r := Math_random in ret (Qfloor (r * inject_Z n)).

(** The tape left after [k] draws. *)
Definition advance (k : nat) (g : RandomSource) : RandomSource :=
  fun n => g (k + n)%nat.

(** [m], run on a tape of draws from [0, 1), returns a value satisfying [P]
    and leaves such a tape. *)
Definition establishes {A} (m : Rand A) (P : A -> Prop) : Prop :=
  forall g, in_unit_interval g ->
    P (fst (m g)) /\ in_unit_interval (snd (m g)).

(** ** The state of one [useGameState] instance *)

(** The events and calls the hook sends to the storage service. *)
Inductive GameEvent :=
| WallPassthrough (position : Position.t)
| TrapHit (position : Position.t) (previousSnakeLength : Z)
| FoodEaten (position : Position.t) (score snakeLength : Z)
| SpeedIncrease (position : Position.t) (newSpeed score : Z).

Inductive EndReason := SelfCollision | ObstacleCollision | UserQuit.

Inductive StorageCall :=
| RecordEvent (event : GameEvent)
| StartGameSession
| EndGameSession (score snakeLength : Z) (reason : EndReason)
| ClearSavedGame.

Record Hook := mkHook
  { gameState : GameState;
    gameSpeedRef : Z;
    gameSessionActiveRef : bool;
    (** the delay of the pending trap-spawn timeout, if one is pending *)
    trapSpawnTimerRef : option Q;
    (** whether the one-second reshape interval is running *)
    obstacleReshapeTimerRef : bool;
    (** traps whose removal a trap hit has scheduled, oldest first *)
    trapRemovals : list Ident;
    (** calls made to [gameStorage], oldest first *)
    storageCalls : list StorageCall;
    random : RandomSource }.

Definition setGameState (h : Hook) (s : GameState) : Hook :=
  mkHook s (gameSpeedRef h) (gameSessionActiveRef h) (trapSpawnTimerRef h)
    (obstacleReshapeTimerRef h) (trapRemovals h) (storageCalls h) (random h).

Definition setGameSpeedRef (h : Hook) (v : Z) : Hook :=
  mkHook (gameState h) v (gameSessionActiveRef h) (trapSpawnTimerRef h)
    (obstacleReshapeTimerRef h) (trapRemovals h) (storageCalls h) (random h).

Definition setGameSessionActiveRef (h : Hook) (b : bool) : Hook :=
  mkHook (gameState h) (gameSpeedRef h) b (trapSpawnTimerRef h)
    (obstacleReshapeTimerRef h) (trapRemovals h) (storageCalls h) (random h).

Definition setTrapSpawnTimerRef (h : Hook) (t : option Q) : Hook :=
  mkHook (gameState h) (gameSpeedRef h) (gameSessionActiveRef h) t
    (obstacleReshapeTimerRef h) (trapRemovals h) (storageCalls h) (random h).

Definition setObstacleReshapeTimerRef (h : Hook) (b : bool) : Hook :=
  mkHook (gameState h) (gameSpeedRef h) (gameSessionActiveRef h)
    (trapSpawnTimerRef h) b (trapRemovals h) (storageCalls h) (random h).

Definition setTrapRemovals (h : Hook) (l : list Ident) : Hook :=
  mkHook (gameState h) (gameSpeedRef h) (gameSessionActiveRef h)
    (trapSpawnTimerRef h) (obstacleReshapeTimerRef h) l (storageCalls h)
    (random h).

Definition setRandom (h : Hook) (g : RandomSource) : Hook :=
  mkHook (gameState h) (gameSpeedRef h) (gameSessionActiveRef h)
    (trapSpawnTimerRef h) (obstacleReshapeTimerRef h) (trapRemovals h)
    (storageCalls h) g.

(** One call to the storage service. *)
Definition call (c : StorageCall) (h : Hook) : Hook :=
  mkHook (gameState h) (gameSpeedRef h) (gameSessionActiveRef h)
    (trapSpawnTimerRef h) (obstacleReshapeTimerRef h) (trapRemovals h)
    (storageCalls h ++ [c]) (random h).

(** [gameStorage.recordEvent(...)] *)
Definition recordEvent (e : GameEvent) (h : Hook) : Hook :=
  call (RecordEvent e) h.

(** Runs a random computation on the hook's tape. *)
Definition draw {A} (m : RandomSource -> A * RandomSource) (h : Hook)
    : A * Hook :=
  let (a, g) := m (random h) in (a, setRandom h g).

(** ** The hook body, for a board of [boardWidth] by [boardHeight] cells *)

Section Board.

Variables boardWidth boardHeight : Z.

(** *** Collision tests *)

Definition isObstacleCollision
    (position : Position.t) (obstacles : list Obstacle.t) : bool :=
  existsb
    (fun obstacle =>
       (Position.x position >=? Obstacle.x obstacle) &&
       (Position.x position <? Obstacle.x obstacle + Obstacle.width obstacle) &&
       (Position.y position >=? Obstacle.y obstacle) &&
       (Position.y position <? Obstacle.y obstacle + Obstacle.height obstacle))
    obstacles.

Definition onSnake (snake : list Position.t) (p : Position.t) : bool :=
  existsb (fun segment =>
             (Position.x segment =? Position.x p) &&
             (Position.y segment =? Position.y p)) snake.

Definition onTrap (traps : list Trap.t) (p : Position.t) : bool :=
  existsb (fun trap =>
             (Trap.x trap =? Position.x p) &&
             (Trap.y trap =? Position.y p)) traps.

(** *** generateRandomFood *)

(** The second conjunct of the [while] condition of [generateRandomFood]. *)
Definition foodConflict (snake : list Position.t) (traps : list Trap.t)
    (obstacles : list Obstacle.t) (newFood : Position.t) : bool :=
  onSnake snake newFood || onTrap traps newFood ||
  isObstacleCollision newFood obstacles.

(** The body of a [do { ... } while (attempts < maxAttempts && busy)] loop
    that draws a cell per round; [fuel] bounds the rounds still to come. *)
Fixpoint sampleCell (busy : Position.t -> bool) (maxAttempts : Z)
    (fuel : nat) (attempts : Z) : Rand (Position.t * Z) :=
  let* cx := randomBelow boardWidth in
  let* cy := randomBelow boardHeight in
  let cell := Position.mk cx cy in
  let attempts := attempts + 1 in
  if (attempts <? maxAttempts) && busy cell then
    match fuel with
    | S fuel' => sampleCell busy maxAttempts fuel' attempts
    | O => ret (cell, attempts)
    end
  else ret (cell, attempts).

(** The loop of [generateRandomFood]: the last cell drawn and the number
    of attempts made. *)
Definition sampleFood (snake : list Position.t) (traps : list Trap.t)
    (obstacles : list Obstacle.t) : Rand (Position.t * Z) :=
  sampleCell (foodConflict snake traps obstacles) 100 100 0.

Definition generateRandomFood (snake : list Position.t) (traps : list Trap.t)
    (obstacles : list Obstacle.t) : Rand Position.t :=
  let* found := sampleFood snake traps obstacles in
  ret (fst found).

(** *** generateRandomTrap *)

Definition trapConflict (snake : list Position.t) (food : Position.t)
    (existingTraps : list Trap.t) (obstacles : list Obstacle.t)
    (newTrap : Position.t) : bool :=
  onSnake snake newTrap ||
  ((Position.x food =? Position.x newTrap) &&
   (Position.y food =? Position.y newTrap)) ||
  onTrap existingTraps newTrap ||
  isObstacleCollision newTrap obstacles.

Definition generateRandomTrap (now : Z) (snake : list Position.t)
    (food : Position.t) (existingTraps : list Trap.t)
    (obstacles : list Obstacle.t) : Rand (option Trap.t) :=
  let* found :=
    sampleCell (trapConflict snake food existingTraps obstacles) 100 100 0 in
  let newTrap := fst found in
  let attempts := snd found in
  if attempts >=? 100 then ret None
  else
    let* salt := Math_random in
    ret (Some (Trap.mk (TrapIdent now salt)
                       (Position.x newTrap) (Position.y newTrap) now false)).

(** *** generateObstacles and generateSafeObstacles *)

(** The values [lo, lo+1, ..., hi-1] taken by a counting [for] loop. *)
Definition range (lo hi : Z) : list Z :=
  map (fun i => lo + Z.of_nat i) (seq 0 (Z.to_nat (hi - lo))).

(** [usedPositions] is a [Set] of the strings [`${x},${y}`], here a set of
    pairs.  The first loop of both generators reserves the board cells
    within [margin] of each segment. *)
Definition reserveAround (margin : Z) (segments : list Position.t)
    : gset (Z * Z) :=
  fold_left (fun used segment =>
    fold_left (fun used dx =>
      fold_left (fun used dy =>
        let x := Position.x segment + dx in
        let y := Position.y segment + dy in
        if (x >=? 0) && (x <? boardWidth) && (y >=? 0) && (y <? boardHeight)
        then {[ (x, y) ]} ∪ used
        else used)
        (range (- margin) (margin + 1)) used)
      (range (- margin) (margin + 1)) used)
    segments (∅ : gset (Z * Z)).

(** The nested loops that set [hasConflict]. *)
Definition hasConflict (usedPositions : gset (Z * Z))
    (x y width height : Z) : bool :=
  existsb (fun dx =>
    existsb (fun dy => bool_decide ((x + dx, y + dy) ∈ usedPositions))
            (range 0 height))
    (range 0 width).

(** "Mark all positions as used". *)
Definition markUsed (usedPositions : gset (Z * Z))
    (x y width height : Z) : gset (Z * Z) :=
  fold_left (fun used dx =>
    fold_left (fun used dy => {[ (x + dx, y + dy) ]} ∪ used)
              (range 0 height) used)
    (range 0 width) usedPositions.

(** The [while (attempts < maxAttempts)] loop for one obstacle: [Some] when
    it leaves through [break] after a [push], [None] when the attempts run
    out.  [fuel] bounds the rounds. *)
Fixpoint placeObstacle (maxAttempts : Z) (ident : Ident)
    (usedPositions : gset (Z * Z)) (fuel : nat) (attempts : Z)
    : Rand (option Obstacle.t) :=
  match fuel with
  | O => ret None
  | S fuel' =>
    if attempts <? maxAttempts then
      let* w := randomBelow (GAME_CONFIG.MAX_OBSTACLE_SIZE -
                             GAME_CONFIG.MIN_OBSTACLE_SIZE + 1) in
      let width := w + GAME_CONFIG.MIN_OBSTACLE_SIZE in
      let* h := randomBelow (GAME_CONFIG.MAX_OBSTACLE_SIZE -
                             GAME_CONFIG.MIN_OBSTACLE_SIZE + 1) in
      let height := h + GAME_CONFIG.MIN_OBSTACLE_SIZE in
      let* x := randomBelow (boardWidth - width) in
      let* y := randomBelow (boardHeight - height) in
      if hasConflict usedPositions x y width height then
        placeObstacle maxAttempts ident usedPositions fuel' (attempts + 1)
      else
        ret (Some (Obstacle.mk ident x y width height))
    else ret None
  end.

(** The [for (let i = 0; i < OBSTACLES_COUNT; i++)] loop, over the values
    of [i] still to come. *)
Fixpoint obstacleLoop (maxAttempts : Z) (mkIdent : Z -> Ident)
    (indices : list Z) (obstacles : list Obstacle.t)
    (usedPositions : gset (Z * Z)) : Rand (list Obstacle.t) :=
  match indices with
  | [] => ret obstacles
  | i :: rest =>
    let* placed := placeObstacle maxAttempts (mkIdent i) usedPositions
                                 (Z.to_nat maxAttempts) 0 in
    match placed with
    | Some o =>
      obstacleLoop maxAttempts mkIdent rest (obstacles ++ [o])
        (markUsed usedPositions (Obstacle.x o) (Obstacle.y o)
                  (Obstacle.width o) (Obstacle.height o))
    | None => obstacleLoop maxAttempts mkIdent rest obstacles usedPositions
    end
  end.

Definition generateObstacles : Rand (list Obstacle.t) :=
  obstacleLoop 100 ObstacleIdent (range 0 GAME_CONFIG.OBSTACLES_COUNT) []
               (reserveAround 3 INITIAL_SNAKE).

Definition generateSafeObstacles (now : Z) (currentSnake : list Position.t)
    : Rand (list Obstacle.t) :=
  obstacleLoop 200 (ReshapeIdent now) (range 0 GAME_CONFIG.OBSTACLES_COUNT) []
    (reserveAround GAME_CONFIG.SAFE_DISTANCE_FROM_SNAKE currentSnake).

(** *** Snake helpers *)

Definition reduceSnakeLength (snake : list Position.t) : list Position.t :=
  let newLength := Z.max 1 (Z.of_nat (length snake) / 2) in
  take (Z.to_nat newLength) snake.

(** [snake.slice(1).some(...)]: on an empty array the callback never runs. *)
Definition checkSelfCollision (snake : list Position.t) : bool :=
  match snake with
  | [] => false
  | head :: rest =>
    existsb (fun segment =>
               (Position.x segment =? Position.x head) &&
               (Position.y segment =? Position.y head)) rest
  end.

(** [%] is [Z.rem] for a divisor other than 0.  For a side of 0, which
    [calculateGameBoardSize] can return on a small window, the code
    computes [NaN]; this definition leaves the coordinate as it is
    there. *)
Definition wrapPosition (position : Position.t) : Position.t :=
  Position.mk
    (Z.rem (Z.rem (Position.x position) boardWidth + boardWidth) boardWidth)
    (Z.rem (Z.rem (Position.y position) boardHeight + boardHeight) boardHeight).

(** *** moveSnake *)

(** [{ ...prevState, isGameOver: true, isPlaying: false }] *)
Definition gameOver (prevState : GameState) : GameState :=
  mkGameState (snake prevState) (food prevState) (traps prevState)
    (obstacles prevState) (direction prevState) (score prevState)
    true false (trapWarning prevState) (obstacleReshapeCountdown prevState).

(** "End game session": only when a session is active.
    [gameStorage.endGameSession] then draws one random number, for the id
    of the session it stores; the session of the service is active
    whenever the flag of the hook is set. *)
Definition endSession (reason : EndReason) (prevState : GameState)
    (h : Hook) : Hook :=
  if gameSessionActiveRef h then
    let h :=
      call (EndGameSession (score prevState)
                           (Z.of_nat (length (snake prevState))) reason) h in
    let '(_, h) := draw Math_random h in
    setGameSessionActiveRef h false
  else h.

(** The speed step taken when the new score is a multiple of 10. *)
Definition accelerate (newHead : Position.t) (newScore : Z) (h : Hook)
    : Hook :=
  if Z.rem newScore 10 =? 0 then
    let h1 := setGameSpeedRef h (Z.max 50 (gameSpeedRef h - 5)) in
    recordEvent (SpeedIncrease newHead (gameSpeedRef h1) newScore) h1
  else h.

(** The updater of [moveSnake], with the effects it performs.  [None] is
    the [TypeError] raised by [head.x] when the snake is empty. *)
Definition moveSnake (h : Hook) : option Hook :=
  let prevState := gameState h in
  if negb (isPlaying prevState) || isGameOver prevState then Some h
  else
    match snake prevState with
    | [] => None
    | head :: _ =>
      let directionVector := DIRECTIONS (direction prevState) in
      let rawNewHead :=
        Position.mk (Position.x head + Position.x directionVector)
                    (Position.y head + Position.y directionVector) in
      let newHead := wrapPosition rawNewHead in
      let h :=
        if negb (Position.x rawNewHead =? Position.x newHead) ||
           negb (Position.y rawNewHead =? Position.y newHead)
        then recordEvent (WallPassthrough newHead) h
        else h in
      let newSnake := newHead :: snake prevState in
      if checkSelfCollision newSnake then
        Some (setGameState (endSession SelfCollision prevState h)
                           (gameOver prevState))
      else if isObstacleCollision newHead (obstacles prevState) then
        Some (setGameState (endSession ObstacleCollision prevState h)
                           (gameOver prevState))
      else
        let hitTrap :=
          find (fun trap =>
                  negb (Trap.isTriggered trap) &&
                  (Trap.x trap =? Position.x newHead) &&
                  (Trap.y trap =? Position.y newHead))
               (traps prevState) in
        let '(h, newSnake, newTraps, trapWarning) :=
          match hitTrap with
          | Some hitTrap =>
            let h :=
              recordEvent (TrapHit (Trap.position hitTrap)
                                   (Z.of_nat (length newSnake))) h in
            let newTraps :=
              map (fun trap =>
                     if ident_eqb (Trap.id trap) (Trap.id hitTrap)
                     then Trap.trigger trap else trap)
                  (traps prevState) in
            (setTrapRemovals h (trapRemovals h ++ [Trap.id hitTrap]),
             reduceSnakeLength newSnake, newTraps,
             Some (Trap.position hitTrap))
          | None => (h, newSnake, traps prevState, None)
          end in
        let ateFood :=
          (Position.x newHead =? Position.x (food prevState)) &&
          (Position.y newHead =? Position.y (food prevState)) in
        if ateFood then
          let h :=
            recordEvent (FoodEaten newHead (score prevState + 1)
                                   (Z.of_nat (length newSnake))) h in
          let '(newFood, h) :=
            draw (generateRandomFood newSnake newTraps (obstacles prevState))
                 h in
          let newScore := score prevState + 1 in
          let h := accelerate newHead newScore h in
          Some (setGameState h
                  (mkGameState newSnake newFood newTraps
                     (obstacles prevState) (direction prevState) newScore
                     (isGameOver prevState) (isPlaying prevState)
                     trapWarning (obstacleReshapeCountdown prevState)))
        else
          let newSnake :=
            match hitTrap with
            | Some _ => newSnake
            | None => removelast newSnake
            end in
          Some (setGameState h
                  (mkGameState newSnake (food prevState) newTraps
                     (obstacles prevState) (direction prevState)
                     (score prevState)
                     (isGameOver prevState) (isPlaying prevState)
                     trapWarning (obstacleReshapeCountdown prevState)))
    end.

(** The callback a trap hit schedules with [setTimeout]: it removes the
    trap with the given identifier and clears the warning. *)
Definition removeTriggeredTrap (hitId : Ident) (h : Hook) : Hook :=
  let prevState := gameState h in
  setGameState h
    (mkGameState (snake prevState) (food prevState)
       (List.filter (fun trap => negb (ident_eqb (Trap.id trap) hitId))
                    (traps prevState))
       (obstacles prevState) (direction prevState) (score prevState)
       (isGameOver prevState) (isPlaying prevState)
       None (obstacleReshapeCountdown prevState)).

(** The oldest pending removal fires. *)
Definition trapRemovalFires (h : Hook) : Hook :=
  match trapRemovals h with
  | [] => h
  | hitId :: rest => removeTriggeredTrap hitId (setTrapRemovals h rest)
  end.

(** *** The trap scheduler *)

(** [scheduleNextTrap]: any pending timeout is replaced by a fresh one.
    The delay is computed exactly here.  The code rounds the product and
    the sum to doubles, which keeps the delay between the minimum and the
    maximum but lets it reach the maximum itself. *)
Definition scheduleNextTrap (h : Hook) : Hook :=
  let '(r, h) := draw Math_random h in
  let spawnDelay :=
    (r * inject_Z (GAME_CONFIG.TRAP_SPAWN_MAX_INTERVAL -
                   GAME_CONFIG.TRAP_SPAWN_MIN_INTERVAL) +
     inject_Z GAME_CONFIG.TRAP_SPAWN_MIN_INTERVAL)%Q in
  setTrapSpawnTimerRef h (Some spawnDelay).

(** The updater run when the trap timeout fires. *)
Definition spawnTrap (now : Z) (h : Hook) : Hook :=
  let prevState := gameState h in
  if negb (isPlaying prevState) || isGameOver prevState ||
     (Z.of_nat (length (traps prevState)) >=? GAME_CONFIG.MAX_TRAPS)
  then h
  else
    let '(newTrap, h) :=
      draw (generateRandomTrap now (snake prevState) (food prevState)
                               (traps prevState) (obstacles prevState)) h in
    match newTrap with
    | None => h
    | Some newTrap =>
      setGameState h
        (mkGameState (snake prevState) (food prevState)
           (traps prevState ++ [newTrap])
           (obstacles prevState) (direction prevState) (score prevState)
           (isGameOver prevState) (isPlaying prevState)
           (trapWarning prevState) (obstacleReshapeCountdown prevState))
    end.

(** The timeout callback: the updater, then "Schedule next trap". *)
Definition trapTimerFires (now : Z) (h : Hook) : Hook :=
  scheduleNextTrap (spawnTrap now h).

(** *** The obstacle reshape countdown *)

Definition startObstacleReshapeTimer (h : Hook) : Hook :=
  setObstacleReshapeTimerRef h true.

Definition stopObstacleReshapeTimer (h : Hook) : Hook :=
  setObstacleReshapeTimerRef h false.

(** [Math.floor(reshapeTime / 1000)] for a fresh [reshapeTime].  The time
    is computed exactly here.  The code rounds each operation to a double,
    which keeps the countdown between 30 and 45 but lets it reach 45. *)
Definition newReshapeCountdown : Rand Z :=
  let* r := Math_random in
  let reshapeTime :=
    (inject_Z GAME_CONFIG.OBSTACLE_RESHAPE_MIN_TIME +
     r * inject_Z (GAME_CONFIG.OBSTACLE_RESHAPE_MAX_TIME -
                   GAME_CONFIG.OBSTACLE_RESHAPE_MIN_TIME))%Q in
  ret (Qfloor (reshapeTime / inject_Z 1000)).

(** The updater run every second by the reshape interval. *)
Definition reshapeTick (now : Z) (h : Hook) : Hook :=
  let prevState := gameState h in
  if negb (isPlaying prevState) || isGameOver prevState then h
  else
    let newCountdown := obstacleReshapeCountdown prevState - 1 in
    if newCountdown <=? 0 then
      let '(newObstacles, h) :=
        draw (generateSafeObstacles now (snake prevState)) h in
      let '(newFood, h) :=
        draw (generateRandomFood (snake prevState) (traps prevState)
                                 newObstacles) h in
      let '(countdown, h) := draw newReshapeCountdown h in
      setGameState h
        (mkGameState (snake prevState) newFood (traps prevState)
           newObstacles (direction prevState) (score prevState)
           (isGameOver prevState) (isPlaying prevState)
           (trapWarning prevState) countdown)
    else
      setGameState h
        (mkGameState (snake prevState) (food prevState) (traps prevState)
           (obstacles prevState) (direction prevState) (score prevState)
           (isGameOver prevState) (isPlaying prevState)
           (trapWarning prevState) newCountdown).

(** *** Direction, start, pause and reset *)

Definition changeDirection (newDirection : Direction) (h : Hook) : Hook :=
  let prevState := gameState h in
  setGameState h
    (mkGameState (snake prevState) (food prevState) (traps prevState)
       (obstacles prevState) newDirection (score prevState)
       (isGameOver prevState) (isPlaying prevState)
       (trapWarning prevState) (obstacleReshapeCountdown prevState)).

Definition startGame (h : Hook) : Hook :=
  let h := setGameSessionActiveRef (call StartGameSession h) true in
  let prevState := gameState h in
  let h :=
    setGameState h
      (mkGameState (snake prevState) (food prevState) (traps prevState)
         (obstacles prevState) (direction prevState) (score prevState)
         false true
         (trapWarning prevState) (obstacleReshapeCountdown prevState)) in
  startObstacleReshapeTimer (scheduleNextTrap h).

Definition togglePause (h : Hook) : Hook :=
  let prevState := gameState h in
  let newIsPlaying := negb (isPlaying prevState) in
  let h :=
    if newIsPlaying && negb (isGameOver prevState) then
      startObstacleReshapeTimer (scheduleNextTrap h)
    else
      stopObstacleReshapeTimer (setTrapSpawnTimerRef h None) in
  setGameState h
    (mkGameState (snake prevState) (food prevState) (traps prevState)
       (obstacles prevState) (direction prevState) (score prevState)
       (isGameOver prevState) newIsPlaying
       (trapWarning prevState) (obstacleReshapeCountdown prevState)).

Definition resetGame (h : Hook) : Hook :=
  let h := endSession UserQuit (gameState h) h in
  let h := call ClearSavedGame h in
  let h := stopObstacleReshapeTimer (setTrapSpawnTimerRef h None) in
  let h := setGameSpeedRef h GAME_CONFIG.INITIAL_SPEED in
  let initialSnake := INITIAL_SNAKE in
  let '(newObstacles, h) := draw generateObstacles h in
  let '(countdown, h) := draw newReshapeCountdown h in
  let '(newFood, h) :=
    draw (generateRandomFood initialSnake [] newObstacles) h in
  setGameState h
    (mkGameState initialSnake newFood [] newObstacles RIGHT 0
       false false None countdown).

(** *** Vocabulary for statements about a tick *)

(** The tick does something only in this state. *)
Definition playing (s : GameState) : Prop :=
  isPlaying s = true /\ isGameOver s = false.

(** The wrapped head a tick computes, when the snake has a head. *)
Definition nextHead (s : GameState) : option Position.t :=
  match snake s with
  | [] => None
  | head :: _ =>
    Some (wrapPosition
            (Position.mk
               (Position.x head + Position.x (DIRECTIONS (direction s)))
               (Position.y head + Position.y (DIRECTIONS (direction s)))))
  end.

(** The new head runs into the body or into an obstacle. *)
Definition terminalCollision (s : GameState) (newHead : Position.t) : bool :=
  checkSelfCollision (newHead :: snake s) ||
  isObstacleCollision newHead (obstacles s).

(** The untriggered trap the tick finds under the new head, if any. *)
Definition hitTrapAt (s : GameState) (newHead : Position.t)
    : option Trap.t :=
  find (fun trap =>
          negb (Trap.isTriggered trap) &&
          (Trap.x trap =? Position.x newHead) &&
          (Trap.y trap =? Position.y newHead))
       (traps s).

(** The new head is on the food. *)
Definition eatsFood (s : GameState) (newHead : Position.t) : bool :=
  (Position.x newHead =? Position.x (food s)) &&
  (Position.y newHead =? Position.y (food s)).

(** A cell is free of the snake, of the traps and of the obstacles. *)
Definition freeOfSnake (snake : list Position.t) (p : Position.t) : Prop :=
  forall segment, In segment snake -> segment <> p.

Definition freeOfTraps (traps : list Trap.t) (p : Position.t) : Prop :=
  forall trap, In trap traps -> Trap.position trap <> p.

Definition freeOfObstacles (obstacles : list Obstacle.t) (p : Position.t)
    : Prop :=
  forall o, In o obstacles ->
    ~ (Obstacle.x o <= Position.x p < Obstacle.x o + Obstacle.width o /\
       Obstacle.y o <= Position.y p < Obstacle.y o + Obstacle.height o).

(** The obstacle rectangle lies on the board. *)
Definition withinBoard (o : Obstacle.t) : Prop :=
  0 <= Obstacle.x o /\ Obstacle.x o + Obstacle.width o <= boardWidth /\
  0 <= Obstacle.y o /\ Obstacle.y o + Obstacle.height o <= boardHeight.

(** What the draws of one placement attempt guarantee: sizes between the
    configured bounds, and an origin that keeps the rectangle on the board
    along each axis on which the size fits the board. *)
Definition wellPlaced (o : Obstacle.t) : Prop :=
  GAME_CONFIG.MIN_OBSTACLE_SIZE <= Obstacle.width o
    <= GAME_CONFIG.MAX_OBSTACLE_SIZE /\
  GAME_CONFIG.MIN_OBSTACLE_SIZE <= Obstacle.height o
    <= GAME_CONFIG.MAX_OBSTACLE_SIZE /\
  (Obstacle.width o <= boardWidth ->
     0 <= Obstacle.x o /\ Obstacle.x o + Obstacle.width o <= boardWidth) /\
  (Obstacle.height o <= boardHeight ->
     0 <= Obstacle.y o /\ Obstacle.y o + Obstacle.height o <= boardHeight).

(** The live traps do not outnumber [MAX_TRAPS]. *)
Definition trapsWithinLimit (s : GameState) : Prop :=
  Z.of_nat (length (traps s)) <= GAME_CONFIG.MAX_TRAPS.

(** The state built when the hook mounts with no saved game. *)
Definition mount (g : RandomSource) : Hook :=
  let '(obstacles, g) := generateObstacles g in
  let '(countdown, g) := newReshapeCountdown g in
  let '(food, g) := generateRandomFood INITIAL_SNAKE [] obstacles g in
  mkHook
    (mkGameState INITIAL_SNAKE food [] obstacles RIGHT 0 false false None
                 countdown)
    GAME_CONFIG.INITIAL_SPEED false None false [] [] g.

(** *** The operations that change the game state *)

Inductive Operation :=
| Tick
| TrapTimer (now : Z)
| TrapRemoval
| ReshapeTimer (now : Z)
| ChangeDirection (newDirection : Direction)
| Start
| Pause
| Reset.

(** One operation; [None] when the tick raises. *)
Definition run (op : Operation) (h : Hook) : option Hook :=
  match op with
  | Tick => moveSnake h
  | TrapTimer now => Some (trapTimerFires now h)
  | TrapRemoval => Some (trapRemovalFires h)
  | ReshapeTimer now => Some (reshapeTick now h)
  | ChangeDirection d => Some (changeDirection d h)
  | Start => Some (startGame h)
  | Pause => Some (togglePause h)
  | Reset => Some (resetGame h)
  end.

(** A sequence of operations, stopping at the first one that raises. *)
Fixpoint runAll (ops : list Operation) (h : Hook) : option Hook :=
  match ops with
  | [] => Some h
  | op :: rest =>
    match run op h with
    | Some h' => runAll rest h'
    | None => None
    end
  end.

(** The cell drawn in round [k] (counting from 0) of a sampling loop. *)
Definition candidate (g : RandomSource) (k : nat) : Position.t :=
  Position.mk (Qfloor (g (2 * k)%nat * inject_Z boardWidth))
              (Qfloor (g (2 * k + 1)%nat * inject_Z boardHeight)).

End Board.

(** ** The keyboard hook ([hooks/useKeyboard.ts]) *)

Module Keyboard.
Import String.StringSyntax.
Local Open Scope string_scope.

Record t := mk { lastDirectionRef : Direction; lastKeyTimeRef : Z }.

Definition initial : t := mk RIGHT 0.

Definition oppositeDirections (d : Direction) : Direction :=
  match d with
  | UP => DOWN
  | DOWN => UP
  | LEFT => RIGHT
  | RIGHT => LEFT
  end.

(** [toLowerCase] on the letters A to Z. *)
Definition lowerAscii (c : Ascii.ascii) : Ascii.ascii :=
  let n := Ascii.nat_of_ascii c in
  if ((65 <=? n) && (n <=? 90))%nat then Ascii.ascii_of_nat (n + 32) else c.

Fixpoint toLowerCase (s : String.string) : String.string :=
  match s with
  | String.EmptyString => String.EmptyString
  | String.String c rest => String.String (lowerAscii c) (toLowerCase rest)
  end.

(** The [switch] on [event.key.toLowerCase()]. *)
Definition keyDirection (key : String.string) : option Direction :=
  let k := toLowerCase key in
  if String.eqb k "arrowup" || String.eqb k "w" then Some UP
  else if String.eqb k "arrowdown" || String.eqb k "s" then Some DOWN
  else if String.eqb k "arrowleft" || String.eqb k "a" then Some LEFT
  else if String.eqb k "arrowright" || String.eqb k "d" then Some RIGHT
  else None.

(** [handleKeyPress]: the new refs and the direction passed to
    [onDirectionChange], if it is called. *)
Definition handleKeyPress (now : Z) (key : String.string) (k : t)
    : t * option Direction :=
  if now - lastKeyTimeRef k <? 50 then (k, None)
  else
    let k := mk (lastDirectionRef k) now in
    match keyDirection key with
    | None => (k, None)
    | Some newDirection =>
      if negb (direction_eqb newDirection
                             (oppositeDirections (lastDirectionRef k)))
      then (mk newDirection (lastKeyTimeRef k), Some newDirection)
      else (k, None)
    end.

Definition updateLastDirection (direction : Direction) (k : t) : t :=
  mk direction (lastKeyTimeRef k).
End Keyboard.

(** ** Sample states *)

Module Examples.

(** A tape on which every draw is 0. *)
Definition zeros : RandomSource := fun _ => 0%Q.

(** A tape whose first 198 draws are 0 and whose later draws are 1/2: the
    first 99 cells sampled are (0,0), the 100th is the middle of the
    board. *)
Definition lateHalf : RandomSource :=
  fun n => if (n <? 198)%nat then 0%Q else (1 # 2)%Q.

Definition row (y : Z) (xs : list Z) : list Position.t :=
  map (fun x => Position.mk x y) xs.

Definition threeCells : list Position.t := row 10 [10; 9; 8].

Definition sevenCells : list Position.t := row 10 [10; 9; 8; 7; 6; 5; 4].

Definition trapAhead : Trap.t := Trap.mk (TrapIdent 1000 0) 11 10 1000 false.

Definition wallAhead : Obstacle.t := Obstacle.mk (ObstacleIdent 0) 11 9 1 3.

(** A hook in the middle of a game, heading right. *)
Definition playingHook (snake : list Position.t) (food : Position.t)
    (traps : list Trap.t) (obstacles : list Obstacle.t) (score : Z) : Hook :=
  mkHook
    (mkGameState snake food traps obstacles RIGHT score false true None 30)
    150 true (Some (inject_Z 12000)) true [] [] zeros.

(** Seven cells long, one step before an untriggered trap. *)
Definition trapHit : Hook :=
  playingHook sevenCells (Position.mk 0 0) [trapAhead] [] 0.

(** Three cells long, one step before an obstacle. *)
Definition crash : Hook :=
  playingHook threeCells (Position.mk 0 0) [] [wallAhead] 4.

(** Three cells long, one step before the food, with nine points. *)
Definition tenthPoint : Hook :=
  playingHook threeCells (Position.mk 11 10) [] [] 9.

(** Three cells long, nothing ahead. *)
Definition plain : Hook :=
  playingHook threeCells (Position.mk 0 0) [] [] 0.

(** The first obstacle placed on the all-zero tape. *)
Definition cornerObstacle : Obstacle.t :=
  Obstacle.mk (ObstacleIdent 0) 0 0 1 1.

End Examples.

(** ** The touch hook ([hooks/useTouchControls.ts]) *)

Module Touch.

(** [touchStartRef.current] when it is not [null]. *)
Record TouchStartEvent := mkStart { startX : Q; startY : Q; timestamp : Z }.

Record t := mk
  { touchStartRef : option TouchStartEvent;
    lastDirectionChangeRef : Z }.

Definition initial : t := mk None 0.

(** [handleTouchStart]: [touches] holds the [clientX] and [clientY] of
    [event.touches]. *)
Definition handleTouchStart (isGamePlaying : bool) (now : Z)
    (touches : list (Q * Q)) (st : t) : t :=
  match touches with
  | [touch] =>
    if isGamePlaying
    then mk (Some (mkStart (fst touch) (snd touch) now))
            (lastDirectionChangeRef st)
    else st
  | _ => st
  end.

(** [handleTouchEnd]: the new refs and the direction passed to
    [changeDirection], if it is called.  [now] is the time every
    [Date.now()] of the call returns. *)
Definition handleTouchEnd (isGamePlaying : bool) (now : Z)
    (changedTouches : list (Q * Q)) (st : t) : t * option Direction :=
  match isGamePlaying, touchStartRef st, changedTouches with
  | true, Some start, [touch] =>
    let deltaX := (fst touch - startX start)%Q in
    let deltaY := (snd touch - startY start)%Q in
    let deltaTime := now - timestamp start in
    let minSwipeDistance := inject_Z 30 in
    let maxSwipeTime := 300 in
    if (deltaTime >? maxSwipeTime) || (now - lastDirectionChangeRef st <? 100)
    then (mk None (lastDirectionChangeRef st), None)
    else
      let absX := Qabs deltaX in
      let absY := Qabs deltaY in
      if Qlt_le_dec (Qmax absX absY) minSwipeDistance
      then (mk None (lastDirectionChangeRef st), None)
      else
        let newDirection :=
          if Qlt_le_dec absY absX
          then (if Qlt_le_dec 0 deltaX then RIGHT else LEFT)
          else (if Qlt_le_dec 0 deltaY then DOWN else UP) in
        (mk None now, Some newDirection)
  | _, _, _ => (st, None)
  end.

End Touch.

(** ** The board component ([components/GameBoard.tsx]) *)

Module GameBoard.

(** The hooks the component holds. *)
Record t := mk { hook : Hook; keyboard : Keyboard.t; touch : Touch.t }.

(** The effect on [gameState.direction]: [updateLastDirection]. *)
Definition syncKeyboard (b : t) : t :=
  mk (hook b)
     (Keyboard.updateLastDirection (direction (gameState (hook b)))
                                   (keyboard b))
     (touch b).

(** [handleSpaceBar] *)
Definition handleSpaceBar (boardWidth boardHeight : Z) (h : Hook) : Hook :=
  let s := gameState h in
  if isGameOver s then resetGame boardWidth boardHeight h
  else if negb (isPlaying s) && (Z.of_nat (length (snake s)) =? 3) &&
          (score s =? 0)
  then startGame h
  else togglePause h.

(** A [keydown] event: both listeners run, the keyboard hook on [key] and
    the space-bar handler when [code] is [Space]; the direction effect
    follows. *)
Definition keyDown (boardWidth boardHeight : Z) (now : Z)
    (key : String.string) (isSpace : bool) (b : t) : t :=
  let '(k, emitted) := Keyboard.handleKeyPress now key (keyboard b) in
  let h :=
    match emitted with
    | Some d => changeDirection d (hook b)
    | None => hook b
    end in
  let h := if isSpace then handleSpaceBar boardWidth boardHeight h else h in
  syncKeyboard (mk h k (touch b)).

(** A [touchstart] and a [touchend] on the board. *)
Definition touchStart (now : Z) (touches : list (Q * Q)) (b : t) : t :=
  mk (hook b) (keyboard b)
     (Touch.handleTouchStart (isPlaying (gameState (hook b))) now touches
                             (touch b)).

Definition touchEnd (now : Z) (changedTouches : list (Q * Q)) (b : t) : t :=
  let '(st, emitted) :=
    Touch.handleTouchEnd (isPlaying (gameState (hook b))) now changedTouches
                         (touch b) in
  let h :=
    match emitted with
    | Some d => changeDirection d (hook b)
    | None => hook b
    end in
  syncKeyboard (mk h (keyboard b) st).

(** What happens to a mounted board: the four timer callbacks and the
    input events. *)
Inductive Event :=
| TickFires
| TrapTimerFires (now : Z)
| TrapRemovalFires
| ReshapeFires (now : Z)
| KeyDown (now : Z) (key : String.string) (isSpace : bool)
| TouchStart (now : Z) (touches : list (Q * Q))
| TouchEnd (now : Z) (changedTouches : list (Q * Q)).

(** The hook operation a timer event runs. *)
Definition timerOp (e : Event) : option Operation :=
  match e with
  | TickFires => Some Tick
  | TrapTimerFires now => Some (TrapTimer now)
  | TrapRemovalFires => Some TrapRemoval
  | ReshapeFires now => Some (ReshapeTimer now)
  | _ => None
  end.

(** One event; [None] when the tick raises. *)
Definition step (boardWidth boardHeight : Z) (e : Event) (b : t) : option t :=
  match e with
  | KeyDown now key isSpace =>
    Some (keyDown boardWidth boardHeight now key isSpace b)
  | TouchStart now touches => Some (touchStart now touches b)
  | TouchEnd now changedTouches => Some (touchEnd now changedTouches b)
  | _ =>
    match timerOp e with
    | Some op =>
      match run boardWidth boardHeight op (hook b) with
      | Some h => Some (syncKeyboard (mk h (keyboard b) (touch b)))
      | None => None
      end
    | None => Some b
    end
  end.

Fixpoint steps (boardWidth boardHeight : Z) (es : list Event) (b : t)
    : option t :=
  match es with
  | [] => Some b
  | e :: rest =>
    match step boardWidth boardHeight e b with
    | Some b' => steps boardWidth boardHeight rest b'
    | None => None
    end
  end.

(** The keyboard hook knows the direction the game state holds. *)
Definition inSync (b : t) : Prop :=
  Keyboard.lastDirectionRef (keyboard b) = direction (gameState (hook b)).

(** The state the start overlay is shown for, when not playing. *)
Definition looksFresh (s : GameState) : Prop :=
  Z.of_nat (length (snake s)) = 3 /\ score s = 0.

(** A playing game is not over and has an active storage session, and a
    game that is neither playing nor over is either one the start overlay
    is shown for or a paused one with an active session. *)
Definition coherent (h : Hook) : Prop :=
  (isPlaying (gameState h) = true ->
   isGameOver (gameState h) = false /\ gameSessionActiveRef h = true) /\
  (isPlaying (gameState h) = false -> isGameOver (gameState h) = false ->
   looksFresh (gameState h) \/ gameSessionActiveRef h = true).

End GameBoard.

(** ** The board size ([utils/deviceUtils.ts]) *)

Module Device.

(** What the functions read from [window]: the inner size and whether the
    user agent matches the mobile pattern. *)
Record Window := mkWindow
  { innerWidth : Z; innerHeight : Z; mobileUserAgent : bool }.

Record BoardSize := mkSize
  { width : Z; height : Z; cellSize : Z; isMobile : bool }.

Definition isMobileDevice (window : option Window) : bool :=
  match window with
  | None => false
  | Some w =>
    let isMobileSize := innerWidth w <=? 768 in
    let isMobileUA := mobileUserAgent w in
    isMobileSize || isMobileUA
  end.

(** [Math.floor(a / b)] on numbers. *)
Definition floorDiv (a b : Z) : Z := Qfloor (inject_Z a / inject_Z b).

Definition calculateGameBoardSize (window : option Window) : BoardSize :=
  match window with
  | None => mkSize 20 20 20 false
  | Some w =>
    let isMobile := isMobileDevice window in
    let reservedHeight := if isMobile then 320 else 320 in
    let reservedWidth := if isMobile then 20 else 40 in
    let availableWidth :=
      Z.min (innerWidth w - reservedWidth)
            (if isMobile then innerWidth w - 20 else 800) in
    let availableHeight :=
      Z.min (innerHeight w - reservedHeight)
            (if isMobile then innerHeight w - 320 else 800) in
    if isMobile then
      let minCellSize := 8 in
      let maxCellSize := 16 in
      let maxCellsWidth := floorDiv availableWidth minCellSize in
      let maxCellsHeight := floorDiv availableHeight minCellSize in
      let targetCells := Z.min maxCellsWidth maxCellsHeight in
      let boardWidth := Z.max 15 (Z.min 25 targetCells) in
      let boardHeight := boardWidth in
      let cellSize :=
        Qfloor (Qmin (inject_Z availableWidth / inject_Z boardWidth)
                     (inject_Z availableHeight / inject_Z boardHeight)) in
      let cellSize := Z.max minCellSize (Z.min maxCellSize cellSize) in
      let actualBoardWidth := boardWidth * cellSize in
      let actualBoardHeight := boardHeight * cellSize in
      if (actualBoardWidth >? availableWidth) ||
         (actualBoardHeight >? availableHeight)
      then mkSize (floorDiv availableWidth cellSize)
                  (floorDiv availableHeight cellSize) cellSize isMobile
      else mkSize boardWidth boardHeight cellSize isMobile
    else mkSize 40 40 20 isMobile
  end.

(** The space left for the board on a mobile window. *)
Definition availableWidth (w : Window) : Z := innerWidth w - 20.
Definition availableHeight (w : Window) : Z := innerHeight w - 320.

End Device.

(** ** The storage service ([services/gameStorage.ts]) *)

Module GameSession.
(** [id] holds the two values the id string is built from: the session
    start time and the random number. *)
Record t := mk
  { id : Z * Q;
    timestamp : Z;
    score : Z;
    duration : Z;
    snakeLength : Z;
    trapsEncountered : Z;
    gameEvents : list (GameEvent * Z);
    endReason : EndReason }.
End GameSession.

Module GameStatistics.
Record t := mk
  { totalGamesPlayed : Z;
    bestScore : Z;
    averageScore : Q;
    totalPlaytime : Z;
    totalFoodEaten : Z;
    totalTrapsHit : Z;
    totalWallPassthroughs : Z;
    gamesThisSession : Z;
    lastPlayed : Z }.
End GameStatistics.

Module SavedGameState.
Record t := mk
  { gameState : GameState;
    gameSpeed : Z;
    sessionStartTime : Z;
    events : list (GameEvent * Z);
    trapsEncountered : Z }.
End SavedGameState.

Module Settings.
Record t := mk { autoSave : bool; maxHistorySize : Z }.
End Settings.

Module GameStorageData.
(** The data as [JSON.parse] returns it: every object is a new one. *)
Record t := mk
  { version : Z;
    history : list GameSession.t;
    statistics : GameStatistics.t;
    savedGame : option SavedGameState.t;
    settings : Settings.t }.
End GameStorageData.

Module Storage.

Definition MAX_HISTORY_SIZE : Z := 50.

(** [DEFAULT_STORAGE_DATA] when the module is loaded. *)
Definition DEFAULT_STORAGE_DATA : GameStorageData.t :=
  GameStorageData.mk 1 []
    (GameStatistics.mk 0 0 0 0 0 0 0 0 0)
    None
    (Settings.mk true MAX_HISTORY_SIZE).

(** A field of [this.data] that holds an object: the object of
    [DEFAULT_STORAGE_DATA], which the shallow copy [{ ...DEFAULT_STORAGE_DATA }]
    shares, or an object of its own. *)
Inductive Ref (A : Type) :=
| Shared
| Own (a : A).
Arguments Shared {A}.
Arguments Own {A} a.

(** What [localStorage.setItem] does: it stores the string, or throws a
    [QuotaExceededError], or throws something else. *)
Inductive SetItem := Stores | QuotaExceeded | Throws.

(** The service, the two objects of the module constant that it can
    mutate, and the entry of [localStorage]. *)
Record t := mk
  { defaultHistory : list GameSession.t;
    defaultStatistics : GameStatistics.t;
    version : Z;
    history : Ref (list GameSession.t);
    statistics : Ref GameStatistics.t;
    savedGame : option SavedGameState.t;
    settings : Settings.t;
    sessionStartTime : Z;
    currentGameEvents : list (GameEvent * Z);
    trapsEncountered : Z;
    localStorage : option GameStorageData.t }.

(** [this.data.history] and [this.data.statistics], read. *)
Definition dataHistory (s : t) : list GameSession.t :=
  match history s with
  | Shared => defaultHistory s
  | Own l => l
  end.

Definition dataStatistics (s : t) : GameStatistics.t :=
  match statistics s with
  | Shared => defaultStatistics s
  | Own st => st
  end.

(** [this.data], as [JSON.stringify] sees it. *)
Definition data (s : t) : GameStorageData.t :=
  GameStorageData.mk (version s) (dataHistory s) (dataStatistics s)
                     (savedGame s) (settings s).

(** [this.data.history = l]: the field gets a new array. *)
Definition assignHistory (l : list GameSession.t) (s : t) : t :=
  mk (defaultHistory s) (defaultStatistics s) (version s) (Own l)
     (statistics s) (savedGame s) (settings s) (sessionStartTime s)
     (currentGameEvents s) (trapsEncountered s) (localStorage s).

(** [this.data.history.push(x)]: the array the field holds is changed. *)
Definition pushHistory (x : GameSession.t) (s : t) : t :=
  match history s with
  | Shared =>
    mk (defaultHistory s ++ [x]) (defaultStatistics s) (version s) Shared
       (statistics s) (savedGame s) (settings s) (sessionStartTime s)
       (currentGameEvents s) (trapsEncountered s) (localStorage s)
  | Own l => assignHistory (l ++ [x]) s
  end.

(** [this.data.statistics = st]: the field gets a new object. *)
Definition assignStatistics (st : GameStatistics.t) (s : t) : t :=
  mk (defaultHistory s) (defaultStatistics s) (version s) (history s)
     (Own st) (savedGame s) (settings s) (sessionStartTime s)
     (currentGameEvents s) (trapsEncountered s) (localStorage s).

(** An assignment to fields of [this.data.statistics]: the object the
    field holds is changed. *)
Definition updateStatistics (f : GameStatistics.t -> GameStatistics.t)
    (s : t) : t :=
  match statistics s with
  | Shared =>
    mk (defaultHistory s) (f (defaultStatistics s)) (version s) (history s)
       Shared (savedGame s) (settings s) (sessionStartTime s)
       (currentGameEvents s) (trapsEncountered s) (localStorage s)
  | Own st => assignStatistics (f st) s
  end.

Definition setSavedGame (g : option SavedGameState.t) (s : t) : t :=
  mk (defaultHistory s) (defaultStatistics s) (version s) (history s)
     (statistics s) g (settings s) (sessionStartTime s)
     (currentGameEvents s) (trapsEncountered s) (localStorage s).

(** The three fields that track the running session. *)
Definition setSession (start : Z) (events : list (GameEvent * Z))
    (traps : Z) (s : t) : t :=
  mk (defaultHistory s) (defaultStatistics s) (version s) (history s)
     (statistics s) (savedGame s) (settings s) start events traps
     (localStorage s).

Definition setLocalStorage (d : option GameStorageData.t) (s : t) : t :=
  mk (defaultHistory s) (defaultStatistics s) (version s) (history s)
     (statistics s) (savedGame s) (settings s) (sessionStartTime s)
     (currentGameEvents s) (trapsEncountered s) d.

(** [Array.prototype.slice(start)] for an integer [start]. *)
Definition slice {A : Type} (start : Z) (l : list A) : list A :=
  let len := Z.of_nat (length l) in
  let k := if start <? 0 then Z.max (len + start) 0 else Z.min start len in
  skipn (Z.to_nat k) l.

(** The constructor: [loadData] on the entry of [localStorage], for a
    module constant whose history and statistics are the given ones.  A
    missing entry gives the shallow copy of the constant. *)
Definition construct (defaultHistory : list GameSession.t)
    (defaultStatistics : GameStatistics.t)
    (stored : option GameStorageData.t) : t :=
  match stored with
  | None =>
    mk defaultHistory defaultStatistics
       (GameStorageData.version DEFAULT_STORAGE_DATA) Shared Shared
       (GameStorageData.savedGame DEFAULT_STORAGE_DATA)
       (GameStorageData.settings DEFAULT_STORAGE_DATA) 0 [] 0 None
  | Some parsed =>
    mk defaultHistory defaultStatistics
       (GameStorageData.version parsed)
       (Own (GameStorageData.history parsed))
       (Own (GameStorageData.statistics parsed))
       (GameStorageData.savedGame parsed)
       (GameStorageData.settings parsed) 0 [] 0 stored
  end.

(** The service of a page that has just loaded the module. *)
Definition fresh (stored : option GameStorageData.t) : t :=
  construct (GameStorageData.history DEFAULT_STORAGE_DATA)
            (GameStorageData.statistics DEFAULT_STORAGE_DATA) stored.

Definition clearOldestGames (count : Z) (s : t) : t :=
  assignHistory (slice count (dataHistory s)) s.

(** [saveData]; [first] and [retry] are what the first and the second
    [setItem] do. *)
Definition saveData (first retry : SetItem) (s : t) : bool * t :=
  let s :=
    if Z.of_nat (length (dataHistory s)) >?
       Settings.maxHistorySize (settings s)
    then assignHistory
           (slice (- Settings.maxHistorySize (settings s)) (dataHistory s)) s
    else s in
  match first with
  | Stores => (true, setLocalStorage (Some (data s)) s)
  | QuotaExceeded =>
    let s := clearOldestGames 10 s in
    match retry with
    | Stores => (true, setLocalStorage (Some (data s)) s)
    | _ => (false, s)
    end
  | Throws => (false, s)
  end.

Definition startGameSession (now : Z) (s : t) : t :=
  let s := setSession now [] 0 s in
  updateStatistics
    (fun st =>
       GameStatistics.mk
         (GameStatistics.totalGamesPlayed st) (GameStatistics.bestScore st)
         (GameStatistics.averageScore st) (GameStatistics.totalPlaytime st)
         (GameStatistics.totalFoodEaten st) (GameStatistics.totalTrapsHit st)
         (GameStatistics.totalWallPassthroughs st)
         (GameStatistics.gamesThisSession st + 1)
         (GameStatistics.lastPlayed st)) s.

Definition recordEvent (event : GameEvent) (now : Z) (s : t) : t :=
  let s :=
    setSession (sessionStartTime s) (currentGameEvents s ++ [(event, now)])
               (trapsEncountered s) s in
  match event with
  | FoodEaten _ _ _ =>
    updateStatistics
      (fun st =>
         GameStatistics.mk
           (GameStatistics.totalGamesPlayed st) (GameStatistics.bestScore st)
           (GameStatistics.averageScore st) (GameStatistics.totalPlaytime st)
           (GameStatistics.totalFoodEaten st + 1)
           (GameStatistics.totalTrapsHit st)
           (GameStatistics.totalWallPassthroughs st)
           (GameStatistics.gamesThisSession st)
           (GameStatistics.lastPlayed st)) s
  | TrapHit _ _ =>
    let s :=
      updateStatistics
        (fun st =>
           GameStatistics.mk
             (GameStatistics.totalGamesPlayed st)
             (GameStatistics.bestScore st)
             (GameStatistics.averageScore st)
             (GameStatistics.totalPlaytime st)
             (GameStatistics.totalFoodEaten st)
             (GameStatistics.totalTrapsHit st + 1)
             (GameStatistics.totalWallPassthroughs st)
             (GameStatistics.gamesThisSession st)
             (GameStatistics.lastPlayed st)) s in
    setSession (sessionStartTime s) (currentGameEvents s)
               (trapsEncountered s + 1) s
  | WallPassthrough _ =>
    updateStatistics
      (fun st =>
         GameStatistics.mk
           (GameStatistics.totalGamesPlayed st) (GameStatistics.bestScore st)
           (GameStatistics.averageScore st) (GameStatistics.totalPlaytime st)
           (GameStatistics.totalFoodEaten st)
           (GameStatistics.totalTrapsHit st)
           (GameStatistics.totalWallPassthroughs st + 1)
           (GameStatistics.gamesThisSession st)
           (GameStatistics.lastPlayed st)) s
  | SpeedIncrease _ _ _ => s
  end.

(** The sum [reduce] computes over the scores of the history. *)
Definition totalScore (l : list GameSession.t) : Z :=
  fold_left (fun sum game => sum + GameSession.score game) l 0.

(** [endGameSession]; [now] is the time of the first [Date.now()],
    [later] that of the second, [r] the random number of the id. *)
Definition endGameSession (finalScore snakeLength : Z) (reason : EndReason)
    (now later : Z) (r : Q) (first retry : SetItem) (s : t) : bool * t :=
  if sessionStartTime s =? 0 then (false, s)
  else
    let duration := now - sessionStartTime s in
    let gameSession :=
      GameSession.mk (sessionStartTime s, r) (sessionStartTime s) finalScore
                     duration snakeLength (trapsEncountered s)
                     (currentGameEvents s) reason in
    let s := pushHistory gameSession s in
    let s :=
      updateStatistics
        (fun st =>
           GameStatistics.mk
             (GameStatistics.totalGamesPlayed st + 1)
             (GameStatistics.bestScore st)
             (GameStatistics.averageScore st)
             (GameStatistics.totalPlaytime st + duration)
             (GameStatistics.totalFoodEaten st)
             (GameStatistics.totalTrapsHit st)
             (GameStatistics.totalWallPassthroughs st)
             (GameStatistics.gamesThisSession st)
             later) s in
    let s :=
      if finalScore >? GameStatistics.bestScore (dataStatistics s)
      then
        updateStatistics
          (fun st =>
             GameStatistics.mk
               (GameStatistics.totalGamesPlayed st) finalScore
               (GameStatistics.averageScore st)
               (GameStatistics.totalPlaytime st)
               (GameStatistics.totalFoodEaten st)
               (GameStatistics.totalTrapsHit st)
               (GameStatistics.totalWallPassthroughs st)
               (GameStatistics.gamesThisSession st)
               (GameStatistics.lastPlayed st)) s
      else s in
    let total := totalScore (dataHistory s) in
    let s :=
      updateStatistics
        (fun st =>
           GameStatistics.mk
             (GameStatistics.totalGamesPlayed st)
             (GameStatistics.bestScore st)
             (inject_Z total / inject_Z (GameStatistics.totalGamesPlayed st))
             (GameStatistics.totalPlaytime st)
             (GameStatistics.totalFoodEaten st)
             (GameStatistics.totalTrapsHit st)
             (GameStatistics.totalWallPassthroughs st)
             (GameStatistics.gamesThisSession st)
             (GameStatistics.lastPlayed st)) s in
    let s := setSavedGame None s in
    let s := setSession 0 [] 0 s in
    saveData first retry s.

Definition saveGameState (gameState : GameState) (gameSpeed : Z)
    (first retry : SetItem) (s : t) : bool * t :=
  if sessionStartTime s =? 0 then (false, s)
  else
    let s :=
      setSavedGame
        (Some (SavedGameState.mk gameState gameSpeed (sessionStartTime s)
                                 (currentGameEvents s) (trapsEncountered s)))
        s in
    saveData first retry s.

Definition loadSavedGame (s : t) : option SavedGameState.t := savedGame s.

Definition resumeSavedGame (s : t) : bool * t :=
  match savedGame s with
  | None => (false, s)
  | Some saved =>
    (true,
     setSession (SavedGameState.sessionStartTime saved)
                (SavedGameState.events saved)
                (SavedGameState.trapsEncountered saved) s)
  end.

Definition clearSavedGame (first retry : SetItem) (s : t) : bool * t :=
  saveData first retry (setSavedGame None s).

Definition getGameHistory (s : t) : list GameSession.t :=
  rev (dataHistory s).

Definition getStatistics (s : t) : GameStatistics.t := dataStatistics s.

(** [clearHistory]: the new statistics are a copy of the statistics of
    [DEFAULT_STORAGE_DATA] as they are now, with [gamesThisSession] kept. *)
Definition clearHistory (first retry : SetItem) (s : t) : bool * t :=
  let kept := GameStatistics.gamesThisSession (dataStatistics s) in
  let s := assignHistory [] s in
  let d := defaultStatistics s in
  let s :=
    assignStatistics
      (GameStatistics.mk
         (GameStatistics.totalGamesPlayed d) (GameStatistics.bestScore d)
         (GameStatistics.averageScore d) (GameStatistics.totalPlaytime d)
         (GameStatistics.totalFoodEaten d) (GameStatistics.totalTrapsHit d)
         (GameStatistics.totalWallPassthroughs d) kept
         (GameStatistics.lastPlayed d)) s in
  saveData first retry s.

(** The calls the game hook and the history panel make. *)
Inductive Call :=
| StartGameSession (now : Z)
| RecordEvent (event : GameEvent) (now : Z)
| EndGameSession (finalScore snakeLength : Z) (reason : EndReason)
                 (now later : Z) (r : Q) (first retry : SetItem)
| SaveGameState (gameState : GameState) (gameSpeed : Z)
                (first retry : SetItem)
| ResumeSavedGame
| ClearSavedGame (first retry : SetItem)
| ClearHistory (first retry : SetItem).

Definition perform (c : Call) (s : t) : t :=
  match c with
  | StartGameSession now => startGameSession now s
  | RecordEvent event now => recordEvent event now s
  | EndGameSession finalScore snakeLength reason now later r first retry =>
    snd (endGameSession finalScore snakeLength reason now later r first
                        retry s)
  | SaveGameState gameState gameSpeed first retry =>
    snd (saveGameState gameState gameSpeed first retry s)
  | ResumeSavedGame => snd (resumeSavedGame s)
  | ClearSavedGame first retry => snd (clearSavedGame first retry s)
  | ClearHistory first retry => snd (clearHistory first retry s)
  end.

Definition performAll (cs : list Call) (s : t) : t :=
  fold_left (fun s c => perform c s) cs s.

(** No score in the history is above the best score, and the history is
    no longer than the settings allow. *)
Definition historyWithinStatistics (s : t) : Prop :=
  Z.of_nat (length (dataHistory s)) <= Settings.maxHistorySize (settings s) /\
  Forall (fun game =>
            GameSession.score game <=
            GameStatistics.bestScore (dataStatistics s))
         (dataHistory s).

End Storage.

(** ** Vocabulary for further statements *)

(** The cell is on the board. *)
Definition onBoard (boardWidth boardHeight : Z) (p : Position.t) : Prop :=
  0 <= Position.x p < boardWidth /\ 0 <= Position.y p < boardHeight.

(** The head before wrapping, when the snake has a head. *)
Definition rawHead (s : GameState) : option Position.t :=
  match snake s with
  | [] => None
  | head :: _ =>
    Some (Position.mk
            (Position.x head + Position.x (DIRECTIONS (direction s)))
            (Position.y head + Position.y (DIRECTIONS (direction s))))
  end.

(** The wall-passthrough call a tick makes: one when wrapping moved the
    head, none otherwise. *)
Definition wallCalls (boardWidth boardHeight : Z) (s : GameState)
    : list StorageCall :=
  match rawHead s with
  | None => []
  | Some raw =>
    let newHead := wrapPosition boardWidth boardHeight raw in
    if negb (Position.x raw =? Position.x newHead) ||
       negb (Position.y raw =? Position.y newHead)
    then [RecordEvent (WallPassthrough newHead)]
    else []
  end.

(** The obstacle rectangle contains the cell [(cx, cy)]. *)
Definition covers (o : Obstacle.t) (cx cy : Z) : Prop :=
  Obstacle.x o <= cx < Obstacle.x o + Obstacle.width o /\
  Obstacle.y o <= cy < Obstacle.y o + Obstacle.height o.

(** The cell [(cx, cy)] is within [margin] of the segment along both
    axes. *)
Definition near (margin : Z) (segment : Position.t) (cx cy : Z) : Prop :=
  Position.x segment - margin <= cx <= Position.x segment + margin /\
  Position.y segment - margin <= cy <= Position.y segment + margin.

(** No two obstacles of the list share a cell. *)
Definition disjointObstacles (l : list Obstacle.t) : Prop :=
  forall i j o1 o2 cx cy,
    i <> j -> nth_error l i = Some o1 -> nth_error l j = Some o2 ->
    covers o1 cx cy -> ~ covers o2 cx cy.

(** What the placement loop keeps true: every cell reserved at the start
    stays marked, every cell of a placed obstacle is marked and was not
    reserved, and no two placed obstacles share a cell. *)
Definition placementInvariant (reserved : gset (Z * Z))
    (obstacles : list Obstacle.t) (usedPositions : gset (Z * Z)) : Prop :=
  (forall c, c ∈ reserved -> c ∈ usedPositions) /\
  (forall o cx cy, In o obstacles -> covers o cx cy ->
     (cx, cy) ∈ usedPositions /\ (cx, cy) ∉ reserved) /\
  disjointObstacles obstacles.

(** The tick interval stays between the floor and the initial value. *)
Definition speedInRange (h : Hook) : Prop :=
  50 <= gameSpeedRef h <= GAME_CONFIG.INITIAL_SPEED.

(** The callbacks driven by timers: the tick, the trap timer and the
    reshape interval. *)
Definition timerOperation (op : Operation) : Prop :=
  match op with
  | Tick | TrapTimer _ | ReshapeTimer _ => True
  | _ => False
  end.

(** The parts of the service [saveData] leaves alone. *)
Definition sameButHistory (s s' : Storage.t) : Prop :=
  Storage.dataStatistics s' = Storage.dataStatistics s /\
  Storage.statistics s' = Storage.statistics s /\
  Storage.defaultStatistics s' = Storage.defaultStatistics s /\
  Storage.settings s' = Storage.settings s /\
  Storage.savedGame s' = Storage.savedGame s /\
  Storage.sessionStartTime s' = Storage.sessionStartTime s /\
  Storage.currentGameEvents s' = Storage.currentGameEvents s /\
  Storage.trapsEncountered s' = Storage.trapsEncountered s.

(** ** More sample states *)

Module Samples.

(** The state after one tick on the 40 by 40 board. *)
Definition tick (h : Hook) : Hook :=
  match moveSnake 40 40 h with
  | Some h' => h'
  | None => h
  end.

(** One second before the obstacles reshape. *)
Definition aboutToReshape : Hook :=
  mkHook
    (mkGameState Examples.threeCells (Position.mk 0 0) [] [Examples.wallAhead]
                 RIGHT 3 false true None 1)
    150 true (Some (inject_Z 12000)) true [] [] Examples.zeros.

Import String.StringSyntax.
Local Open Scope string_scope.

(** Key names as [event.key] gives them. *)
Definition keyW : String.string := "w".
Definition keyA : String.string := "a".
Definition keyArrowUp : String.string := "ArrowUp".
Definition keySpace : String.string := " ".

(** A finished game whose snake was heading left. *)
Definition finishedHeadingLeft : Hook :=
  mkHook
    (mkGameState (Examples.row 10 [8; 9; 10]) (Position.mk 0 0) []
                 [Obstacle.mk (ObstacleIdent 0) 7 10 1 1]
                 LEFT 4 true false None 12)
    150 false None false [] [] Examples.zeros.

(** A board just after a key press at time 0, in the middle of a game. *)
Definition board (h : Hook) : GameBoard.t :=
  GameBoard.mk h (Keyboard.mk (direction (gameState h)) 0) Touch.initial.

(** A phone held upright and the same phone on its side. *)
Definition phoneUpright : Device.Window := Device.mkWindow 390 844 true.
Definition phoneOnItsSide : Device.Window := Device.mkWindow 844 390 true.

End Samples.

(** * Properties *)

(** ** Grid geometry *)

Lemma rem_wrap (v n : Z) :
  0 < n -> Z.rem (Z.rem v n + n) n = v mod n.
Proof.
  intros Hn.
  assert (Hr : - n < Z.rem v n < n).
  { pose proof (Z.rem_bound_abs v n ltac:(lia)). lia. }
  rewrite Z.rem_mod_nonneg by lia.
  rewrite (Z.rem_eq v n) by lia.
  replace (v - n * (v ÷ n) + n) with (v + (1 - v ÷ n) * n) by ring.
  apply Z.mod_add. lia.
Qed.

(** C3. On a board with positive sides, [wrapPosition] sends every integer
    cell, negative coordinates included, to a cell with [x] in
    [0, boardWidth) and [y] in [0, boardHeight); each coordinate is
    [((v % n) + n) % n], which is [v] modulo [n]. *)
Theorem wrapPosition_in_board (boardWidth boardHeight : Z) (p : Position.t) :
  0 < boardWidth -> 0 < boardHeight ->
  let q := wrapPosition boardWidth boardHeight p in
  (0 <= Position.x q < boardWidth) /\
  (0 <= Position.y q < boardHeight) /\
  Position.x q =
    Z.rem (Z.rem (Position.x p) boardWidth + boardWidth) boardWidth /\
  Position.y q =
    Z.rem (Z.rem (Position.y p) boardHeight + boardHeight) boardHeight /\
  Position.x q = Position.x p mod boardWidth /\
  Position.y q = Position.y p mod boardHeight.
Proof.
  intros Hw Hh q. subst q. unfold wrapPosition. simpl.
  rewrite !rem_wrap by assumption.
  pose proof (Z.mod_pos_bound (Position.x p) boardWidth Hw).
  pose proof (Z.mod_pos_bound (Position.y p) boardHeight Hh).
  repeat split; lia.
Qed.

Lemma wrapPosition_in_board_witness :
  let q := wrapPosition 40 40 (Position.mk (-1) 40) in
  (0 <= Position.x q < 40) /\ (0 <= Position.y q < 40) /\
  Position.x q = Z.rem (Z.rem (-1) 40 + 40) 40 /\
  Position.y q = Z.rem (Z.rem 40 40 + 40) 40 /\
  Position.x q = (-1) mod 40 /\
  Position.y q = 40 mod 40.
Proof.
  apply (wrapPosition_in_board 40 40 (Position.mk (-1) 40)); reflexivity.
Defined.

(** ** The tick *)

Section Tick.

Variables boardWidth boardHeight : Z.

Lemma nextHead_snake s newHead :
  nextHead boardWidth boardHeight s = Some newHead ->
  exists head rest, snake s = head :: rest.
Proof.
  unfold nextHead. destruct (snake s) as [| head rest]; [discriminate |].
  eauto.
Qed.

(** A tick outside the playing state changes nothing. *)
Lemma moveSnake_idle h :
  isPlaying (gameState h) = false \/ isGameOver (gameState h) = true ->
  moveSnake boardWidth boardHeight h = Some h.
Proof.
  intros [H | H]; unfold moveSnake; rewrite H; simpl;
    [reflexivity | now rewrite orb_true_r].
Qed.

(** C4. In a tick of the playing state whose new head collides with the
    snake body or with an obstacle, the game is over ([isGameOver] true,
    [isPlaying] false) and the move is not committed: snake, food, score,
    traps, obstacles and direction are unchanged. *)
Theorem moveSnake_terminal_collision h newHead :
  playing (gameState h) ->
  nextHead boardWidth boardHeight (gameState h) = Some newHead ->
  terminalCollision (gameState h) newHead = true ->
  exists h',
    moveSnake boardWidth boardHeight h = Some h' /\
    isGameOver (gameState h') = true /\
    isPlaying (gameState h') = false /\
    snake (gameState h') = snake (gameState h) /\
    food (gameState h') = food (gameState h) /\
    score (gameState h') = score (gameState h) /\
    traps (gameState h') = traps (gameState h) /\
    obstacles (gameState h') = obstacles (gameState h) /\
    direction (gameState h') = direction (gameState h).
Proof.
  intros [Hplay Hover] Hhead Hcoll.
  unfold moveSnake, nextHead, terminalCollision in *.
  rewrite Hplay, Hover. simpl negb. simpl orb. cbv iota.
  destruct (snake (gameState h)) as [| head rest] eqn:Hsnake; [discriminate |].
  injection Hhead as Hhead. cbv zeta. rewrite Hhead.
  destruct (checkSelfCollision (newHead :: head :: rest)) eqn:Hself.
  - eexists. split; [reflexivity |]. simpl. now rewrite Hsnake.
  - simpl in Hcoll. rewrite Hcoll.
    eexists. split; [reflexivity |]. simpl. now rewrite Hsnake.
Qed.

(** The tick on a playing state with no terminal collision, reduced to
    the part that follows the two collision checks. *)
Ltac enter_tick Hplay Hover Hhead Hcoll :=
  unfold moveSnake, nextHead, terminalCollision, hitTrapAt, eatsFood in *;
  rewrite Hplay, Hover; simpl negb; simpl orb; cbv iota;
  match goal with
  | |- context [snake (gameState ?h)] =>
    let head := fresh "head" in
    let rest := fresh "rest" in
    let Hsnake := fresh "Hsnake" in
    destruct (snake (gameState h)) as [| head rest] eqn:Hsnake;
    [discriminate |];
    apply (inj Some) in Hhead; cbv zeta; rewrite Hhead;
    apply orb_false_elim in Hcoll; destruct Hcoll as [Hself Hobst];
    rewrite Hself, Hobst;
    match goal with
    | |- context [if ?wrapped then recordEvent (WallPassthrough _) _ else _] =>
      destruct wrapped
    end
  end.

Lemma take_length_take {A} (n : nat) (l : list A) :
  take (length (take n l)) l = take n l.
Proof.
  rewrite length_take.
  destruct (Nat.le_ge_cases n (length l)) as [Hle | Hge].
  - now rewrite Nat.min_l.
  - rewrite Nat.min_r by assumption.
    rewrite firstn_all. symmetry. now apply take_ge.
Qed.

Lemma length_reduceSnakeLength (l : list Position.t) :
  l <> [] ->
  Z.of_nat (length (reduceSnakeLength l)) =
  Z.max 1 (Z.of_nat (length l) / 2).
Proof.
  intros Hne. unfold reduceSnakeLength.
  rewrite length_take.
  assert (0 < Z.of_nat (length l)) by (destruct l; [congruence | simpl; lia]).
  assert (Z.of_nat (length l) / 2 <= Z.of_nat (length l))
    by (apply Z.div_le_upper_bound; lia).
  lia.
Qed.

(** C1, as the code has it.  In a tick of the playing state whose new head
    lands on an untriggered trap with no terminal collision, the snake
    after the tick is the snake with the new head prepended, cut from the
    tail to [max(1, floor((L+1)/2))] cells, where [L] is the length before
    the tick: the halving counts the new head. *)
Theorem moveSnake_trap_hit_length h newHead hitTrap :
  playing (gameState h) ->
  nextHead boardWidth boardHeight (gameState h) = Some newHead ->
  terminalCollision (gameState h) newHead = false ->
  hitTrapAt (gameState h) newHead = Some hitTrap ->
  exists h',
    moveSnake boardWidth boardHeight h = Some h' /\
    Z.of_nat (length (snake (gameState h'))) =
      Z.max 1 ((Z.of_nat (length (snake (gameState h))) + 1) / 2) /\
    snake (gameState h') =
      take (length (snake (gameState h')))
           (newHead :: snake (gameState h)).
Proof.
  intros [Hplay Hover] Hhead Hcoll Htrap.
  enter_tick Hplay Hover Hhead Hcoll.
  all: rewrite Htrap.
  all: assert (Hlen :
    Z.of_nat (length (reduceSnakeLength (newHead :: head :: rest))) =
    Z.max 1 ((Z.of_nat (length (head :: rest)) + 1) / 2))
    by (rewrite length_reduceSnakeLength by discriminate;
        f_equal; f_equal; simpl length; lia).
  all: assert (Hcut :
    reduceSnakeLength (newHead :: head :: rest) =
    take (length (reduceSnakeLength (newHead :: head :: rest)))
         (newHead :: head :: rest))
    by (unfold reduceSnakeLength; now rewrite take_length_take).
  all: match goal with
       | |- context [if ?c then _ else _] => destruct c
       end.
  all: try match goal with
           | |- context [draw ?m ?h0] => destruct (draw m h0) as [newFood h1]
           end.
  all: eexists; (split; [reflexivity |]); simpl gameState; simpl snake;
    split; assumption.
Qed.

Lemma draw_refs {A} (m : RandomSource -> A * RandomSource) h :
  gameSpeedRef (snd (draw m h)) = gameSpeedRef h /\
  gameState (snd (draw m h)) = gameState h /\
  gameSessionActiveRef (snd (draw m h)) = gameSessionActiveRef h.
Proof. unfold draw. destruct (m (random h)). now simpl. Qed.

Lemma accelerate_speed newHead newScore h :
  gameSpeedRef (accelerate newHead newScore h) =
  if Z.rem newScore 10 =? 0 then Z.max 50 (gameSpeedRef h - 5)
  else gameSpeedRef h.
Proof. unfold accelerate. now destruct (Z.rem newScore 10 =? 0). Qed.

(** C6. In a tick of the playing state in which food is eaten (and no
    terminal collision occurs) the score grows by one; if the new score
    is a multiple of 10 the tick interval takes one step of 5 down,
    floored at 50, so it never ends below the floor; otherwise the tick
    interval is unchanged.  The step and the floor are the numbers written
    in the tick; [GAME_CONFIG.SPEED_INCREASE] plays no part. *)
Theorem moveSnake_food_speed h newHead :
  playing (gameState h) ->
  nextHead boardWidth boardHeight (gameState h) = Some newHead ->
  terminalCollision (gameState h) newHead = false ->
  eatsFood (gameState h) newHead = true ->
  exists h',
    moveSnake boardWidth boardHeight h = Some h' /\
    score (gameState h') = score (gameState h) + 1 /\
    (Z.rem (score (gameState h')) 10 = 0 ->
       gameSpeedRef h' = Z.max 50 (gameSpeedRef h - 5) /\
       50 <= gameSpeedRef h' /\
       (55 <= gameSpeedRef h -> gameSpeedRef h' = gameSpeedRef h - 5)) /\
    (Z.rem (score (gameState h')) 10 <> 0 ->
       gameSpeedRef h' = gameSpeedRef h).
Proof.
  intros [Hplay Hover] Hhead Hcoll Hfood.
  enter_tick Hplay Hover Hhead Hcoll.
  all: rewrite Hfood.
  all: match goal with
  | |- context [find ?f ?l] => destruct (find f l) as [hitTrap |]
  end;
    match goal with
    | |- context [draw ?m ?h0] =>
      pose proof (draw_refs m h0) as (Hspeed & _ & _);
      destruct (draw m h0) as [newFood h1]
    end;
    (eexists; split; [reflexivity |]);
    simpl gameState; simpl score; simpl gameSpeedRef;
    rewrite accelerate_speed; simpl in Hspeed; rewrite Hspeed;
    clear Hspeed;
    (split; [reflexivity |]);
    (destruct (Z.rem (score (gameState h) + 1) 10 =? 0) eqn:Hten;
     [ apply Z.eqb_eq in Hten | apply Z.eqb_neq in Hten ]);
    split; intros; try contradiction; try lia.
Qed.

(** A tick in which no food is eaten leaves the tick interval alone. *)
Lemma moveSnake_no_food_speed h h' :
  moveSnake boardWidth boardHeight h = Some h' ->
  (forall newHead,
      nextHead boardWidth boardHeight (gameState h) = Some newHead ->
      eatsFood (gameState h) newHead = false) ->
  gameSpeedRef h' = gameSpeedRef h.
Proof.
  intros Hmove Hnofood. unfold moveSnake in Hmove.
  destruct (negb (isPlaying (gameState h)) || isGameOver (gameState h)).
  { now injection Hmove as <-. }
  unfold nextHead, eatsFood in Hnofood.
  destruct (snake (gameState h)) as [| head rest]; [discriminate |].
  specialize (Hnofood _ eq_refl). cbv zeta in Hmove.
  rewrite Hnofood in Hmove.
  repeat match type of Hmove with
         | context [if ?c then _ else _] => destruct c
         | context [find ?f ?l] => destruct (find f l)
         end;
    injection Hmove as <-; simpl; unfold endSession;
    repeat match goal with
           | |- context [if ?c then _ else _] => destruct c
           end; reflexivity.
Qed.

(** C9. On a board wider than 11 and taller than 10, a playing state with
    snake (10,10),(9,10),(8,10) heading [RIGHT], with no food, no
    untriggered trap and no obstacle at (11,10), steps to the snake
    (11,10),(10,10),(9,10) and keeps its score. *)
Theorem moveSnake_plain_step h :
  11 < boardWidth -> 10 < boardHeight ->
  playing (gameState h) ->
  snake (gameState h) =
    [Position.mk 10 10; Position.mk 9 10; Position.mk 8 10] ->
  direction (gameState h) = RIGHT ->
  eatsFood (gameState h) (Position.mk 11 10) = false ->
  hitTrapAt (gameState h) (Position.mk 11 10) = None ->
  isObstacleCollision (Position.mk 11 10) (obstacles (gameState h)) = false ->
  exists h',
    moveSnake boardWidth boardHeight h = Some h' /\
    snake (gameState h') =
      [Position.mk 11 10; Position.mk 10 10; Position.mk 9 10] /\
    score (gameState h') = score (gameState h).
Proof.
  intros Hw Hh [Hplay Hover] Hsnake Hdir Hfood Htrap Hclear.
  assert (Hhead : nextHead boardWidth boardHeight (gameState h)
                  = Some (Position.mk 11 10)).
  { unfold nextHead, wrapPosition. rewrite Hsnake, Hdir. simpl.
    rewrite !rem_wrap by lia. rewrite !Z.mod_small by lia. reflexivity. }
  assert (Hcoll : terminalCollision (gameState h) (Position.mk 11 10) = false).
  { unfold terminalCollision. rewrite Hclear, Hsnake. reflexivity. }
  clear Hclear.
  enter_tick Hplay Hover Hhead Hcoll.
  all: rewrite Htrap, Hfood.
  all: eexists; (split; [reflexivity |]); simpl.
  all: injection Hsnake as -> ->; split; reflexivity.
Qed.

End Tick.

(** ** Direction changes *)

Lemma changeDirection_direction newDirection h :
  direction (gameState (changeDirection newDirection h)) = newDirection.
Proof. reflexivity. Qed.

Lemma oppositeDirections_neq d : Keyboard.oppositeDirections d <> d.
Proof. destruct d; discriminate. Qed.

(** C2, at the failing request.  [changeDirection] stores the exact reverse
    of the current direction: whatever the state, a request for the
    opposite direction becomes the stored direction. *)
Theorem changeDirection_accepts_reversal h :
  let reverse := Keyboard.oppositeDirections (direction (gameState h)) in
  direction (gameState (changeDirection reverse h)) = reverse /\
  direction (gameState (changeDirection reverse h)) <> direction (gameState h).
Proof.
  intros reverse. rewrite changeDirection_direction.
  split; [reflexivity | apply oppositeDirections_neq].
Qed.

Lemma direction_eqb_eq a b : direction_eqb a b = true <-> a = b.
Proof. destruct a, b; simpl; split; congruence. Qed.

(** The keyboard handler is the path that does reject a reversal: it never
    passes on the opposite of the direction it last recorded. *)
Lemma handleKeyPress_never_reverses now key k k' d :
  Keyboard.handleKeyPress now key k = (k', Some d) ->
  d <> Keyboard.oppositeDirections (Keyboard.lastDirectionRef k) /\
  Keyboard.keyDirection key = Some d /\
  Keyboard.lastDirectionRef k' = d.
Proof.
  unfold Keyboard.handleKeyPress.
  destruct (now - Keyboard.lastKeyTimeRef k <? 50); [discriminate |].
  destruct (Keyboard.keyDirection key) as [newDirection |]; [| discriminate].
  simpl.
  destruct (direction_eqb newDirection _) eqn:Heq; simpl; [discriminate |].
  intros H. injection H as <- <-. simpl.
  split; [| split; reflexivity].
  intros ->.
  assert (direction_eqb
            (Keyboard.oppositeDirections (Keyboard.lastDirectionRef k))
            (Keyboard.oppositeDirections (Keyboard.lastDirectionRef k)) = true)
    by now apply direction_eqb_eq.
  congruence.
Qed.

(** ** Sampling a free cell *)

Section Sampling.

Variables boardWidth boardHeight : Z.

Lemma candidate_shift (g : RandomSource) (k : nat) :
  candidate boardWidth boardHeight (fun n => g (S (S n))) k =
  candidate boardWidth boardHeight g (S k).
Proof.
  unfold candidate.
  replace (2 * S k)%nat with (S (S (2 * k))) by lia.
  replace (2 * S k + 1)%nat with (S (S (2 * k + 1))) by lia.
  reflexivity.
Qed.

(** What the sampling loop returns: the cell of some round [j], every
    earlier round having been rejected inside the budget, and the cell of
    round [j] being free unless the budget ended the loop. *)
Lemma sampleCell_spec busy maxAttempts fuel :
  forall attempts g,
    maxAttempts - attempts - 1 <= Z.of_nat fuel ->
    exists j : nat,
      fst (sampleCell boardWidth boardHeight busy maxAttempts fuel attempts g)
      = (candidate boardWidth boardHeight g j, attempts + 1 + Z.of_nat j) /\
      (forall k, (k < j)%nat ->
         busy (candidate boardWidth boardHeight g k) = true /\
         attempts + 1 + Z.of_nat k < maxAttempts) /\
      (attempts + 1 + Z.of_nat j < maxAttempts ->
         busy (candidate boardWidth boardHeight g j) = false).
Proof.
  induction fuel as [| fuel IH]; intros attempts g Hfuel.
  - exists O. simpl. unfold bind, randomBelow, Math_random, ret, bind. simpl.
    change (Position.mk _ _) with (candidate boardWidth boardHeight g 0).
    destruct (attempts + 1 <? maxAttempts) eqn:Hlt.
    + apply Z.ltb_lt in Hlt. lia.
    + simpl. apply Z.ltb_ge in Hlt.
      split; [f_equal; lia |]. split; [lia |]. lia.
  - simpl. unfold bind at 1 2. unfold randomBelow, Math_random, ret, bind.
    simpl.
    change (Position.mk _ _) with (candidate boardWidth boardHeight g 0).
    destruct ((attempts + 1 <? maxAttempts) &&
              busy (candidate boardWidth boardHeight g 0)) eqn:Hcond.
    + apply andb_true_iff in Hcond as [Hlt Hbusy]. apply Z.ltb_lt in Hlt.
      destruct (IH (attempts + 1) (fun n => g (S (S n))))
        as (j & Hres & Hbefore & Hfree); [lia |].
      exists (S j). rewrite Hres, candidate_shift.
      split; [f_equal; lia |]. split.
      * intros [| k] Hk.
        -- split; [assumption | lia].
        -- destruct (Hbefore k ltac:(lia)) as [Hb Ha].
           rewrite candidate_shift in Hb. split; [assumption | lia].
      * intros Hj. rewrite <- candidate_shift. apply Hfree. lia.
    + exists O. simpl. split; [f_equal; lia |]. split; [lia |].
      intros Hj. apply andb_false_iff in Hcond as [Hlt | Hbusy];
        [apply Z.ltb_ge in Hlt; lia | assumption].
Qed.

(** One round of the sampling loop. *)
Lemma sampleCell_round busy maxAttempts fuel attempts g :
  sampleCell boardWidth boardHeight busy maxAttempts fuel attempts g =
  let cell := candidate boardWidth boardHeight g 0 in
  let g' := fun n => g (S (S n)) in
  if (attempts + 1 <? maxAttempts) && busy cell then
    match fuel with
    | S fuel' =>
      sampleCell boardWidth boardHeight busy maxAttempts fuel'
                 (attempts + 1) g'
    | O => ((cell, attempts + 1), g')
    end
  else ((cell, attempts + 1), g').
Proof.
  destruct fuel; simpl; unfold bind, randomBelow, Math_random, ret, bind;
    simpl;
    change (Position.mk _ _) with (candidate boardWidth boardHeight g 0);
    now destruct ((attempts + 1 <? maxAttempts) && busy _).
Qed.

(** The fuel of the loop is never what stops it. *)
Lemma sampleCell_fuel busy maxAttempts fuel :
  forall attempts g,
    maxAttempts - attempts - 1 <= Z.of_nat fuel ->
    sampleCell boardWidth boardHeight busy maxAttempts (S fuel) attempts g =
    sampleCell boardWidth boardHeight busy maxAttempts fuel attempts g.
Proof.
  induction fuel as [| fuel IH]; intros attempts g Hfuel;
    rewrite (sampleCell_round _ _ (S _));
    match goal with
    | |- _ = sampleCell _ _ _ _ ?f _ _ => rewrite (sampleCell_round _ _ f)
    end;
    cbv zeta;
    destruct ((attempts + 1 <? maxAttempts) && busy _) eqn:Hcond;
    try reflexivity;
    apply andb_true_iff in Hcond as [Hlt _]; apply Z.ltb_lt in Hlt.
  - lia.
  - apply IH. lia.
Qed.

Lemma existsb_false {A} (f : A -> bool) (l : list A) :
  existsb f l = false <-> forall a, In a l -> f a = false.
Proof.
  induction l as [| b l IH]; simpl.
  - split; [intros _ a [] | reflexivity].
  - rewrite orb_false_iff, IH. split.
    + intros [Hb Hl] a [<- | Ha]; auto.
    + intros H. split; [apply H; now left | intros a Ha; apply H; now right].
Qed.

Lemma onSnake_false snake p : onSnake snake p = false -> freeOfSnake snake p.
Proof.
  unfold onSnake, freeOfSnake. rewrite existsb_false.
  intros H segment Hin ->. specialize (H _ Hin).
  now rewrite !Z.eqb_refl in H.
Qed.

Lemma onTrap_false traps p : onTrap traps p = false -> freeOfTraps traps p.
Proof.
  unfold onTrap, freeOfTraps. rewrite existsb_false.
  intros H trap Hin <-. specialize (H _ Hin).
  unfold Trap.position in H. simpl in H. now rewrite !Z.eqb_refl in H.
Qed.

Lemma isObstacleCollision_false obstacles p :
  isObstacleCollision p obstacles = false -> freeOfObstacles obstacles p.
Proof.
  unfold isObstacleCollision, freeOfObstacles. rewrite existsb_false.
  intros H o Hin [[Hx1 Hx2] [Hy1 Hy2]]. specialize (H _ Hin).
  rewrite !Z.geb_leb in H.
  apply Z.leb_le in Hx1, Hy1. apply Z.ltb_lt in Hx2, Hy2.
  now rewrite Hx1, Hx2, Hy1, Hy2 in H.
Qed.

(** C5. If one of the 100 cells that [generateRandomFood] may draw is
    free, that is, the loop finds a free cell within its budget, then the
    food returned lies on no snake cell, on no trap and inside no
    obstacle. *)
Theorem generateRandomFood_free snake traps obstacles g :
  (exists k, (k < 100)%nat /\
     foodConflict snake traps obstacles
                  (candidate boardWidth boardHeight g k) = false) ->
  let newFood :=
    fst (generateRandomFood boardWidth boardHeight snake traps obstacles g) in
  freeOfSnake snake newFood /\
  freeOfTraps traps newFood /\
  freeOfObstacles obstacles newFood.
Proof.
  intros (k0 & Hk0 & Hfree0) newFood.
  assert (Hfree : foodConflict snake traps obstacles newFood = false).
  { subst newFood. unfold generateRandomFood, bind, sampleFood.
    destruct (sampleCell_spec (foodConflict snake traps obstacles) 100 100 0 g)
      as (j & Hres & Hbefore & Hfree); [lia |].
    destruct (sampleCell _ _ _ _ _ _ g) as [[cell attempts] g'].
    simpl in Hres. injection Hres as -> ->. simpl.
    destruct (Z.lt_ge_cases (0 + 1 + Z.of_nat j) 100) as [Hin | Hout];
      [now apply Hfree |].
    destruct (Nat.lt_ge_cases k0 j) as [Hlt | Hge].
    - destruct (Hbefore k0 Hlt) as [Hbusy _]. congruence.
    - replace j with k0 by lia. assumption. }
  unfold foodConflict in Hfree.
  apply orb_false_iff in Hfree as [Hfree Hobst].
  apply orb_false_iff in Hfree as [Hsnake Htraps].
  split; [now apply onSnake_false |].
  split; [now apply onTrap_false | now apply isObstacleCollision_false].
Qed.

(** The loop of [generateRandomFood] leaves before its budget is spent
    only on a free cell. *)
Lemma sampleFood_within_budget snake traps obstacles g :
  snd (fst (sampleFood boardWidth boardHeight snake traps obstacles g)) < 100 ->
  foodConflict snake traps obstacles
    (fst (fst (sampleFood boardWidth boardHeight snake traps obstacles g)))
  = false.
Proof.
  unfold sampleFood.
  destruct (sampleCell_spec (foodConflict snake traps obstacles) 100 100 0 g)
    as (j & Hres & _ & Hfree); [lia |].
  rewrite Hres. simpl. exact Hfree.
Qed.

Ltac open_trap_loop snake food traps obstacles g j Hres Hbefore Hfree :=
  unfold generateRandomTrap, bind;
  destruct (sampleCell_spec (trapConflict snake food traps obstacles)
                            100 100 0 g)
    as (j & Hres & Hbefore & Hfree); [lia |];
  destruct (sampleCell _ _ _ _ _ _ g) as [[cell attempts] g'];
  simpl in Hres; injection Hres as -> ->; simpl fst; simpl snd.

(** What the code does: [null] comes back exactly when the first 99 cells
    drawn are all taken, whatever the 100th is. *)
Lemma generateRandomTrap_null_iff now snake food traps obstacles g :
  fst (generateRandomTrap boardWidth boardHeight now snake food traps
                          obstacles g) = None <->
  (forall k, (k < 99)%nat ->
     trapConflict snake food traps obstacles
                  (candidate boardWidth boardHeight g k) = true).
Proof.
  open_trap_loop snake food traps obstacles g j Hres Hbefore Hfree.
  destruct (0 + 1 + Z.of_nat j >=? 100) eqn:Hge; rewrite Z.geb_leb in Hge.
  - apply Z.leb_le in Hge. unfold ret. simpl. split; [| reflexivity].
    intros _ k Hk. apply Hbefore. lia.
  - apply Z.leb_gt in Hge. unfold Math_random, ret. simpl.
    split; [discriminate |].
    intros Hall. rewrite Hall in Hfree by lia.
    specialize (Hfree ltac:(lia)). discriminate.
Qed.

(** A trap that is returned is untriggered and on a free cell. *)
Lemma generateRandomTrap_some_free now snake food traps obstacles g newTrap :
  fst (generateRandomTrap boardWidth boardHeight now snake food traps
                          obstacles g) = Some newTrap ->
  Trap.isTriggered newTrap = false /\
  freeOfSnake snake (Trap.position newTrap) /\
  food <> Trap.position newTrap /\
  freeOfTraps traps (Trap.position newTrap) /\
  freeOfObstacles obstacles (Trap.position newTrap).
Proof.
  open_trap_loop snake food traps obstacles g j Hres Hbefore Hfree.
  destruct (0 + 1 + Z.of_nat j >=? 100) eqn:Hge; rewrite Z.geb_leb in Hge;
    unfold Math_random, ret; simpl; [discriminate |].
  apply Z.leb_gt in Hge. intros H. injection H as <-.
  unfold Trap.position. simpl.
  specialize (Hfree ltac:(lia)).
  set (p := candidate boardWidth boardHeight g j) in *.
  replace (Position.mk (Position.x p) (Position.y p)) with p
    by now destruct p.
  unfold trapConflict in Hfree.
  apply orb_false_iff in Hfree as [Hfree Hobst].
  apply orb_false_iff in Hfree as [Hfree Htraps].
  apply orb_false_iff in Hfree as [Hsnake Hfood].
  split; [reflexivity |].
  split; [now apply onSnake_false |].
  split.
  { intros ->. now rewrite !Z.eqb_refl in Hfood. }
  split; [now apply onTrap_false | now apply isObstacleCollision_false].
Qed.

End Sampling.

(** ** Random computations on a tape of draws from [0, 1) *)

Lemma establishes_ret {A} (a : A) (P : A -> Prop) :
  P a -> establishes (ret a) P.
Proof. intros Ha g Hg. now split. Qed.

Lemma establishes_bind {A B} (m : Rand A) (k : A -> Rand B)
    (P : A -> Prop) (Q : B -> Prop) :
  establishes m P ->
  (forall a, P a -> establishes (k a) Q) ->
  establishes (bind m k) Q.
Proof.
  intros Hm Hk g Hg. unfold bind.
  destruct (Hm g Hg) as [Ha Hg']. destruct (m g) as [a g']. simpl in *.
  now apply Hk.
Qed.

Lemma establishes_Math_random :
  establishes Math_random (fun r => (0 <= r)%Q /\ (r < 1)%Q).
Proof.
  intros g Hg. unfold Math_random. simpl. split; [apply Hg |].
  intros n. apply Hg.
Qed.

(** For [n >= 0], [Math.floor(Math.random() * n)] lies in [0, n], and below
    [n] when [n] is positive. *)
Lemma establishes_randomBelow (n : Z) :
  establishes (randomBelow n)
              (fun v => 0 <= n -> 0 <= v <= n /\ (0 < n -> v < n)).
Proof.
  unfold randomBelow.
  eapply establishes_bind; [apply establishes_Math_random |].
  intros r [Hr0 Hr1]. apply establishes_ret. intros Hn.
  assert (Hn' : (0 <= inject_Z n)%Q)
    by (change 0%Q with (inject_Z 0); now rewrite <- Zle_Qle).
  assert (Hlo : (0 <= r * inject_Z n)%Q) by now apply Qmult_le_0_compat.
  assert (Hhi : (r * inject_Z n <= inject_Z n)%Q).
  { rewrite <- (Qmult_1_l (inject_Z n)) at 2.
    apply Qmult_le_compat_r; [now apply Qlt_le_weak | assumption]. }
  assert (H0 : 0 <= Qfloor (r * inject_Z n)).
  { change 0 with (Qfloor 0). now apply Qfloor_resp_le. }
  assert (H1 : Qfloor (r * inject_Z n) <= n).
  { pose proof (Qfloor_resp_le _ _ Hhi) as Hle.
    now rewrite Qfloor_Z in Hle. }
  split; [lia |]. intros Hpos.
  rewrite Zlt_Qlt.
  apply Qle_lt_trans with (r * inject_Z n)%Q; [apply Qfloor_le |].
  rewrite <- (Qmult_1_l (inject_Z n)) at 2.
  apply Qmult_lt_compat_r; [| assumption].
  change 0%Q with (inject_Z 0). now rewrite <- Zlt_Qlt.
Qed.

(** ** Obstacle placement *)

Section Obstacles.

Variables boardWidth boardHeight : Z.

(** The fuel of the placement loop is never what stops it: any two
    amounts that cover the attempts left give the same result. *)
Lemma placeObstacle_fuel maxAttempts ident usedPositions :
  forall fuel1 fuel2 attempts g,
    maxAttempts - attempts <= Z.of_nat fuel1 ->
    maxAttempts - attempts <= Z.of_nat fuel2 ->
    placeObstacle boardWidth boardHeight maxAttempts ident usedPositions
                  fuel1 attempts g =
    placeObstacle boardWidth boardHeight maxAttempts ident usedPositions
                  fuel2 attempts g.
Proof.
  induction fuel1 as [| fuel1 IH]; intros [| fuel2] attempts g H1 H2; simpl;
    try reflexivity;
    destruct (attempts <? maxAttempts) eqn:Hlt; try reflexivity;
    try (apply Z.ltb_lt in Hlt; lia).
  unfold bind, randomBelow, Math_random, ret, bind. simpl.
  destruct (hasConflict _ _ _ _ _); [apply IH; lia | reflexivity].
Qed.

Lemma placeObstacle_wellPlaced maxAttempts ident usedPositions fuel :
  forall attempts,
    establishes
      (placeObstacle boardWidth boardHeight maxAttempts ident usedPositions
                     fuel attempts)
      (fun placed =>
         forall o, placed = Some o -> wellPlaced boardWidth boardHeight o).
Proof.
  induction fuel as [| fuel IH]; intros attempts; simpl.
  - apply establishes_ret. discriminate.
  - destruct (attempts <? maxAttempts);
      [| apply establishes_ret; discriminate].
    eapply establishes_bind; [apply establishes_randomBelow |].
    intros w Hw. cbv beta zeta.
    eapply establishes_bind; [apply establishes_randomBelow |].
    intros h Hh. cbv beta zeta.
    eapply establishes_bind; [apply establishes_randomBelow |].
    intros x Hx. cbv beta.
    eapply establishes_bind; [apply establishes_randomBelow |].
    intros y Hy. cbv beta.
    destruct (hasConflict _ _ _ _ _); [apply IH |].
    apply establishes_ret. intros o Ho. injection Ho as <-.
    unfold wellPlaced, GAME_CONFIG.MAX_OBSTACLE_SIZE,
      GAME_CONFIG.MIN_OBSTACLE_SIZE in *. simpl.
    specialize (Hw ltac:(lia)). specialize (Hh ltac:(lia)).
    repeat split; lia.
Qed.

Lemma obstacleLoop_wellPlaced maxAttempts mkIdent indices :
  forall obstacles usedPositions,
    Forall (wellPlaced boardWidth boardHeight) obstacles ->
    establishes
      (obstacleLoop boardWidth boardHeight maxAttempts mkIdent indices
                    obstacles usedPositions)
      (Forall (wellPlaced boardWidth boardHeight)).
Proof.
  induction indices as [| i rest IH]; intros obstacles usedPositions Hall;
    simpl.
  - now apply establishes_ret.
  - eapply establishes_bind; [apply placeObstacle_wellPlaced |].
    intros [o |] Hplaced; simpl.
    + apply IH. apply Forall_app. split; [assumption |].
      constructor; [now apply Hplaced | constructor].
    + now apply IH.
Qed.

(** C10. Every obstacle that [generateObstacles] or
    [generateSafeObstacles] returns, and whose chosen width and height are
    at most the board's, lies on the board: [0 <= x],
    [x + width <= boardWidth], [0 <= y], [y + height <= boardHeight]. *)
Theorem generated_obstacles_within_board now currentSnake g o :
  in_unit_interval g ->
  In o (fst (generateObstacles boardWidth boardHeight g)) \/
  In o (fst (generateSafeObstacles boardWidth boardHeight now currentSnake
                                   g)) ->
  Obstacle.width o <= boardWidth ->
  Obstacle.height o <= boardHeight ->
  withinBoard boardWidth boardHeight o.
Proof.
  intros Hg Hin Hw Hh.
  assert (Hplaced : wellPlaced boardWidth boardHeight o).
  { destruct Hin as [Hin | Hin];
      (eapply List.Forall_forall; [| exact Hin]);
      unfold generateObstacles, generateSafeObstacles;
      now apply obstacleLoop_wellPlaced. }
  destruct Hplaced as (_ & _ & Hx & Hy).
  unfold withinBoard. specialize (Hx Hw). specialize (Hy Hh). lia.
Qed.

(** The sizes chosen are between [MIN_OBSTACLE_SIZE] and
    [MAX_OBSTACLE_SIZE], so on a board of at least that size every
    generated obstacle lies on the board. *)
Lemma generated_obstacles_within_large_board now currentSnake g o :
  in_unit_interval g ->
  GAME_CONFIG.MAX_OBSTACLE_SIZE <= boardWidth ->
  GAME_CONFIG.MAX_OBSTACLE_SIZE <= boardHeight ->
  In o (fst (generateObstacles boardWidth boardHeight g)) \/
  In o (fst (generateSafeObstacles boardWidth boardHeight now currentSnake
                                   g)) ->
  withinBoard boardWidth boardHeight o.
Proof.
  intros Hg Hbw Hbh Hin.
  assert (Hplaced : wellPlaced boardWidth boardHeight o).
  { destruct Hin as [Hin | Hin];
      (eapply List.Forall_forall; [| exact Hin]);
      unfold generateObstacles, generateSafeObstacles;
      now apply obstacleLoop_wellPlaced. }
  destruct Hplaced as (Hw & Hh & Hx & Hy).
  unfold withinBoard. specialize (Hx ltac:(lia)). specialize (Hy ltac:(lia)).
  lia.
Qed.

End Obstacles.

(** ** The live trap count *)

Lemma mount_traps boardWidth boardHeight g :
  snake (gameState (mount boardWidth boardHeight g)) = INITIAL_SNAKE /\
  traps (gameState (mount boardWidth boardHeight g)) = [].
Proof.
  unfold mount.
  destruct (generateObstacles _ _ g) as [obstacles g1].
  destruct (newReshapeCountdown g1) as [countdown g2].
  destruct (generateRandomFood _ _ _ _ _ g2) as [food g3].
  split; reflexivity.
Qed.

Section TrapLimit.

Variables boardWidth boardHeight : Z.

Lemma reduceSnakeLength_nonempty (l : list Position.t) :
  l <> [] -> reduceSnakeLength l <> [].
Proof.
  intros Hne Hnil.
  pose proof (length_reduceSnakeLength l Hne) as Hlen.
  rewrite Hnil in Hlen. simpl in Hlen. lia.
Qed.

(** A tick of a state with a snake returns, keeps a snake and keeps the
    number of traps. *)
Lemma moveSnake_traps h :
  snake (gameState h) <> [] ->
  exists h',
    moveSnake boardWidth boardHeight h = Some h' /\
    length (traps (gameState h')) = length (traps (gameState h)) /\
    snake (gameState h') <> [].
Proof.
  intros Hne. unfold moveSnake.
  destruct (negb (isPlaying (gameState h)) || isGameOver (gameState h)).
  { exists h. auto. }
  destruct (snake (gameState h)) as [| head rest] eqn:Hsnake;
    [congruence |].
  cbv zeta.
  repeat match goal with
         | |- context [find ?f ?l] => destruct (find f l) as [hitTrap |]
         | |- context [draw ?m ?h0] => destruct (draw m h0) as [newFood h1]
         | |- context [if ?c then _ else _] => destruct c
         end.
  all: eexists; (split; [reflexivity |]); simpl;
    rewrite ?length_map, ?Hsnake; (split; [reflexivity |]);
    try discriminate;
    try (apply reduceSnakeLength_nonempty; discriminate).
Qed.

Lemma spawnTrap_traps now h :
  let h' := spawnTrap boardWidth boardHeight now h in
  snake (gameState h') = snake (gameState h) /\
  (length (traps (gameState h')) = length (traps (gameState h)) \/
   length (traps (gameState h')) = S (length (traps (gameState h))) /\
   Z.of_nat (length (traps (gameState h))) < GAME_CONFIG.MAX_TRAPS).
Proof.
  unfold spawnTrap.
  destruct (Z.of_nat (length (traps (gameState h))) >=? GAME_CONFIG.MAX_TRAPS)
    eqn:Hfull.
  { rewrite orb_true_r. auto. }
  rewrite orb_false_r. rewrite Z.geb_leb in Hfull. apply Z.leb_gt in Hfull.
  destruct (negb (isPlaying (gameState h)) || isGameOver (gameState h));
    [auto |].
  match goal with
  | |- context [draw ?m ?h0] =>
    pose proof (draw_refs m h0) as (_ & Hstate & _);
    destruct (draw m h0) as [[newTrap |] h1]
  end; simpl in *.
  - split; [reflexivity |]. right. rewrite length_app. simpl. split; lia.
  - rewrite Hstate. auto.
Qed.

Lemma scheduleNextTrap_state h :
  gameState (scheduleNextTrap h) = gameState h.
Proof.
  unfold scheduleNextTrap.
  pose proof (draw_refs Math_random h) as (_ & Hstate & _).
  destruct (draw Math_random h) as [r h1]. simpl in *. assumption.
Qed.

Lemma trapRemovalFires_traps h :
  snake (gameState (trapRemovalFires h)) = snake (gameState h) /\
  (length (traps (gameState (trapRemovalFires h)))
   <= length (traps (gameState h)))%nat.
Proof.
  unfold trapRemovalFires.
  destruct (trapRemovals h) as [| hitId rest]; simpl; [auto |].
  split; [reflexivity | apply List.filter_length_le].
Qed.

Lemma reshapeTick_traps now h :
  snake (gameState (reshapeTick boardWidth boardHeight now h))
    = snake (gameState h) /\
  traps (gameState (reshapeTick boardWidth boardHeight now h))
    = traps (gameState h).
Proof.
  unfold reshapeTick.
  repeat match goal with
         | |- context [draw ?m ?h0] => destruct (draw m h0)
         | |- context [if ?c then _ else _] => destruct c
         end; simpl; auto.
Qed.

Lemma togglePause_traps h :
  snake (gameState (togglePause h)) = snake (gameState h) /\
  traps (gameState (togglePause h)) = traps (gameState h).
Proof. unfold togglePause. simpl. auto. Qed.

Lemma startGame_traps h :
  snake (gameState (startGame h)) = snake (gameState h) /\
  traps (gameState (startGame h)) = traps (gameState h).
Proof.
  assert (Hset : forall a b,
             gameState (setObstacleReshapeTimerRef a b) = gameState a)
    by reflexivity.
  unfold startGame, startObstacleReshapeTimer. cbv zeta.
  rewrite !Hset, !scheduleNextTrap_state. simpl. auto.
Qed.

Lemma resetGame_traps h :
  snake (gameState (resetGame boardWidth boardHeight h)) = INITIAL_SNAKE /\
  traps (gameState (resetGame boardWidth boardHeight h)) = [].
Proof.
  unfold resetGame. cbv zeta.
  repeat match goal with
         | |- context [draw ?m ?h0] => destruct (draw m h0)
         end; simpl; auto.
Qed.

(** Only the trap timer adds a trap, one at a time and only below the
    maximum; every operation on a state with a snake returns a state with
    a snake. *)
Lemma run_traps op h :
  snake (gameState h) <> [] ->
  exists h',
    run boardWidth boardHeight op h = Some h' /\
    snake (gameState h') <> [] /\
    ((length (traps (gameState h')) <= length (traps (gameState h)))%nat \/
     length (traps (gameState h')) = S (length (traps (gameState h))) /\
     Z.of_nat (length (traps (gameState h))) < GAME_CONFIG.MAX_TRAPS /\
     exists now, op = TrapTimer now).
Proof.
  intros Hne. destruct op as [| now | | now | d | | |]; simpl.
  - destruct (moveSnake_traps h Hne) as (h' & Hrun & Hlen & Hsnake).
    exists h'. split; [assumption |]. split; [assumption |]. left. lia.
  - eexists. split; [reflexivity |]. unfold trapTimerFires.
    rewrite scheduleNextTrap_state.
    destruct (spawnTrap_traps now h) as [Hsnake Hlen].
    split; [congruence |].
    destruct Hlen as [Hlen | [Hlen Hroom]]; [left; lia | right; eauto].
  - eexists. split; [reflexivity |].
    destruct (trapRemovalFires_traps h) as [Hsnake Hlen].
    split; [congruence | now left].
  - eexists. split; [reflexivity |].
    destruct (reshapeTick_traps now h) as [Hsnake Htraps].
    split; [congruence | left; rewrite Htraps; lia].
  - eexists. split; [reflexivity |]. simpl. split; [assumption | now left].
  - eexists. split; [reflexivity |].
    destruct (startGame_traps h) as [Hsnake Htraps].
    split; [congruence | left; rewrite Htraps; lia].
  - eexists. split; [reflexivity |].
    destruct (togglePause_traps h) as [Hsnake Htraps].
    split; [congruence | left; rewrite Htraps; lia].
  - eexists. split; [reflexivity |].
    destruct (resetGame_traps h) as [Hsnake Htraps].
    split; [rewrite Hsnake; discriminate |].
    left. rewrite Htraps. simpl. lia.
Qed.

(** C8. From a state with a snake and at most [MAX_TRAPS] traps, every
    sequence of operations (ticks, trap-timer firings, trap removals,
    reshape ticks, direction changes, start, pause, reset) runs to a
    state that again has at most [MAX_TRAPS] traps. *)
Theorem traps_never_exceed_maximum ops :
  forall h,
    snake (gameState h) <> [] ->
    trapsWithinLimit (gameState h) ->
    exists h',
      runAll boardWidth boardHeight ops h = Some h' /\
      snake (gameState h') <> [] /\
      trapsWithinLimit (gameState h').
Proof.
  induction ops as [| op rest IH]; intros h Hne Hlimit.
  - exists h. simpl. auto.
  - simpl.
    destruct (run_traps op h Hne) as (h1 & Hrun & Hne1 & Hlen).
    rewrite Hrun. apply IH; [assumption |].
    unfold trapsWithinLimit in *.
    destruct Hlen as [Hlen | (Hlen & Hroom & _)]; lia.
Qed.

End TrapLimit.

(** ** The theorems at sample states *)

Lemma in_unit_interval_zeros : in_unit_interval Examples.zeros.
Proof. intros n. split; [discriminate | reflexivity]. Qed.

(** C6, as stated, fails for the configured step: the tenth point takes
    the tick interval from 150 to 145, not to [150 - SPEED_INCREASE], which
    is 140. *)
Lemma tenth_point_takes_five_off :
  playing (gameState Examples.tenthPoint) /\
  nextHead 40 40 (gameState Examples.tenthPoint) = Some (Position.mk 11 10) /\
  terminalCollision (gameState Examples.tenthPoint) (Position.mk 11 10)
    = false /\
  eatsFood (gameState Examples.tenthPoint) (Position.mk 11 10) = true /\
  score (gameState Examples.tenthPoint) = 9 /\
  gameSpeedRef Examples.tenthPoint = 150 /\
  exists h',
    moveSnake 40 40 Examples.tenthPoint = Some h' /\
    score (gameState h') = 10 /\
    gameSpeedRef h' = 145 /\
    gameSpeedRef h' <>
      gameSpeedRef Examples.tenthPoint - GAME_CONFIG.SPEED_INCREASE.
Proof.
  split; [split; reflexivity |].
  repeat (split; [reflexivity |]).
  eexists. split; [vm_compute; reflexivity |].
  split; [reflexivity |]. split; [reflexivity | discriminate].
Qed.

(** C1, as stated, fails: a trap hit on a snake of seven cells leaves four
    cells, not [max(1, floor(7/2)) = 3]. *)
Lemma trap_hit_on_seven_cells_leaves_four :
  playing (gameState Examples.trapHit) /\
  nextHead 40 40 (gameState Examples.trapHit) = Some (Position.mk 11 10) /\
  terminalCollision (gameState Examples.trapHit) (Position.mk 11 10) = false /\
  hitTrapAt (gameState Examples.trapHit) (Position.mk 11 10)
    = Some Examples.trapAhead /\
  Z.of_nat (length (snake (gameState Examples.trapHit))) = 7 /\
  exists h',
    moveSnake 40 40 Examples.trapHit = Some h' /\
    Z.of_nat (length (snake (gameState h'))) = 4 /\
    Z.of_nat (length (snake (gameState h'))) <> Z.max 1 (7 / 2).
Proof.
  split; [split; reflexivity |].
  repeat (split; [reflexivity |]).
  eexists. split; [vm_compute; reflexivity |].
  split; [reflexivity | discriminate].
Qed.

Lemma moveSnake_trap_hit_length_witness :
  exists h',
    moveSnake 40 40 Examples.trapHit = Some h' /\
    Z.of_nat (length (snake (gameState h'))) =
      Z.max 1
        ((Z.of_nat (length (snake (gameState Examples.trapHit))) + 1) / 2) /\
    snake (gameState h') =
      take (length (snake (gameState h')))
           (Position.mk 11 10 :: snake (gameState Examples.trapHit)).
Proof.
  apply (moveSnake_trap_hit_length 40 40 Examples.trapHit (Position.mk 11 10)
                                   Examples.trapAhead);
    [split; reflexivity | reflexivity | reflexivity | reflexivity].
Defined.

Lemma moveSnake_terminal_collision_witness :
  exists h',
    moveSnake 40 40 Examples.crash = Some h' /\
    isGameOver (gameState h') = true /\
    isPlaying (gameState h') = false /\
    snake (gameState h') = snake (gameState Examples.crash) /\
    food (gameState h') = food (gameState Examples.crash) /\
    score (gameState h') = score (gameState Examples.crash) /\
    traps (gameState h') = traps (gameState Examples.crash) /\
    obstacles (gameState h') = obstacles (gameState Examples.crash) /\
    direction (gameState h') = direction (gameState Examples.crash).
Proof.
  apply (moveSnake_terminal_collision 40 40 Examples.crash (Position.mk 11 10));
    [split; reflexivity | reflexivity | reflexivity].
Defined.

Lemma moveSnake_food_speed_witness :
  exists h',
    moveSnake 40 40 Examples.tenthPoint = Some h' /\
    score (gameState h') = score (gameState Examples.tenthPoint) + 1 /\
    (Z.rem (score (gameState h')) 10 = 0 ->
       gameSpeedRef h' = Z.max 50 (gameSpeedRef Examples.tenthPoint - 5) /\
       50 <= gameSpeedRef h' /\
       (55 <= gameSpeedRef Examples.tenthPoint ->
        gameSpeedRef h' = gameSpeedRef Examples.tenthPoint - 5)) /\
    (Z.rem (score (gameState h')) 10 <> 0 ->
       gameSpeedRef h' = gameSpeedRef Examples.tenthPoint).
Proof.
  apply (moveSnake_food_speed 40 40 Examples.tenthPoint (Position.mk 11 10));
    [split; reflexivity | reflexivity | reflexivity | reflexivity].
Defined.

Lemma moveSnake_plain_step_witness :
  exists h',
    moveSnake 40 40 Examples.plain = Some h' /\
    snake (gameState h') =
      [Position.mk 11 10; Position.mk 10 10; Position.mk 9 10] /\
    score (gameState h') = score (gameState Examples.plain).
Proof.
  apply (moveSnake_plain_step 40 40 Examples.plain);
    [lia | lia | split; reflexivity | reflexivity | reflexivity
     | reflexivity | reflexivity | reflexivity].
Defined.

Lemma generateRandomFood_free_witness :
  let newFood :=
    fst (generateRandomFood 40 40 Examples.threeCells [Examples.trapAhead]
                            [Examples.wallAhead] Examples.zeros) in
  freeOfSnake Examples.threeCells newFood /\
  freeOfTraps [Examples.trapAhead] newFood /\
  freeOfObstacles [Examples.wallAhead] newFood.
Proof.
  apply (generateRandomFood_free 40 40 Examples.threeCells
           [Examples.trapAhead] [Examples.wallAhead] Examples.zeros).
  exists O. split; [lia | vm_compute; reflexivity].
Defined.

(** C7, at the failing input.  With the 100th cell drawn free and the 99
    before it taken, [generateRandomTrap] returns [null]: the last attempt
    of the budget is thrown away. *)
Theorem generateRandomTrap_discards_last_attempt :
  (forall k, (k < 99)%nat ->
     trapConflict [Position.mk 0 0] (Position.mk 1 1) [] []
                  (candidate 40 40 Examples.lateHalf k) = true) /\
  candidate 40 40 Examples.lateHalf 99 = Position.mk 20 20 /\
  trapConflict [Position.mk 0 0] (Position.mk 1 1) [] []
               (candidate 40 40 Examples.lateHalf 99) = false /\
  fst (generateRandomTrap 40 40 0 [Position.mk 0 0] (Position.mk 1 1) [] []
                          Examples.lateHalf) = None.
Proof.
  assert (Hnull :
    fst (generateRandomTrap 40 40 0 [Position.mk 0 0] (Position.mk 1 1) [] []
                            Examples.lateHalf) = None)
    by (vm_compute; reflexivity).
  split;
    [exact (proj1 (generateRandomTrap_null_iff 40 40 0 _ _ _ _ _) Hnull) |].
  split; [vm_compute; reflexivity |].
  split; [vm_compute; reflexivity | exact Hnull].
Qed.

Lemma traps_never_exceed_maximum_witness :
  exists h',
    runAll 40 40 [Start; TrapTimer 1000; Tick; TrapTimer 2000; TrapRemoval;
                  ReshapeTimer 3000; Pause; Reset] Examples.trapHit = Some h' /\
    snake (gameState h') <> [] /\
    trapsWithinLimit (gameState h').
Proof.
  apply (traps_never_exceed_maximum 40 40
           [Start; TrapTimer 1000; Tick; TrapTimer 2000; TrapRemoval;
            ReshapeTimer 3000; Pause; Reset] Examples.trapHit);
    [discriminate | unfold trapsWithinLimit; simpl; discriminate].
Defined.

Lemma generated_obstacles_within_board_witness :
  withinBoard 40 40 Examples.cornerObstacle.
Proof.
  apply (generated_obstacles_within_board 40 40 0 Examples.threeCells
           Examples.zeros Examples.cornerObstacle);
    [ exact in_unit_interval_zeros
    | left; vm_compute; left; reflexivity
    | simpl; lia
    | simpl; lia ].
Defined.


(** * Further properties of the hooks *)

(** ** What a tick does *)

Ltac split_tick :=
  repeat match goal with
         | |- context [find ?f ?l] => destruct (find f l) eqn:?
         | |- context [draw ?m ?h0] =>
           let Hrefs := fresh "Hrefs" in
           pose proof (draw_refs m h0) as Hrefs;
           destruct (draw m h0) eqn:?
         | |- context [if ?c then _ else _] => destruct c eqn:?
         end.

(** The result of a tick that runs into the body or an obstacle. *)
Lemma moveSnake_terminal boardWidth boardHeight h newHead :
  playing (gameState h) ->
  nextHead boardWidth boardHeight (gameState h) = Some newHead ->
  terminalCollision (gameState h) newHead = true ->
  exists h',
    moveSnake boardWidth boardHeight h = Some h' /\
    gameState h' = gameOver (gameState h) /\
    gameSpeedRef h' = gameSpeedRef h /\
    gameSessionActiveRef h' = false /\
    random h' =
      (if gameSessionActiveRef h then advance 1 (random h) else random h) /\
    storageCalls h' =
      storageCalls h ++ wallCalls boardWidth boardHeight (gameState h) ++
      (if gameSessionActiveRef h then
         [EndGameSession (score (gameState h))
            (Z.of_nat (length (snake (gameState h))))
            (if checkSelfCollision (newHead :: snake (gameState h))
             then SelfCollision else ObstacleCollision)]
       else []).
Proof.
  intros [Hplay Hover] Hhead Hcoll.
  unfold moveSnake, nextHead, terminalCollision, wallCalls, rawHead in *.
  rewrite Hplay, Hover. change (negb true || false) with false. cbv iota.
  destruct (snake (gameState h)) as [| head rest] eqn:Hsnake; [discriminate |].
  apply (inj Some) in Hhead. cbv beta iota zeta. rewrite Hhead.
  destruct (checkSelfCollision (newHead :: head :: rest)) eqn:Hself;
    [| simpl in Hcoll; rewrite Hcoll];
    (eexists; split; [reflexivity |]);
    unfold endSession;
    match goal with
    | |- context [if ?w then recordEvent _ _ else _] => destruct w
    end;
    simpl; destruct (gameSessionActiveRef h) eqn:Hactive; simpl;
    rewrite ?Hsnake, ?app_nil_r, <- ?app_assoc; auto.
Qed.

Lemma draw_eq {A} (m : RandomSource -> A * RandomSource) h :
  draw m h = (fst (m (random h)), setRandom h (snd (m (random h)))).
Proof. unfold draw. now destruct (m (random h)). Qed.

(** The result of a tick that survives: every field of the new state and
    every effect, in terms of the trap found under the new head and of
    whether the new head is on the food. *)
Lemma moveSnake_survives boardWidth boardHeight h newHead :
  playing (gameState h) ->
  nextHead boardWidth boardHeight (gameState h) = Some newHead ->
  terminalCollision (gameState h) newHead = false ->
  let s := gameState h in
  let hit := hitTrapAt s newHead in
  let ate := eatsFood s newHead in
  let grown := newHead :: snake s in
  let newSnake :=
    match hit with Some _ => reduceSnakeLength grown | None => grown end in
  let newTraps :=
    match hit with
    | Some hitTrap =>
      map (fun trap => if ident_eqb (Trap.id trap) (Trap.id hitTrap)
                       then Trap.trigger trap else trap) (traps s)
    | None => traps s
    end in
  let tenth := ate && (Z.rem (score s + 1) 10 =? 0) in
  let newSpeed :=
    if tenth then Z.max 50 (gameSpeedRef h - 5) else gameSpeedRef h in
  exists h',
    moveSnake boardWidth boardHeight h = Some h' /\
    snake (gameState h') =
      (if ate then newSnake
       else match hit with Some _ => newSnake | None => removelast grown end) /\
    traps (gameState h') = newTraps /\
    food (gameState h') =
      (if ate then
         fst (generateRandomFood boardWidth boardHeight newSnake newTraps
                                 (obstacles s) (random h))
       else food s) /\
    score (gameState h') = (if ate then score s + 1 else score s) /\
    trapWarning (gameState h') = option_map Trap.position hit /\
    obstacles (gameState h') = obstacles s /\
    direction (gameState h') = direction s /\
    isPlaying (gameState h') = true /\
    isGameOver (gameState h') = false /\
    obstacleReshapeCountdown (gameState h') = obstacleReshapeCountdown s /\
    trapRemovals h' =
      trapRemovals h ++
      match hit with Some hitTrap => [Trap.id hitTrap] | None => [] end /\
    gameSessionActiveRef h' = gameSessionActiveRef h /\
    trapSpawnTimerRef h' = trapSpawnTimerRef h /\
    obstacleReshapeTimerRef h' = obstacleReshapeTimerRef h /\
    gameSpeedRef h' = newSpeed /\
    storageCalls h' =
      storageCalls h ++ wallCalls boardWidth boardHeight s ++
      match hit with
      | Some hitTrap =>
        [RecordEvent (TrapHit (Trap.position hitTrap)
                              (Z.of_nat (length grown)))]
      | None => []
      end ++
      (if ate then
         RecordEvent (FoodEaten newHead (score s + 1)
                                (Z.of_nat (length newSnake))) ::
         (if tenth then
            [RecordEvent (SpeedIncrease newHead newSpeed (score s + 1))]
          else [])
       else []).
Proof.
  intros [Hplay Hover] Hhead Hcoll.
  unfold moveSnake, nextHead, terminalCollision, wallCalls, rawHead,
    hitTrapAt, eatsFood in *.
  rewrite Hplay, Hover. change (negb true || false) with false. cbv iota.
  destruct (snake (gameState h)) as [| head rest] eqn:Hsnake; [discriminate |].
  apply (inj Some) in Hhead. cbv beta iota zeta. rewrite Hhead.
  apply orb_false_elim in Hcoll. destruct Hcoll as [Hself Hobst].
  rewrite Hself, Hobst.
  match goal with
  | |- context [find ?f ?l] => destruct (find f l) as [hitTrap |]
  end;
    match goal with
    | |- context [if ?w then recordEvent (WallPassthrough _) _ else _] =>
      destruct w
    end;
    cbv beta iota zeta; rewrite ?draw_eq; cbv beta iota zeta;
    destruct ((Position.x newHead =? Position.x (food (gameState h))) &&
              (Position.y newHead =? Position.y (food (gameState h))));
    cbv beta iota zeta;
    (eexists; split; [reflexivity |]);
    unfold accelerate;
    try destruct (Z.rem (score (gameState h) + 1) 10 =? 0);
    simpl; rewrite ?Hplay, ?Hover, ?app_nil_r, <- ?app_assoc; simpl;
    repeat split; reflexivity.
Qed.

(** Every tick is idle, terminal or survived. *)
Lemma tick_classify boardWidth boardHeight h :
  snake (gameState h) <> [] ->
  (isPlaying (gameState h) = false \/ isGameOver (gameState h) = true) \/
  (playing (gameState h) /\
   exists newHead,
     nextHead boardWidth boardHeight (gameState h) = Some newHead /\
     (terminalCollision (gameState h) newHead = true \/
      terminalCollision (gameState h) newHead = false)).
Proof.
  intros Hne.
  destruct (isPlaying (gameState h)) eqn:Hplay; [| now left; left].
  destruct (isGameOver (gameState h)) eqn:Hover; [now left; right |].
  right. split; [now split |].
  unfold nextHead. destruct (snake (gameState h)); [congruence |].
  eexists. split; [reflexivity |].
  destruct (terminalCollision _ _); auto.
Qed.

Lemma moveSnake_some_snake boardWidth boardHeight h h' :
  moveSnake boardWidth boardHeight h = Some h' ->
  snake (gameState h) = [] -> h' = h.
Proof.
  unfold moveSnake. intros Hmove Hnil.
  destruct (negb (isPlaying (gameState h)) || isGameOver (gameState h));
    [congruence |].
  now rewrite Hnil in Hmove.
Qed.

(** The snake after a tick is the old snake or a non-empty prefix of the
    old snake with the new head in front. *)
Lemma moveSnake_snake_shape boardWidth boardHeight h h' :
  moveSnake boardWidth boardHeight h = Some h' ->
  snake (gameState h') = snake (gameState h) \/
  exists newHead n,
    nextHead boardWidth boardHeight (gameState h) = Some newHead /\
    snake (gameState h') = take (S n) (newHead :: snake (gameState h)) /\
    (Z.of_nat (S n) = Z.of_nat (length (snake (gameState h))) \/
     Z.of_nat (S n) = Z.of_nat (length (snake (gameState h))) + 1 \/
     Z.of_nat (S n) =
       Z.max 1 ((Z.of_nat (length (snake (gameState h))) + 1) / 2)).
Proof.
  intros Hmove.
  destruct (snake (gameState h)) as [| head rest] eqn:Hsnake.
  { left. rewrite (moveSnake_some_snake _ _ _ _ Hmove Hsnake). assumption. }
  destruct (tick_classify boardWidth boardHeight h) as
    [Hidle | (Hplaying & newHead & Hhead & [Hcoll | Hcoll])];
    [congruence | | |].
  - rewrite moveSnake_idle in Hmove by assumption.
    injection Hmove as <-. now left.
  - destruct (moveSnake_terminal _ _ _ _ Hplaying Hhead Hcoll)
      as (h1 & Hmove1 & Hstate & _).
    rewrite Hmove1 in Hmove. injection Hmove as <-.
    left. rewrite Hstate. simpl. now rewrite Hsnake.
  - destruct (moveSnake_survives _ _ _ _ Hplaying Hhead Hcoll)
      as (h1 & Hmove1 & Hnew & _).
    rewrite Hmove1 in Hmove. injection Hmove as <-.
    right. exists newHead. rewrite Hnew, Hsnake.
    assert (Hhalf : exists n,
      reduceSnakeLength (newHead :: head :: rest)
        = take (S n) (newHead :: head :: rest) /\
      Z.of_nat (S n) = Z.max 1 ((Z.of_nat (length (head :: rest)) + 1) / 2)).
    { unfold reduceSnakeLength.
      remember (Z.max 1 (Z.of_nat (length (newHead :: head :: rest)) / 2))
        as m eqn:Hm.
      exists (Nat.pred (Z.to_nat m)).
      replace (S (Nat.pred (Z.to_nat m))) with (Z.to_nat m) by lia.
      split; [reflexivity |].
      rewrite Z2Nat.id by lia. subst m. f_equal. f_equal. simpl length. lia. }
    destruct Hhalf as (nh & Hcut & Hnh).
    destruct (hitTrapAt (gameState h) newHead);
      destruct (eatsFood (gameState h) newHead).
    + exists nh. split; [assumption |]. split; [assumption |]. auto.
    + exists nh. split; [assumption |]. split; [assumption |]. auto.
    + exists (S (length rest)). split; [assumption |].
      split; [| right; left; simpl length; lia].
      rewrite firstn_all2 by (simpl; lia). reflexivity.
    + exists (length rest). split; [assumption |].
      split; [| left; simpl length; lia].
      rewrite removelast_firstn_len. reflexivity.
Qed.

(** X1. A tick that returns leaves the snake with its old length [L], with
    [L + 1] cells, or with [max(1, floor((L + 1) / 2))] cells, and with
    nothing else. *)
Theorem moveSnake_length_cases boardWidth boardHeight h h' :
  moveSnake boardWidth boardHeight h = Some h' ->
  let L := Z.of_nat (length (snake (gameState h))) in
  let L' := Z.of_nat (length (snake (gameState h'))) in
  L' = L \/ L' = L + 1 \/ L' = Z.max 1 ((L + 1) / 2).
Proof.
  intros Hmove L L'. subst L L'.
  destruct (moveSnake_snake_shape _ _ _ _ Hmove)
    as [Hsame | (newHead & n & _ & Hshape & Hlen)].
  - left. now rewrite Hsame.
  - assert (Hbound : (S n <= length (newHead :: snake (gameState h)))%nat).
    { simpl length.
      assert (Z.of_nat (length (snake (gameState h))) + 1 > 0) by lia.
      assert ((Z.of_nat (length (snake (gameState h))) + 1) / 2
              <= Z.of_nat (length (snake (gameState h))) + 1)
        by (apply Z.div_le_upper_bound; lia).
      lia. }
    rewrite Hshape, length_take. rewrite Nat.min_l by assumption.
    destruct Hlen as [-> | [-> | ->]]; auto.
Qed.

Lemma moveSnake_length_cases_witness :
  let L := Z.of_nat (length (snake (gameState Examples.tenthPoint))) in
  let L' :=
    Z.of_nat (length (snake (gameState (Samples.tick Examples.tenthPoint)))) in
  L' = L \/ L' = L + 1 \/ L' = Z.max 1 ((L + 1) / 2).
Proof.
  apply (moveSnake_length_cases 40 40 Examples.tenthPoint
           (Samples.tick Examples.tenthPoint)).
  vm_compute. reflexivity.
Defined.

Lemma wrapPosition_onBoard boardWidth boardHeight p :
  0 < boardWidth -> 0 < boardHeight ->
  onBoard boardWidth boardHeight (wrapPosition boardWidth boardHeight p).
Proof.
  intros Hw Hh. unfold onBoard, wrapPosition. simpl.
  rewrite !rem_wrap by assumption.
  pose proof (Z.mod_pos_bound (Position.x p) boardWidth Hw).
  pose proof (Z.mod_pos_bound (Position.y p) boardHeight Hh).
  lia.
Qed.

(** X2. On a board with positive sides, a tick keeps the snake on the
    board: if every cell of the snake is on the board before the tick, so
    is every cell after it. *)
Theorem moveSnake_stays_on_board boardWidth boardHeight h h' :
  0 < boardWidth -> 0 < boardHeight ->
  Forall (onBoard boardWidth boardHeight) (snake (gameState h)) ->
  moveSnake boardWidth boardHeight h = Some h' ->
  Forall (onBoard boardWidth boardHeight) (snake (gameState h')).
Proof.
  intros Hw Hh Hall Hmove.
  destruct (moveSnake_snake_shape _ _ _ _ Hmove)
    as [Hsame | (newHead & n & Hhead & Hshape & _)].
  - now rewrite Hsame.
  - rewrite Hshape. apply Forall_take. constructor; [| assumption].
    unfold nextHead in Hhead.
    destruct (snake (gameState h)); [discriminate |].
    injection Hhead as <-. now apply wrapPosition_onBoard.
Qed.

Lemma moveSnake_stays_on_board_witness :
  Forall (onBoard 40 40) (snake (gameState (Samples.tick Examples.trapHit))).
Proof.
  apply (moveSnake_stays_on_board 40 40 Examples.trapHit
           (Samples.tick Examples.trapHit));
    [lia | lia | | vm_compute; reflexivity].
  repeat constructor; simpl; lia.
Defined.

(** X3. A tick of the playing state that meets nothing (no collision, no
    untriggered trap, no food) shifts the snake: the new head, followed by
    the old snake without its last cell.  Food, score, traps and the tick
    interval are unchanged, and no trap removal is scheduled. *)
Theorem moveSnake_ordinary_move boardWidth boardHeight h newHead :
  playing (gameState h) ->
  nextHead boardWidth boardHeight (gameState h) = Some newHead ->
  terminalCollision (gameState h) newHead = false ->
  hitTrapAt (gameState h) newHead = None ->
  eatsFood (gameState h) newHead = false ->
  exists h',
    moveSnake boardWidth boardHeight h = Some h' /\
    snake (gameState h') = newHead :: removelast (snake (gameState h)) /\
    food (gameState h') = food (gameState h) /\
    score (gameState h') = score (gameState h) /\
    traps (gameState h') = traps (gameState h) /\
    gameSpeedRef h' = gameSpeedRef h /\
    trapRemovals h' = trapRemovals h /\
    storageCalls h' =
      storageCalls h ++ wallCalls boardWidth boardHeight (gameState h).
Proof.
  intros Hplaying Hhead Hcoll Htrap Hfood.
  destruct (moveSnake_survives _ _ _ _ Hplaying Hhead Hcoll)
    as (h' & Hmove & Hsnake & Htraps & Hf & Hscore & _ & _ & _ & _ & _ & _
        & Hrem & _ & _ & _ & Hspeed & Hcalls).
  rewrite Htrap, Hfood in *. simpl in Hspeed, Hrem, Hcalls.
  rewrite !app_nil_r in Hrem, Hcalls.
  exists h'. split; [assumption |].
  rewrite Hsnake, Htraps, Hf, Hscore, Hspeed, Hrem, Hcalls.
  repeat split; try reflexivity.
  unfold nextHead in Hhead.
  destruct (snake (gameState h)); [discriminate | reflexivity].
Qed.

Lemma moveSnake_ordinary_move_witness :
  exists h',
    moveSnake 40 40 Examples.plain = Some h' /\
    snake (gameState h') =
      Position.mk 11 10 :: removelast (snake (gameState Examples.plain)) /\
    food (gameState h') = food (gameState Examples.plain) /\
    score (gameState h') = score (gameState Examples.plain) /\
    traps (gameState h') = traps (gameState Examples.plain) /\
    gameSpeedRef h' = gameSpeedRef Examples.plain /\
    trapRemovals h' = trapRemovals Examples.plain /\
    storageCalls h' =
      storageCalls Examples.plain ++ wallCalls 40 40 (gameState Examples.plain).
Proof.
  apply (moveSnake_ordinary_move 40 40 Examples.plain (Position.mk 11 10));
    [split; reflexivity | reflexivity | reflexivity | reflexivity
     | reflexivity].
Defined.

(** ** Eating, trap hits and the end of the game *)

Lemma generateRandomFood_no_conflict boardWidth boardHeight snake traps
    obstacles g :
  (exists k, (k < 100)%nat /\
     foodConflict snake traps obstacles
                  (candidate boardWidth boardHeight g k) = false) ->
  foodConflict snake traps obstacles
    (fst (generateRandomFood boardWidth boardHeight snake traps obstacles g))
  = false.
Proof.
  intros (k0 & Hk0 & Hfree0).
  unfold generateRandomFood, bind, sampleFood.
  destruct (sampleCell_spec boardWidth boardHeight
              (foodConflict snake traps obstacles) 100 100 0 g)
    as (j & Hres & Hbefore & Hfree); [lia |].
  destruct (sampleCell _ _ _ _ _ _ g) as [[cell attempts] g'].
  simpl in Hres. injection Hres as -> ->. simpl.
  destruct (Z.lt_ge_cases (0 + 1 + Z.of_nat j) 100) as [Hin | Hout];
    [now apply Hfree |].
  destruct (Nat.lt_ge_cases k0 j) as [Hlt | Hge].
  - destruct (Hbefore k0 Hlt) as [Hbusy _]. congruence.
  - replace j with k0 by lia. assumption.
Qed.

(** X4. A tick of the playing state whose new head is on the food, with no
    collision and no trap, grows the snake by the new head, adds one to the
    score and leaves the traps alone; and if one of the 100 cells the food
    generator may draw is free of the grown snake, the traps and the
    obstacles, the new food lies on none of them. *)
Theorem moveSnake_eats boardWidth boardHeight h newHead :
  playing (gameState h) ->
  nextHead boardWidth boardHeight (gameState h) = Some newHead ->
  terminalCollision (gameState h) newHead = false ->
  hitTrapAt (gameState h) newHead = None ->
  eatsFood (gameState h) newHead = true ->
  exists h',
    moveSnake boardWidth boardHeight h = Some h' /\
    snake (gameState h') = newHead :: snake (gameState h) /\
    score (gameState h') = score (gameState h) + 1 /\
    traps (gameState h') = traps (gameState h) /\
    ((exists k, (k < 100)%nat /\
        foodConflict (newHead :: snake (gameState h)) (traps (gameState h))
          (obstacles (gameState h))
          (candidate boardWidth boardHeight (random h) k) = false) ->
     freeOfSnake (snake (gameState h')) (food (gameState h')) /\
     freeOfTraps (traps (gameState h')) (food (gameState h')) /\
     freeOfObstacles (obstacles (gameState h')) (food (gameState h'))).
Proof.
  intros Hplaying Hhead Hcoll Htrap Hfood.
  destruct (moveSnake_survives _ _ _ _ Hplaying Hhead Hcoll)
    as (h' & Hmove & Hsnake & Htraps & Hf & Hscore & _ & Hobst & _).
  rewrite Htrap, Hfood in *.
  exists h'. split; [assumption |].
  rewrite Hsnake, Htraps, Hscore, Hobst, Hf.
  repeat split; try reflexivity;
    pose proof (generateRandomFood_no_conflict _ _ _ _ _ _ H) as Hfree;
    unfold foodConflict in Hfree;
    apply orb_false_iff in Hfree as [Hfree Ho];
    apply orb_false_iff in Hfree as [Hs Ht].
  - now apply onSnake_false.
  - now apply onTrap_false.
  - now apply isObstacleCollision_false.
Qed.

Lemma moveSnake_eats_witness :
  exists h',
    moveSnake 40 40 Examples.tenthPoint = Some h' /\
    snake (gameState h') =
      Position.mk 11 10 :: snake (gameState Examples.tenthPoint) /\
    score (gameState h') = score (gameState Examples.tenthPoint) + 1 /\
    traps (gameState h') = traps (gameState Examples.tenthPoint) /\
    ((exists k, (k < 100)%nat /\
        foodConflict
          (Position.mk 11 10 :: snake (gameState Examples.tenthPoint))
          (traps (gameState Examples.tenthPoint))
          (obstacles (gameState Examples.tenthPoint))
          (candidate 40 40 (random Examples.tenthPoint) k) = false) ->
     freeOfSnake (snake (gameState h')) (food (gameState h')) /\
     freeOfTraps (traps (gameState h')) (food (gameState h')) /\
     freeOfObstacles (obstacles (gameState h')) (food (gameState h'))).
Proof.
  apply (moveSnake_eats 40 40 Examples.tenthPoint (Position.mk 11 10));
    [split; reflexivity | reflexivity | reflexivity | reflexivity
     | reflexivity].
Defined.

Lemma filter_other_ids hitId (l : list Trap.t) :
  List.filter (fun trap => negb (ident_eqb (Trap.id trap) hitId))
    (map (fun trap => if ident_eqb (Trap.id trap) hitId
                      then Trap.trigger trap else trap) l) =
  List.filter (fun trap => negb (ident_eqb (Trap.id trap) hitId)) l.
Proof.
  induction l as [| t l IH]; [reflexivity |].
  simpl. destruct (ident_eqb (Trap.id t) hitId) eqn:Heq; simpl.
  - rewrite Heq. simpl. exact IH.
  - rewrite Heq. simpl. now rewrite IH.
Qed.

Lemma triggered_by_id hitId (l : list Trap.t) t :
  In t (map (fun trap => if ident_eqb (Trap.id trap) hitId
                         then Trap.trigger trap else trap) l) ->
  ident_eqb (Trap.id t) hitId = true ->
  Trap.isTriggered t = true.
Proof.
  intros Hin Hid. apply in_map_iff in Hin as (t0 & Ht & _).
  destruct (ident_eqb (Trap.id t0) hitId) eqn:Heq; subst t.
  - reflexivity.
  - congruence.
Qed.

(** X5. A tick of the playing state whose new head is on an untriggered trap
    (with no terminal collision) keeps the number of traps, leaves no trap
    with the hit trap's identifier untriggered, leaves the traps with other
    identifiers as they were, sets the warning to the trap's cell and
    schedules one removal, for that identifier. *)
Theorem moveSnake_trap_hit_effects boardWidth boardHeight h newHead hitTrap :
  playing (gameState h) ->
  nextHead boardWidth boardHeight (gameState h) = Some newHead ->
  terminalCollision (gameState h) newHead = false ->
  hitTrapAt (gameState h) newHead = Some hitTrap ->
  exists h',
    moveSnake boardWidth boardHeight h = Some h' /\
    length (traps (gameState h')) = length (traps (gameState h)) /\
    (forall t, In t (traps (gameState h')) ->
       ident_eqb (Trap.id t) (Trap.id hitTrap) = true ->
       Trap.isTriggered t = true) /\
    List.filter (fun t => negb (ident_eqb (Trap.id t) (Trap.id hitTrap)))
                (traps (gameState h')) =
    List.filter (fun t => negb (ident_eqb (Trap.id t) (Trap.id hitTrap)))
                (traps (gameState h)) /\
    trapWarning (gameState h') = Some (Trap.position hitTrap) /\
    trapRemovals h' = trapRemovals h ++ [Trap.id hitTrap].
Proof.
  intros Hplaying Hhead Hcoll Htrap.
  destruct (moveSnake_survives _ _ _ _ Hplaying Hhead Hcoll)
    as (h' & Hmove & _ & Htraps & _ & _ & Hwarn & _ & _ & _ & _ & _
        & Hrem & _).
  rewrite Htrap in *. simpl in Hwarn.
  exists h'. split; [assumption |].
  rewrite Htraps, Hwarn, Hrem.
  split; [apply length_map |].
  split; [intros t; apply triggered_by_id |].
  split; [apply filter_other_ids |].
  split; reflexivity.
Qed.

Lemma moveSnake_trap_hit_effects_witness :
  exists h',
    moveSnake 40 40 Examples.trapHit = Some h' /\
    length (traps (gameState h')) =
      length (traps (gameState Examples.trapHit)) /\
    (forall t, In t (traps (gameState h')) ->
       ident_eqb (Trap.id t) (Trap.id Examples.trapAhead) = true ->
       Trap.isTriggered t = true) /\
    List.filter
      (fun t => negb (ident_eqb (Trap.id t) (Trap.id Examples.trapAhead)))
      (traps (gameState h')) =
    List.filter
      (fun t => negb (ident_eqb (Trap.id t) (Trap.id Examples.trapAhead)))
      (traps (gameState Examples.trapHit)) /\
    trapWarning (gameState h') = Some (Trap.position Examples.trapAhead) /\
    trapRemovals h' =
      trapRemovals Examples.trapHit ++ [Trap.id Examples.trapAhead].
Proof.
  apply (moveSnake_trap_hit_effects 40 40 Examples.trapHit (Position.mk 11 10)
           Examples.trapAhead);
    [split; reflexivity | reflexivity | reflexivity | reflexivity].
Defined.

(** X6. When no removal is pending, a trap hit followed by the firing of
    the removal it scheduled leaves exactly the traps that do not carry the
    hit trap's identifier, clears the warning and leaves no removal
    pending; the snake keeps the length the hit gave it. *)
Theorem trap_hit_then_removal boardWidth boardHeight h newHead hitTrap :
  playing (gameState h) ->
  nextHead boardWidth boardHeight (gameState h) = Some newHead ->
  terminalCollision (gameState h) newHead = false ->
  hitTrapAt (gameState h) newHead = Some hitTrap ->
  trapRemovals h = [] ->
  exists h',
    moveSnake boardWidth boardHeight h = Some h' /\
    traps (gameState (trapRemovalFires h')) =
      List.filter (fun t => negb (ident_eqb (Trap.id t) (Trap.id hitTrap)))
                  (traps (gameState h)) /\
    ~ In hitTrap (traps (gameState (trapRemovalFires h'))) /\
    trapWarning (gameState (trapRemovalFires h')) = None /\
    trapRemovals (trapRemovalFires h') = [] /\
    snake (gameState (trapRemovalFires h')) = snake (gameState h').
Proof.
  intros Hplaying Hhead Hcoll Htrap Hnone.
  destruct (moveSnake_survives _ _ _ _ Hplaying Hhead Hcoll)
    as (h' & Hmove & _ & Htraps & _ & _ & _ & _ & _ & _ & _ & _ & Hrem & _).
  rewrite Htrap in *. rewrite Hnone in Hrem. simpl in Hrem.
  exists h'. split; [assumption |].
  unfold trapRemovalFires. rewrite Hrem. simpl.
  rewrite Htraps, filter_other_ids.
  split; [reflexivity |].
  split; [| auto].
  intros Hin. apply filter_In in Hin as [_ Hneq].
  assert (Hrefl : ident_eqb (Trap.id hitTrap) (Trap.id hitTrap) = true).
  { destruct (Trap.id hitTrap); simpl; rewrite ?Z.eqb_refl; try reflexivity.
    simpl. apply Qeq_bool_iff. reflexivity. }
  now rewrite Hrefl in Hneq.
Qed.

Lemma trap_hit_then_removal_witness :
  exists h',
    moveSnake 40 40 Examples.trapHit = Some h' /\
    traps (gameState (trapRemovalFires h')) =
      List.filter
        (fun t => negb (ident_eqb (Trap.id t) (Trap.id Examples.trapAhead)))
        (traps (gameState Examples.trapHit)) /\
    ~ In Examples.trapAhead (traps (gameState (trapRemovalFires h'))) /\
    trapWarning (gameState (trapRemovalFires h')) = None /\
    trapRemovals (trapRemovalFires h') = [] /\
    snake (gameState (trapRemovalFires h')) = snake (gameState h').
Proof.
  apply (trap_hit_then_removal 40 40 Examples.trapHit (Position.mk 11 10)
           Examples.trapAhead);
    [split; reflexivity | reflexivity | reflexivity | reflexivity
     | reflexivity].
Defined.

Lemma trapTimerFires_idle boardWidth boardHeight now h :
  isPlaying (gameState h) = false \/ isGameOver (gameState h) = true ->
  gameState (trapTimerFires boardWidth boardHeight now h) = gameState h.
Proof.
  intros Hidle. unfold trapTimerFires. rewrite scheduleNextTrap_state.
  unfold spawnTrap.
  destruct Hidle as [H | H]; rewrite H; simpl; [reflexivity |].
  now rewrite orb_true_r.
Qed.

Lemma reshapeTick_idle boardWidth boardHeight now h :
  isPlaying (gameState h) = false \/ isGameOver (gameState h) = true ->
  reshapeTick boardWidth boardHeight now h = h.
Proof.
  intros Hidle. unfold reshapeTick.
  destruct Hidle as [H | H]; rewrite H; simpl; [reflexivity |].
  now rewrite orb_true_r.
Qed.

Lemma callbacks_idle_when_not_playing_parts boardWidth boardHeight h :
  isPlaying (gameState h) = false \/ isGameOver (gameState h) = true ->
  moveSnake boardWidth boardHeight h = Some h /\
  (forall now, reshapeTick boardWidth boardHeight now h = h) /\
  (forall now,
     gameState (trapTimerFires boardWidth boardHeight now h) = gameState h).
Proof.
  intros Hidle.
  split; [now apply moveSnake_idle |].
  split; intros now;
    [now apply reshapeTick_idle | now apply trapTimerFires_idle].
Qed.

(** X7. While the game is paused or over, a tick and a reshape tick change
    nothing at all, and a firing of the trap timer leaves the game state as
    it is. *)
Theorem callbacks_idle_when_not_playing boardWidth boardHeight now h :
  isPlaying (gameState h) = false \/ isGameOver (gameState h) = true ->
  moveSnake boardWidth boardHeight h = Some h /\
  reshapeTick boardWidth boardHeight now h = h /\
  gameState (trapTimerFires boardWidth boardHeight now h) = gameState h.
Proof.
  intros Hidle.
  split; [now apply moveSnake_idle |].
  split; [now apply reshapeTick_idle | now apply trapTimerFires_idle].
Qed.

Lemma callbacks_idle_when_not_playing_witness :
  moveSnake 40 40 (togglePause Examples.plain)
    = Some (togglePause Examples.plain) /\
  reshapeTick 40 40 5 (togglePause Examples.plain)
    = togglePause Examples.plain /\
  gameState (trapTimerFires 40 40 5 (togglePause Examples.plain))
    = gameState (togglePause Examples.plain).
Proof.
  apply (callbacks_idle_when_not_playing 40 40 5 (togglePause Examples.plain)).
  left. reflexivity.
Defined.

(** X8. A tick of the playing state whose new head runs into the body or
    an obstacle ends the storage session if one is active, with the score
    and length before the tick and the reason [self-collision] whenever the
    head is on the body, [obstacle-collision] otherwise; it clears the
    session flag, and every later tick returns the same state. *)
Theorem moveSnake_ends_session boardWidth boardHeight h newHead :
  playing (gameState h) ->
  nextHead boardWidth boardHeight (gameState h) = Some newHead ->
  terminalCollision (gameState h) newHead = true ->
  exists h',
    moveSnake boardWidth boardHeight h = Some h' /\
    gameSessionActiveRef h' = false /\
    storageCalls h' =
      storageCalls h ++ wallCalls boardWidth boardHeight (gameState h) ++
      (if gameSessionActiveRef h then
         [EndGameSession (score (gameState h))
            (Z.of_nat (length (snake (gameState h))))
            (if checkSelfCollision (newHead :: snake (gameState h))
             then SelfCollision else ObstacleCollision)]
       else []) /\
    moveSnake boardWidth boardHeight h' = Some h'.
Proof.
  intros Hplaying Hhead Hcoll.
  destruct (moveSnake_terminal _ _ _ _ Hplaying Hhead Hcoll)
    as (h' & Hmove & Hstate & _ & Hactive & _ & Hcalls).
  exists h'. repeat split; try assumption.
  apply moveSnake_idle. right. now rewrite Hstate.
Qed.

Lemma moveSnake_ends_session_witness :
  exists h',
    moveSnake 40 40 Examples.crash = Some h' /\
    gameSessionActiveRef h' = false /\
    storageCalls h' =
      storageCalls Examples.crash ++
      wallCalls 40 40 (gameState Examples.crash) ++
      (if gameSessionActiveRef Examples.crash then
         [EndGameSession (score (gameState Examples.crash))
            (Z.of_nat (length (snake (gameState Examples.crash))))
            (if checkSelfCollision
                  (Position.mk 11 10 :: snake (gameState Examples.crash))
             then SelfCollision else ObstacleCollision)]
       else []) /\
    moveSnake 40 40 h' = Some h'.
Proof.
  apply (moveSnake_ends_session 40 40 Examples.crash (Position.mk 11 10));
    [split; reflexivity | reflexivity | reflexivity].
Defined.

(** Reversing into the body.  In a playing state whose second cell is
    where the head would go on turning back, a change to the opposite
    direction followed by a tick ends the game: the reversal is stored and
    the tick finds the head on the body. *)
Lemma reversal_then_tick_ends_game boardWidth boardHeight h head second rest :
  playing (gameState h) ->
  snake (gameState h) = head :: second :: rest ->
  second =
    wrapPosition boardWidth boardHeight
      (Position.mk
         (Position.x head +
          Position.x (DIRECTIONS
                        (Keyboard.oppositeDirections (direction (gameState h)))))
         (Position.y head +
          Position.y (DIRECTIONS
                        (Keyboard.oppositeDirections (direction (gameState h)))))) ->
  exists h',
    moveSnake boardWidth boardHeight
      (changeDirection (Keyboard.oppositeDirections (direction (gameState h))) h)
      = Some h' /\
    isGameOver (gameState h') = true /\
    isPlaying (gameState h') = false /\
    snake (gameState h') = snake (gameState h).
Proof.
  intros [Hplay Hover] Hsnake Hsecond.
  set (h1 := changeDirection
               (Keyboard.oppositeDirections (direction (gameState h))) h).
  assert (Hplaying : playing (gameState h1)) by (split; assumption).
  assert (Hhead : nextHead boardWidth boardHeight (gameState h1) = Some second).
  { unfold nextHead. subst h1. simpl. rewrite Hsnake, Hsecond. reflexivity. }
  assert (Hcoll : terminalCollision (gameState h1) second = true).
  { unfold terminalCollision. subst h1. simpl snake. rewrite Hsnake. simpl.
    rewrite !Z.eqb_refl. simpl. now rewrite orb_true_r. }
  destruct (moveSnake_terminal _ _ _ _ Hplaying Hhead Hcoll)
    as (h' & Hmove & Hstate & _).
  exists h'. split; [assumption |]. rewrite Hstate. simpl. auto.
Qed.

Lemma reversal_then_tick_ends_game_witness :
  exists h',
    moveSnake 40 40
      (changeDirection
         (Keyboard.oppositeDirections (direction (gameState Examples.plain)))
         Examples.plain)
      = Some h' /\
    isGameOver (gameState h') = true /\
    isPlaying (gameState h') = false /\
    snake (gameState h') = snake (gameState Examples.plain).
Proof.
  apply (reversal_then_tick_ends_game 40 40 Examples.plain
           (Position.mk 10 10) (Position.mk 9 10) [Position.mk 8 10]);
    [split; reflexivity | reflexivity | reflexivity].
Defined.

(** ** Pause, resume and the timers *)

Lemma spawnDelay_range (r : Q) :
  (0 <= r)%Q -> (r < 1)%Q ->
  let spawnDelay :=
    (r * inject_Z (GAME_CONFIG.TRAP_SPAWN_MAX_INTERVAL -
                   GAME_CONFIG.TRAP_SPAWN_MIN_INTERVAL) +
     inject_Z GAME_CONFIG.TRAP_SPAWN_MIN_INTERVAL)%Q in
  (inject_Z GAME_CONFIG.TRAP_SPAWN_MIN_INTERVAL <= spawnDelay)%Q /\
  (spawnDelay <= inject_Z GAME_CONFIG.TRAP_SPAWN_MAX_INTERVAL)%Q.
Proof.
  intros H0 H1 spawnDelay. subst spawnDelay.
  change (inject_Z (GAME_CONFIG.TRAP_SPAWN_MAX_INTERVAL -
                    GAME_CONFIG.TRAP_SPAWN_MIN_INTERVAL)) with (5000 # 1)%Q.
  change (inject_Z GAME_CONFIG.TRAP_SPAWN_MIN_INTERVAL) with (10000 # 1)%Q.
  change (inject_Z GAME_CONFIG.TRAP_SPAWN_MAX_INTERVAL) with (15000 # 1)%Q.
  split; lra.
Qed.

Lemma scheduleNextTrap_timer h :
  in_unit_interval (random h) ->
  exists spawnDelay,
    trapSpawnTimerRef (scheduleNextTrap h) = Some spawnDelay /\
    (inject_Z GAME_CONFIG.TRAP_SPAWN_MIN_INTERVAL <= spawnDelay)%Q /\
    (spawnDelay <= inject_Z GAME_CONFIG.TRAP_SPAWN_MAX_INTERVAL)%Q.
Proof.
  intros Hg. unfold scheduleNextTrap, draw, Math_random. simpl.
  eexists. split; [reflexivity |].
  apply spawnDelay_range; apply Hg.
Qed.

(** Pausing a running game cancels both timers, keeps every field of the
    game state but [isPlaying], countdown included, and draws nothing from
    the random source. *)
Lemma togglePause_pauses h :
  isPlaying (gameState h) = true ->
  trapSpawnTimerRef (togglePause h) = None /\
  obstacleReshapeTimerRef (togglePause h) = false /\
  isPlaying (gameState (togglePause h)) = false /\
  random (togglePause h) = random h /\
  gameSpeedRef (togglePause h) = gameSpeedRef h /\
  obstacleReshapeCountdown (gameState (togglePause h))
    = obstacleReshapeCountdown (gameState h) /\
  snake (gameState (togglePause h)) = snake (gameState h) /\
  food (gameState (togglePause h)) = food (gameState h) /\
  traps (gameState (togglePause h)) = traps (gameState h) /\
  obstacles (gameState (togglePause h)) = obstacles (gameState h) /\
  direction (gameState (togglePause h)) = direction (gameState h) /\
  score (gameState (togglePause h)) = score (gameState h).
Proof.
  intros Hplay. unfold togglePause. rewrite Hplay. simpl.
  repeat split; reflexivity.
Qed.

Lemma togglePause_pauses_witness :
  trapSpawnTimerRef (togglePause Examples.plain) = None /\
  obstacleReshapeTimerRef (togglePause Examples.plain) = false /\
  isPlaying (gameState (togglePause Examples.plain)) = false /\
  random (togglePause Examples.plain) = random Examples.plain /\
  gameSpeedRef (togglePause Examples.plain) = gameSpeedRef Examples.plain /\
  obstacleReshapeCountdown (gameState (togglePause Examples.plain))
    = obstacleReshapeCountdown (gameState Examples.plain) /\
  snake (gameState (togglePause Examples.plain))
    = snake (gameState Examples.plain) /\
  food (gameState (togglePause Examples.plain))
    = food (gameState Examples.plain) /\
  traps (gameState (togglePause Examples.plain))
    = traps (gameState Examples.plain) /\
  obstacles (gameState (togglePause Examples.plain))
    = obstacles (gameState Examples.plain) /\
  direction (gameState (togglePause Examples.plain))
    = direction (gameState Examples.plain) /\
  score (gameState (togglePause Examples.plain))
    = score (gameState Examples.plain).
Proof.
  apply (togglePause_pauses Examples.plain). reflexivity.
Defined.

(** X11. Resuming a paused game that is not over starts the reshape
    interval and schedules the trap timer afresh, with a delay from the
    configured minimum to the configured maximum, both included; toggling
    the pause once more gives back the game state that was paused. *)
Theorem togglePause_resumes h :
  isPlaying (gameState h) = false ->
  isGameOver (gameState h) = false ->
  in_unit_interval (random h) ->
  isPlaying (gameState (togglePause h)) = true /\
  obstacleReshapeTimerRef (togglePause h) = true /\
  (exists spawnDelay,
     trapSpawnTimerRef (togglePause h) = Some spawnDelay /\
     (inject_Z GAME_CONFIG.TRAP_SPAWN_MIN_INTERVAL <= spawnDelay)%Q /\
     (spawnDelay <= inject_Z GAME_CONFIG.TRAP_SPAWN_MAX_INTERVAL)%Q) /\
  gameState (togglePause (togglePause h)) = gameState h.
Proof.
  intros Hplay Hover Hg.
  split; [unfold togglePause; rewrite Hplay; reflexivity |].
  split; [unfold togglePause; rewrite Hplay, Hover; reflexivity |].
  split.
  - destruct (scheduleNextTrap_timer h Hg) as (d & Hd & Hrange).
    exists d. split; [| assumption].
    unfold togglePause. rewrite Hplay, Hover. simpl. exact Hd.
  - unfold togglePause at 1. simpl.
    unfold togglePause. simpl. rewrite Hplay. simpl.
    destruct (gameState h); simpl in *. now subst.
Qed.

Lemma togglePause_resumes_witness :
  let h := togglePause Examples.plain in
  isPlaying (gameState (togglePause h)) = true /\
  obstacleReshapeTimerRef (togglePause h) = true /\
  (exists spawnDelay,
     trapSpawnTimerRef (togglePause h) = Some spawnDelay /\
     (inject_Z GAME_CONFIG.TRAP_SPAWN_MIN_INTERVAL <= spawnDelay)%Q /\
     (spawnDelay <= inject_Z GAME_CONFIG.TRAP_SPAWN_MAX_INTERVAL)%Q) /\
  gameState (togglePause (togglePause h)) = gameState h.
Proof.
  apply (togglePause_resumes (togglePause Examples.plain));
    [reflexivity | reflexivity | exact in_unit_interval_zeros].
Defined.

(** X10. A paused game is frozen: after pausing a running game, any
    sequence of ticks, trap-timer firings and reshape ticks runs to a state
    with the game state the pause left, that is, the state before the pause
    with [isPlaying] false: no move, no spawn, no reshape and no countdown
    until the game is resumed. *)
Theorem paused_game_is_frozen boardWidth boardHeight ops h :
  isPlaying (gameState h) = true ->
  Forall timerOperation ops ->
  exists h',
    runAll boardWidth boardHeight ops (togglePause h) = Some h' /\
    gameState h' = gameState (togglePause h) /\
    isPlaying (gameState h') = false /\
    snake (gameState h') = snake (gameState h) /\
    traps (gameState h') = traps (gameState h) /\
    obstacles (gameState h') = obstacles (gameState h) /\
    food (gameState h') = food (gameState h) /\
    obstacleReshapeCountdown (gameState h')
      = obstacleReshapeCountdown (gameState h).
Proof.
  intros Hplay Hops.
  assert (Hfrozen : forall h0,
    isPlaying (gameState h0) = false ->
    exists h',
      runAll boardWidth boardHeight ops h0 = Some h' /\
      gameState h' = gameState h0).
  { induction Hops as [| op ops Hop _ IH]; intros h0 Hpaused.
    - exists h0. split; reflexivity.
    - simpl.
      destruct (callbacks_idle_when_not_playing_parts boardWidth boardHeight
                  h0 (or_introl Hpaused)) as (Htick & Hreshape & Htimer).
      destruct op as [| now | | now | d | | |]; simpl in Hop; try contradiction;
        simpl.
      + rewrite Htick. now apply IH.
      + destruct (IH (trapTimerFires boardWidth boardHeight now h0))
          as (h' & Hrun & Hstate); [now rewrite Htimer |].
        exists h'. split; [assumption |]. now rewrite Hstate, Htimer.
      + rewrite Hreshape. now apply IH. }
  destruct (togglePause_pauses h Hplay)
    as (_ & _ & Hpaused & _ & _ & Hcd & Hs & Hf & Ht & Ho & _).
  destruct (Hfrozen (togglePause h) Hpaused) as (h' & Hrun & Hstate).
  exists h'. split; [assumption |]. rewrite Hstate.
  repeat split; assumption.
Qed.

Lemma paused_game_is_frozen_witness :
  exists h',
    runAll 40 40 [Tick; TrapTimer 7; ReshapeTimer 8; Tick]
           (togglePause Examples.trapHit) = Some h' /\
    gameState h' = gameState (togglePause Examples.trapHit) /\
    isPlaying (gameState h') = false /\
    snake (gameState h') = snake (gameState Examples.trapHit) /\
    traps (gameState h') = traps (gameState Examples.trapHit) /\
    obstacles (gameState h') = obstacles (gameState Examples.trapHit) /\
    food (gameState h') = food (gameState Examples.trapHit) /\
    obstacleReshapeCountdown (gameState h')
      = obstacleReshapeCountdown (gameState Examples.trapHit).
Proof.
  apply (paused_game_is_frozen 40 40 [Tick; TrapTimer 7; ReshapeTimer 8; Tick]
           Examples.trapHit);
    [reflexivity | repeat constructor].
Defined.

(** ** The reshape countdown *)

Lemma establishes_weaken {A} (m : Rand A) (P Q : A -> Prop) :
  establishes m P -> (forall a, P a -> Q a) -> establishes m Q.
Proof. intros Hm HPQ g Hg. destruct (Hm g Hg). split; auto. Qed.

Lemma newReshapeCountdown_range :
  establishes newReshapeCountdown (fun countdown => 30 <= countdown <= 45).
Proof.
  unfold newReshapeCountdown.
  eapply establishes_bind; [apply establishes_Math_random |].
  intros r [H0 H1]. apply establishes_ret.
  set (q := ((inject_Z GAME_CONFIG.OBSTACLE_RESHAPE_MIN_TIME +
              r * inject_Z (GAME_CONFIG.OBSTACLE_RESHAPE_MAX_TIME -
                            GAME_CONFIG.OBSTACLE_RESHAPE_MIN_TIME))
             / inject_Z 1000)%Q).
  assert (Hlo : (inject_Z 30 <= q)%Q).
  { subst q. unfold Qdiv. change (/ inject_Z 1000)%Q with (1 # 1000)%Q.
    change (inject_Z (GAME_CONFIG.OBSTACLE_RESHAPE_MAX_TIME -
                      GAME_CONFIG.OBSTACLE_RESHAPE_MIN_TIME))
      with (15000 # 1)%Q.
    change (inject_Z GAME_CONFIG.OBSTACLE_RESHAPE_MIN_TIME)
      with (30000 # 1)%Q.
    change (inject_Z 30) with (30 # 1)%Q. lra. }
  assert (Hhi : (q <= inject_Z 45)%Q).
  { subst q. unfold Qdiv. change (/ inject_Z 1000)%Q with (1 # 1000)%Q.
    change (inject_Z (GAME_CONFIG.OBSTACLE_RESHAPE_MAX_TIME -
                      GAME_CONFIG.OBSTACLE_RESHAPE_MIN_TIME))
      with (15000 # 1)%Q.
    change (inject_Z GAME_CONFIG.OBSTACLE_RESHAPE_MIN_TIME)
      with (30000 # 1)%Q.
    change (inject_Z 45) with (45 # 1)%Q. lra. }
  split.
  - apply Qfloor_resp_le in Hlo. now rewrite Qfloor_Z in Hlo.
  - rewrite Zle_Qle. eapply Qle_trans; [apply Qfloor_le | exact Hhi].
Qed.

(** The sampling loop draws cells of the board and leaves a tape of draws
    from [0, 1). *)
Lemma sampleCell_onBoard boardWidth boardHeight busy maxAttempts fuel :
  0 < boardWidth -> 0 < boardHeight ->
  forall attempts,
    establishes
      (sampleCell boardWidth boardHeight busy maxAttempts fuel attempts)
      (fun found => onBoard boardWidth boardHeight (fst found)).
Proof.
  intros Hw Hh.
  induction fuel as [| fuel IH]; intros attempts; simpl;
    (eapply establishes_bind; [apply establishes_randomBelow |]);
    intros cx Hx; cbv beta;
    (eapply establishes_bind; [apply establishes_randomBelow |]);
    intros cy Hy; cbv beta zeta;
    destruct ((attempts + 1 <? maxAttempts) && busy _);
    try apply IH;
    apply establishes_ret; unfold onBoard; simpl;
    specialize (Hx ltac:(lia)); specialize (Hy ltac:(lia)); lia.
Qed.

Lemma generateRandomFood_onBoard boardWidth boardHeight snake traps obstacles :
  0 < boardWidth -> 0 < boardHeight ->
  establishes
    (generateRandomFood boardWidth boardHeight snake traps obstacles)
    (onBoard boardWidth boardHeight).
Proof.
  intros Hw Hh. unfold generateRandomFood, sampleFood.
  eapply establishes_bind; [now apply sampleCell_onBoard |].
  intros found Hfound. now apply establishes_ret.
Qed.

(** X12. The reshape interval on a playing game, on a board with positive
    sides and a tape of draws from [0, 1).  While the countdown is above 1
    it goes down by one and nothing else changes.  At 1 or below the
    obstacles are replaced by a safe generation around the current snake,
    each new obstacle between the configured sizes, the food is drawn again
    on the board, and the countdown restarts at 30 to 45 seconds.
    Snake, traps, score and direction are never touched. *)
Theorem reshapeTick_playing boardWidth boardHeight now h :
  0 < boardWidth -> 0 < boardHeight ->
  playing (gameState h) ->
  in_unit_interval (random h) ->
  let s := gameState h in
  let s' := gameState (reshapeTick boardWidth boardHeight now h) in
  snake s' = snake s /\ traps s' = traps s /\ score s' = score s /\
  direction s' = direction s /\ playing s' /\
  (1 < obstacleReshapeCountdown s ->
     obstacleReshapeCountdown s' = obstacleReshapeCountdown s - 1 /\
     obstacles s' = obstacles s /\ food s' = food s /\
     random (reshapeTick boardWidth boardHeight now h) = random h) /\
  (obstacleReshapeCountdown s <= 1 ->
     30 <= obstacleReshapeCountdown s' <= 45 /\
     obstacles s' =
       fst (generateSafeObstacles boardWidth boardHeight now (snake s)
                                  (random h)) /\
     Forall (wellPlaced boardWidth boardHeight) (obstacles s') /\
     onBoard boardWidth boardHeight (food s') /\
     in_unit_interval (random (reshapeTick boardWidth boardHeight now h))).
Proof.
  intros Hw Hh [Hplay Hover] Hg s s'. subst s s'.
  unfold reshapeTick. rewrite Hplay, Hover.
  change (negb true || false) with false. cbv iota.
  destruct (obstacleReshapeCountdown (gameState h) - 1 <=? 0) eqn:Hzero.
  - apply Z.leb_le in Hzero. rewrite !draw_eq. cbv beta iota zeta.
    unfold setGameState, setRandom.
    cbn [gameState random snake traps score direction isPlaying isGameOver
         obstacles food obstacleReshapeCountdown].
    destruct (obstacleLoop_wellPlaced boardWidth boardHeight 200
                (ReshapeIdent now) (range 0 GAME_CONFIG.OBSTACLES_COUNT) []
                (reserveAround boardWidth boardHeight
                   GAME_CONFIG.SAFE_DISTANCE_FROM_SNAKE (snake (gameState h)))
                ltac:(constructor) (random h) Hg) as [Hplaced Hg1].
    fold (generateSafeObstacles boardWidth boardHeight now
            (snake (gameState h))) in Hplaced, Hg1.
    set (obstaclesAndTape :=
           generateSafeObstacles boardWidth boardHeight now
             (snake (gameState h)) (random h)) in *.
    destruct (generateRandomFood_onBoard boardWidth boardHeight
                (snake (gameState h)) (traps (gameState h))
                (fst obstaclesAndTape) Hw Hh (snd obstaclesAndTape) Hg1)
      as [Hfood Hg2].
    set (foodAndTape :=
           generateRandomFood boardWidth boardHeight (snake (gameState h))
             (traps (gameState h)) (fst obstaclesAndTape)
             (snd obstaclesAndTape)) in *.
    destruct (newReshapeCountdown_range (snd foodAndTape) Hg2)
      as [Hcount Hg3].
    unfold onBoard in Hfood.
    repeat split; try assumption; try reflexivity; try lia; apply Hg3.
  - apply Z.leb_gt in Hzero. simpl.
    repeat split; try assumption; try reflexivity; lia.
Qed.

Lemma reshapeTick_playing_witness :
  let s := gameState Samples.aboutToReshape in
  let s' := gameState (reshapeTick 40 40 5 Samples.aboutToReshape) in
  snake s' = snake s /\ traps s' = traps s /\ score s' = score s /\
  direction s' = direction s /\ playing s' /\
  (1 < obstacleReshapeCountdown s ->
     obstacleReshapeCountdown s' = obstacleReshapeCountdown s - 1 /\
     obstacles s' = obstacles s /\ food s' = food s /\
     random (reshapeTick 40 40 5 Samples.aboutToReshape)
       = random Samples.aboutToReshape) /\
  (obstacleReshapeCountdown s <= 1 ->
     30 <= obstacleReshapeCountdown s' <= 45 /\
     obstacles s' =
       fst (generateSafeObstacles 40 40 5 (snake s)
                                  (random Samples.aboutToReshape)) /\
     Forall (wellPlaced 40 40) (obstacles s') /\
     onBoard 40 40 (food s') /\
     in_unit_interval (random (reshapeTick 40 40 5 Samples.aboutToReshape))).
Proof.
  apply (reshapeTick_playing 40 40 5 Samples.aboutToReshape);
    [lia | lia | split; reflexivity | exact in_unit_interval_zeros].
Defined.

(** ** The tick interval *)

Lemma moveSnake_speed boardWidth boardHeight h h' :
  moveSnake boardWidth boardHeight h = Some h' ->
  gameSpeedRef h' = gameSpeedRef h \/
  gameSpeedRef h' = Z.max 50 (gameSpeedRef h - 5).
Proof.
  intros Hmove.
  destruct (snake (gameState h)) as [| head rest] eqn:Hsnake.
  { left. now rewrite (moveSnake_some_snake _ _ _ _ Hmove Hsnake). }
  destruct (tick_classify boardWidth boardHeight h) as
    [Hidle | (Hplaying & newHead & Hhead & [Hcoll | Hcoll])];
    [congruence | | |].
  - rewrite moveSnake_idle in Hmove by assumption.
    injection Hmove as <-. now left.
  - destruct (moveSnake_terminal _ _ _ _ Hplaying Hhead Hcoll)
      as (h1 & Hmove1 & _ & Hspeed & _).
    rewrite Hmove1 in Hmove. injection Hmove as <-. now left.
  - destruct (moveSnake_survives _ _ _ _ Hplaying Hhead Hcoll)
      as (h1 & Hmove1 & _ & _ & _ & _ & _ & _ & _ & _ & _ & _ & _ & _ & _ & _
          & Hspeed & _).
    rewrite Hmove1 in Hmove. injection Hmove as <-. rewrite Hspeed.
    destruct (eatsFood _ _ && _); auto.
Qed.

Lemma run_speed boardWidth boardHeight op h h' :
  run boardWidth boardHeight op h = Some h' ->
  gameSpeedRef h' = gameSpeedRef h \/
  gameSpeedRef h' = Z.max 50 (gameSpeedRef h - 5) \/
  op = Reset /\ gameSpeedRef h' = GAME_CONFIG.INITIAL_SPEED.
Proof.
  destruct op as [| now | | now | d | | |]; simpl; intros Hrun;
    try (injection Hrun as <-).
  - destruct (moveSnake_speed _ _ _ _ Hrun); auto.
  - left. unfold trapTimerFires, scheduleNextTrap, spawnTrap.
    rewrite !draw_eq. cbv beta iota zeta.
    repeat match goal with
           | |- context [if ?c then _ else _] => destruct c
           | |- context [match ?o with Some _ => _ | None => _ end] =>
             destruct o
           end; reflexivity.
  - left. unfold trapRemovalFires. now destruct (trapRemovals h).
  - left. unfold reshapeTick. rewrite !draw_eq. cbv beta iota zeta.
    repeat match goal with
           | |- context [if ?c then _ else _] => destruct c
           end; reflexivity.
  - now left.
  - left. unfold startGame, scheduleNextTrap. rewrite !draw_eq. reflexivity.
  - left. unfold togglePause, scheduleNextTrap. rewrite !draw_eq.
    cbv beta iota zeta.
    now destruct (negb (isPlaying (gameState h)) &&
                  negb (isGameOver (gameState h))).
  - right. right. split; [reflexivity |].
    unfold resetGame. rewrite !draw_eq. reflexivity.
Qed.

(** X13. The tick interval stays in range: from a state with a snake whose
    interval lies between the floor 50 and [INITIAL_SPEED], every sequence
    of operations runs to a state whose interval lies between them too. *)
Theorem speed_stays_in_range boardWidth boardHeight ops :
  forall h,
    snake (gameState h) <> [] ->
    speedInRange h ->
    exists h',
      runAll boardWidth boardHeight ops h = Some h' /\
      speedInRange h'.
Proof.
  induction ops as [| op rest IH]; intros h Hne Hrange.
  - exists h. split; [reflexivity | assumption].
  - simpl.
    destruct (run_traps boardWidth boardHeight op h Hne)
      as (h1 & Hrun & Hne1 & _).
    rewrite Hrun. apply IH; [assumption |].
    unfold speedInRange in *.
    destruct (run_speed _ _ _ _ _ Hrun) as [-> | [-> | [_ ->]]];
      unfold GAME_CONFIG.INITIAL_SPEED in *; lia.
Qed.

Lemma speed_stays_in_range_witness :
  exists h',
    runAll 40 40 [Tick; Tick; Pause; Pause; Reset; Start; Tick]
           Examples.tenthPoint = Some h' /\
    speedInRange h'.
Proof.
  apply (speed_stays_in_range 40 40
           [Tick; Tick; Pause; Pause; Reset; Start; Tick] Examples.tenthPoint);
    [discriminate
    | unfold speedInRange, GAME_CONFIG.INITIAL_SPEED; simpl; lia].
Defined.

(** ** Where obstacles are placed *)

Lemma In_range lo hi v : In v (range lo hi) <-> lo <= v < hi.
Proof.
  unfold range. rewrite in_map_iff. split.
  - intros (i & <- & Hi). apply in_seq in Hi. lia.
  - intros Hv. exists (Z.to_nat (v - lo)). split; [lia |].
    apply in_seq. lia.
Qed.

(** Folding an operation that only adds cells: the result holds the cells
    it started with and the cells added for some element. *)
Lemma fold_left_adds {A} (step : gset (Z * Z) -> A -> gset (Z * Z))
    (added : A -> Z * Z -> Prop) (l : list A) :
  (forall u a c, c ∈ step u a <-> c ∈ u \/ added a c) ->
  forall u c,
    c ∈ fold_left step l u <-> c ∈ u \/ exists a, In a l /\ added a c.
Proof.
  intros Hstep. induction l as [| a l IH]; intros u c; simpl.
  - split; [auto | intros [H | (a & [] & _)]; exact H].
  - rewrite IH, Hstep. split.
    + intros [[H | H] | (b & Hb & H)]; eauto.
    + intros [H | (b & [<- | Hb] & H)]; eauto.
Qed.

Lemma markUsed_spec usedPositions x y width height c :
  c ∈ markUsed usedPositions x y width height <->
  c ∈ usedPositions \/
  exists cx cy, c = (cx, cy) /\
    x <= cx < x + width /\ y <= cy < y + height.
Proof.
  unfold markUsed.
  rewrite (fold_left_adds _
             (fun dx c => exists dy, In dy (range 0 height) /\
                                     c = (x + dx, y + dy))).
  - split; intros [H | H]; auto; right.
    + destruct H as (dx & Hdx & dy & Hdy & ->).
      apply In_range in Hdx, Hdy. exists (x + dx), (y + dy).
      split; [reflexivity | lia].
    + destruct H as (cx & cy & -> & Hx & Hy).
      exists (cx - x). split; [apply In_range; lia |].
      exists (cy - y). split; [apply In_range; lia |].
      f_equal; lia.
  - intros u dx c0.
    rewrite (fold_left_adds _ (fun dy c => c = (x + dx, y + dy))).
    + reflexivity.
    + intros u0 dy c1. rewrite elem_of_union, elem_of_singleton. tauto.
Qed.

Lemma reserveAround_spec boardWidth boardHeight margin segments cx cy :
  (cx, cy) ∈ reserveAround boardWidth boardHeight margin segments <->
  exists segment, In segment segments /\ near margin segment cx cy /\
    0 <= cx < boardWidth /\ 0 <= cy < boardHeight.
Proof.
  unfold reserveAround.
  rewrite (fold_left_adds _
    (fun segment c =>
       exists dx, In dx (range (- margin) (margin + 1)) /\
       exists dy, In dy (range (- margin) (margin + 1)) /\
         c = (Position.x segment + dx, Position.y segment + dy) /\
         (0 <= fst c < boardWidth /\ 0 <= snd c < boardHeight))).
  - split.
    + intros [H | (segment & Hin & dx & Hdx & dy & Hdy & Hc & Hboard)];
        [set_solver |].
      injection Hc as -> ->. simpl in Hboard.
      apply In_range in Hdx, Hdy.
      exists segment. unfold near. repeat split; try assumption; lia.
    + intros (segment & Hin & [Hx Hy] & Hbx & Hby). right.
      exists segment. split; [assumption |].
      exists (cx - Position.x segment). split; [apply In_range; lia |].
      exists (cy - Position.y segment). split; [apply In_range; lia |].
      simpl. split; [f_equal; lia | lia].
  - intros u segment c.
    rewrite (fold_left_adds _
      (fun dx c =>
         exists dy, In dy (range (- margin) (margin + 1)) /\
           c = (Position.x segment + dx, Position.y segment + dy) /\
           (0 <= fst c < boardWidth /\ 0 <= snd c < boardHeight))).
    + reflexivity.
    + intros u0 dx c0.
      rewrite (fold_left_adds _
        (fun dy c =>
           c = (Position.x segment + dx, Position.y segment + dy) /\
           (0 <= fst c < boardWidth /\ 0 <= snd c < boardHeight))).
      * reflexivity.
      * intros u1 dy c1. cbv zeta.
        destruct ((Position.x segment + dx >=? 0) &&
                  (Position.x segment + dx <? boardWidth) &&
                  (Position.y segment + dy >=? 0) &&
                  (Position.y segment + dy <? boardHeight)) eqn:Hcond.
        -- rewrite !andb_true_iff, !Z.geb_leb, !Z.leb_le, !Z.ltb_lt in Hcond.
           rewrite elem_of_union, elem_of_singleton. split.
           ++ intros [-> | H]; [| now left]. right. simpl.
              split; [reflexivity | lia].
           ++ intros [H | [-> _]]; auto.
        -- split; [now left |]. intros [H | [-> Hboard]]; [assumption |].
           simpl in Hboard.
           rewrite !andb_false_iff, !Z.geb_leb, !Z.leb_gt, !Z.ltb_ge in Hcond.
           lia.
Qed.

Lemma hasConflict_false usedPositions x y width height :
  hasConflict usedPositions x y width height = false ->
  forall cx cy,
    x <= cx < x + width -> y <= cy < y + height ->
    (cx, cy) ∉ usedPositions.
Proof.
  unfold hasConflict. rewrite existsb_false. intros Hfree cx cy Hx Hy.
  specialize (Hfree (cx - x) ltac:(apply In_range; lia)).
  rewrite existsb_false in Hfree.
  specialize (Hfree (cy - y) ltac:(apply In_range; lia)).
  apply bool_decide_eq_false in Hfree.
  replace (x + (cx - x)) with cx in Hfree by lia.
  replace (y + (cy - y)) with cy in Hfree by lia.
  exact Hfree.
Qed.

(** An obstacle is placed only where nothing is marked as used. *)
Lemma placeObstacle_free boardWidth boardHeight maxAttempts ident
    usedPositions fuel :
  forall attempts g o,
    fst (placeObstacle boardWidth boardHeight maxAttempts ident usedPositions
                       fuel attempts g) = Some o ->
    hasConflict usedPositions (Obstacle.x o) (Obstacle.y o)
                (Obstacle.width o) (Obstacle.height o) = false.
Proof.
  induction fuel as [| fuel IH]; intros attempts g o; simpl;
    [discriminate |].
  destruct (attempts <? maxAttempts); [| discriminate].
  unfold bind, randomBelow, Math_random, ret, bind. simpl.
  match goal with
  | |- context [hasConflict ?u ?x ?y ?w ?h] =>
    destruct (hasConflict u x y w h) eqn:Hconflict
  end.
  - apply IH.
  - simpl. intros H. injection H as <-. simpl. exact Hconflict.
Qed.

Lemma disjointObstacles_snoc (l : list Obstacle.t) (o : Obstacle.t) :
  disjointObstacles l ->
  (forall o' cx cy, In o' l -> covers o' cx cy -> ~ covers o cx cy) ->
  disjointObstacles (l ++ [o]).
Proof.
  intros Hl Hnew i j o1 o2 cx cy Hij Hi Hj H1 H2.
  destruct (Nat.lt_ge_cases i (length l)) as [Hil | Hil];
    destruct (Nat.lt_ge_cases j (length l)) as [Hjl | Hjl].
  - rewrite nth_error_app1 in Hi, Hj by assumption.
    exact (Hl i j o1 o2 cx cy Hij Hi Hj H1 H2).
  - rewrite nth_error_app1 in Hi by assumption.
    rewrite nth_error_app2 in Hj by assumption.
    destruct (j - length l)%nat as [| k]; simpl in Hj;
      [| destruct k; discriminate].
    injection Hj as <-.
    exact (Hnew o1 cx cy (nth_error_In _ _ Hi) H1 H2).
  - rewrite nth_error_app2 in Hi by assumption.
    rewrite nth_error_app1 in Hj by assumption.
    destruct (i - length l)%nat as [| k]; simpl in Hi;
      [| destruct k; discriminate].
    injection Hi as <-.
    exact (Hnew o2 cx cy (nth_error_In _ _ Hj) H2 H1).
  - rewrite nth_error_app2 in Hi, Hj by assumption.
    destruct (i - length l)%nat as [| k] eqn:Hki; simpl in Hi;
      [| destruct k; discriminate].
    destruct (j - length l)%nat as [| k] eqn:Hkj; simpl in Hj;
      [| destruct k; discriminate].
    lia.
Qed.

Lemma obstacleLoop_invariant boardWidth boardHeight maxAttempts mkIdent
    reserved indices :
  forall obstacles usedPositions g,
    placementInvariant reserved obstacles usedPositions ->
    let result :=
      fst (obstacleLoop boardWidth boardHeight maxAttempts mkIdent indices
                        obstacles usedPositions g) in
    (forall o cx cy, In o result -> covers o cx cy -> (cx, cy) ∉ reserved) /\
    disjointObstacles result /\
    (length result <= length obstacles + length indices)%nat.
Proof.
  induction indices as [| i rest IH]; intros obstacles usedPositions g Hinv;
    simpl.
  - destruct Hinv as (_ & Hcells & Hdisjoint).
    split; [intros o cx cy Hin Hc; now apply (Hcells o cx cy) |].
    split; [assumption | lia].
  - unfold bind.
    destruct (placeObstacle _ _ _ _ _ _ _ g) as [[o |] g'] eqn:Hplace.
    + pose proof (placeObstacle_free _ _ _ _ _ _ _ _ _
                    (f_equal fst Hplace)) as Hfree.
      pose proof (hasConflict_false _ _ _ _ _ Hfree) as Hcellsfree.
      destruct Hinv as (Hres & Hcells & Hdisjoint).
      destruct (IH (obstacles ++ [o])
                  (markUsed usedPositions (Obstacle.x o) (Obstacle.y o)
                            (Obstacle.width o) (Obstacle.height o)) g')
        as (H1 & H2 & H3).
      * split; [| split].
        -- intros c Hc. apply markUsed_spec. left. now apply Hres.
        -- intros o' cx cy Hin Hc. apply in_app_iff in Hin as [Hin | Hin].
           ++ destruct (Hcells o' cx cy Hin Hc) as [Hused Hnot].
              split; [apply markUsed_spec; now left | assumption].
           ++ destruct Hin as [<- | []]. destruct Hc as [Hx Hy].
              split.
              ** apply markUsed_spec. right. exists cx, cy.
                 split; [reflexivity | split; assumption].
              ** intros Hr. apply (Hcellsfree cx cy Hx Hy). now apply Hres.
        -- apply disjointObstacles_snoc; [assumption |].
           intros o' cx cy Hin Hc [Hx Hy].
           destruct (Hcells o' cx cy Hin Hc) as [Hused _].
           exact (Hcellsfree cx cy Hx Hy Hused).
      * split; [exact H1 |]. split; [exact H2 |].
        rewrite length_app in H3. simpl in H3. lia.
    + destruct (IH obstacles usedPositions g') as (H1 & H2 & H3);
        [exact Hinv |].
      split; [exact H1 |]. split; [exact H2 | lia].
Qed.

Lemma placementInvariant_start reserved :
  placementInvariant reserved [] reserved.
Proof.
  split; [auto |]. split; [intros o cx cy [] |].
  intros i j o1 o2 cx cy _ Hi. destruct i; discriminate.
Qed.

Lemma length_range lo hi : length (range lo hi) = Z.to_nat (hi - lo).
Proof. unfold range. now rewrite length_map, length_seq. Qed.

(** X14. Obstacles keep clear of the snake.  No obstacle returned by
    [generateSafeObstacles] contains a board cell within
    [SAFE_DISTANCE_FROM_SNAKE] of a cell of the current snake, and no
    obstacle returned by [generateObstacles] contains a board cell within 3
    of a cell of the initial snake, whatever the random draws. *)
Theorem obstacles_keep_clear_of_snake boardWidth boardHeight now currentSnake
    g o segment cx cy :
  0 <= cx < boardWidth -> 0 <= cy < boardHeight ->
  (In o (fst (generateSafeObstacles boardWidth boardHeight now currentSnake g))
   /\ In segment currentSnake
   /\ near GAME_CONFIG.SAFE_DISTANCE_FROM_SNAKE segment cx cy) \/
  (In o (fst (generateObstacles boardWidth boardHeight g))
   /\ In segment INITIAL_SNAKE /\ near 3 segment cx cy) ->
  ~ covers o cx cy.
Proof.
  intros Hx Hy [(Hin & Hseg & Hnear) | (Hin & Hseg & Hnear)] Hcovers.
  - unfold generateSafeObstacles in Hin.
    destruct (obstacleLoop_invariant boardWidth boardHeight 200
                (ReshapeIdent now)
                (reserveAround boardWidth boardHeight
                   GAME_CONFIG.SAFE_DISTANCE_FROM_SNAKE currentSnake)
                (range 0 GAME_CONFIG.OBSTACLES_COUNT) [] _ g
                (placementInvariant_start _)) as (Hclear & _).
    apply (Hclear o cx cy Hin Hcovers).
    apply reserveAround_spec. exists segment. auto.
  - unfold generateObstacles in Hin.
    destruct (obstacleLoop_invariant boardWidth boardHeight 100
                ObstacleIdent
                (reserveAround boardWidth boardHeight 3 INITIAL_SNAKE)
                (range 0 GAME_CONFIG.OBSTACLES_COUNT) [] _ g
                (placementInvariant_start _)) as (Hclear & _).
    apply (Hclear o cx cy Hin Hcovers).
    apply reserveAround_spec. exists segment. auto.
Qed.

Lemma obstacles_keep_clear_of_snake_witness :
  ~ covers Examples.cornerObstacle 18 21.
Proof.
  apply (obstacles_keep_clear_of_snake 40 40 0 [Position.mk 6 6]
           Examples.zeros Examples.cornerObstacle (Position.mk 20 20) 18 21);
    [lia | lia |].
  right. split; [vm_compute; left; reflexivity |].
  split; [left; reflexivity |].
  unfold near. simpl. lia.
Defined.

(** X15. Obstacles never overlap and never outnumber [OBSTACLES_COUNT]:
    in the list returned by [generateObstacles] and in the list returned by
    [generateSafeObstacles], no two obstacles share a cell and there are at
    most [OBSTACLES_COUNT] of them. *)
Theorem generated_obstacles_disjoint boardWidth boardHeight now currentSnake g :
  disjointObstacles (fst (generateObstacles boardWidth boardHeight g)) /\
  Z.of_nat (length (fst (generateObstacles boardWidth boardHeight g)))
    <= GAME_CONFIG.OBSTACLES_COUNT /\
  disjointObstacles
    (fst (generateSafeObstacles boardWidth boardHeight now currentSnake g)) /\
  Z.of_nat
    (length (fst (generateSafeObstacles boardWidth boardHeight now
                                        currentSnake g)))
    <= GAME_CONFIG.OBSTACLES_COUNT.
Proof.
  unfold generateObstacles, generateSafeObstacles.
  destruct (obstacleLoop_invariant boardWidth boardHeight 100
              ObstacleIdent
              (reserveAround boardWidth boardHeight 3 INITIAL_SNAKE)
              (range 0 GAME_CONFIG.OBSTACLES_COUNT) [] _ g
              (placementInvariant_start _)) as (_ & Hd1 & Hl1).
  destruct (obstacleLoop_invariant boardWidth boardHeight 200
              (ReshapeIdent now)
              (reserveAround boardWidth boardHeight
                   GAME_CONFIG.SAFE_DISTANCE_FROM_SNAKE currentSnake)
              (range 0 GAME_CONFIG.OBSTACLES_COUNT) [] _ g
              (placementInvariant_start _)) as (_ & Hd2 & Hl2).
  rewrite length_range in Hl1, Hl2.
  cbn [length Nat.add] in Hl1, Hl2.
  split; [exact Hd1 |].
  split; [unfold GAME_CONFIG.OBSTACLES_COUNT in *; lia |].
  split; [exact Hd2 | unfold GAME_CONFIG.OBSTACLES_COUNT in *; lia].
Qed.

(** ** Cells drawn for food and traps *)

(** X16. On a board with positive sides and a tape of draws from [0, 1),
    the food returned by [generateRandomFood] is a cell of the board even
    when every attempt failed, and so is the cell of a trap returned by
    [generateRandomTrap]. *)
Theorem generated_cells_on_board boardWidth boardHeight now snake food traps
    obstacles g :
  0 < boardWidth -> 0 < boardHeight ->
  in_unit_interval g ->
  onBoard boardWidth boardHeight
    (fst (generateRandomFood boardWidth boardHeight snake traps obstacles g)) /\
  (forall newTrap,
     fst (generateRandomTrap boardWidth boardHeight now snake food traps
                             obstacles g) = Some newTrap ->
     onBoard boardWidth boardHeight (Trap.position newTrap)).
Proof.
  intros Hw Hh Hg. split.
  - now apply generateRandomFood_onBoard.
  - assert (Htrap :
      establishes
        (generateRandomTrap boardWidth boardHeight now snake food traps
                            obstacles)
        (fun r => forall t, r = Some t ->
                            onBoard boardWidth boardHeight (Trap.position t))).
    { unfold generateRandomTrap.
      eapply establishes_bind; [now apply sampleCell_onBoard |].
      intros found Hfound. cbv zeta.
      destruct (snd found >=? 100); [apply establishes_ret; discriminate |].
      eapply establishes_bind; [apply establishes_Math_random |].
      intros salt _. apply establishes_ret. intros t Ht.
      injection Ht as <-. exact Hfound. }
    apply (Htrap g Hg).
Qed.

Lemma generated_cells_on_board_witness :
  onBoard 40 40
    (fst (generateRandomFood 40 40 Examples.threeCells [] [] Examples.zeros)) /\
  (forall newTrap,
     fst (generateRandomTrap 40 40 9 Examples.threeCells (Position.mk 0 0) []
                             [] Examples.zeros) = Some newTrap ->
     onBoard 40 40 (Trap.position newTrap)).
Proof.
  apply (generated_cells_on_board 40 40 9 Examples.threeCells
           (Position.mk 0 0) [] [] Examples.zeros);
    [lia | lia | exact in_unit_interval_zeros].
Defined.

(** ** The trap timer and the reset *)

Lemma sampleCell_tape boardWidth boardHeight busy maxAttempts fuel :
  forall attempts,
    establishes
      (sampleCell boardWidth boardHeight busy maxAttempts fuel attempts)
      (fun _ => True).
Proof.
  induction fuel as [| fuel IH]; intros attempts; simpl;
    (eapply establishes_bind; [apply establishes_randomBelow |]);
    intros cx _; cbv beta;
    (eapply establishes_bind; [apply establishes_randomBelow |]);
    intros cy _; cbv beta zeta;
    destruct ((attempts + 1 <? maxAttempts) && busy _);
    try apply IH; now apply establishes_ret.
Qed.

(** X17. A firing of the trap timer on a tape of draws from [0, 1) either
    leaves the traps alone or appends one trap, and only when fewer than
    [MAX_TRAPS] were live: the new trap is untriggered, stamped with the
    time of the firing and lies on no snake cell, not on the food, on no
    existing trap and inside no obstacle.  The rest of the game state is
    unchanged, and the next firing is scheduled with a delay from the
    configured minimum to the configured maximum, both included. *)
Theorem trapTimerFires_spawn boardWidth boardHeight now h :
  in_unit_interval (random h) ->
  let s := gameState h in
  let h' := trapTimerFires boardWidth boardHeight now h in
  let s' := gameState h' in
  (traps s' = traps s \/
   exists newTrap,
     traps s' = traps s ++ [newTrap] /\
     playing s /\
     Z.of_nat (length (traps s)) < GAME_CONFIG.MAX_TRAPS /\
     Trap.isTriggered newTrap = false /\
     Trap.spawnTime newTrap = now /\
     freeOfSnake (snake s) (Trap.position newTrap) /\
     food s <> Trap.position newTrap /\
     freeOfTraps (traps s) (Trap.position newTrap) /\
     freeOfObstacles (obstacles s) (Trap.position newTrap)) /\
  snake s' = snake s /\ food s' = food s /\ obstacles s' = obstacles s /\
  score s' = score s /\ direction s' = direction s /\
  isPlaying s' = isPlaying s /\ isGameOver s' = isGameOver s /\
  (exists spawnDelay,
     trapSpawnTimerRef h' = Some spawnDelay /\
     (inject_Z GAME_CONFIG.TRAP_SPAWN_MIN_INTERVAL <= spawnDelay)%Q /\
     (spawnDelay <= inject_Z GAME_CONFIG.TRAP_SPAWN_MAX_INTERVAL)%Q).
Proof.
  intros Hg s h' s'. subst s h' s'.
  unfold trapTimerFires. rewrite scheduleNextTrap_state.
  assert (Hspawn :
    in_unit_interval (random (spawnTrap boardWidth boardHeight now h)) /\
    let s := gameState h in
    let s' := gameState (spawnTrap boardWidth boardHeight now h) in
    (traps s' = traps s \/
     exists newTrap,
       traps s' = traps s ++ [newTrap] /\
       playing s /\
       Z.of_nat (length (traps s)) < GAME_CONFIG.MAX_TRAPS /\
       Trap.isTriggered newTrap = false /\
       Trap.spawnTime newTrap = now /\
       freeOfSnake (snake s) (Trap.position newTrap) /\
       food s <> Trap.position newTrap /\
       freeOfTraps (traps s) (Trap.position newTrap) /\
       freeOfObstacles (obstacles s) (Trap.position newTrap)) /\
    snake s' = snake s /\ food s' = food s /\ obstacles s' = obstacles s /\
    score s' = score s /\ direction s' = direction s /\
    isPlaying s' = isPlaying s /\ isGameOver s' = isGameOver s).
  { unfold spawnTrap.
    destruct (isPlaying (gameState h)) eqn:Hplay; simpl;
      [| split; [assumption | repeat split; auto]].
    destruct (isGameOver (gameState h)) eqn:Hover; simpl;
      [split; [assumption | repeat split; auto] |].
    destruct (Z.of_nat (length (traps (gameState h))) >=? GAME_CONFIG.MAX_TRAPS)
      eqn:Hfull; [split; [assumption | repeat split; auto] |].
    rewrite Z.geb_leb in Hfull. apply Z.leb_gt in Hfull.
    rewrite draw_eq. cbv beta iota zeta.
    set (m := generateRandomTrap boardWidth boardHeight now
                (snake (gameState h)) (food (gameState h))
                (traps (gameState h)) (obstacles (gameState h))).
    assert (Htape : in_unit_interval (snd (m (random h)))).
    { subst m. unfold generateRandomTrap.
      eapply (establishes_bind _ _ _ (fun _ => True));
        [apply sampleCell_tape | | exact Hg].
      intros found _. cbv zeta.
      destruct (snd found >=? 100); [now apply establishes_ret |].
      eapply establishes_bind; [apply establishes_Math_random |].
      intros salt _. now apply establishes_ret. }
    destruct (fst (m (random h))) as [newTrap |] eqn:Hnew.
    - destruct (generateRandomTrap_some_free _ _ _ _ _ _ _ _ _ Hnew)
        as (Htrig & Hs & Hf & Ht & Ho).
      assert (Hstamp : Trap.spawnTime newTrap = now).
      { subst m. unfold generateRandomTrap, bind in Hnew.
        destruct (sampleCell _ _ _ _ _ _ (random h)) as [found g1].
        simpl in Hnew. destruct (snd found >=? 100); [discriminate |].
        unfold Math_random, ret in Hnew. simpl in Hnew.
        now injection Hnew as <-. }
      simpl. split; [assumption |].
      split; [| repeat split; auto].
      right. exists newTrap. repeat split; auto.
    - simpl. split; [assumption | repeat split; auto]. }
  destruct Hspawn as (Hg1 & Htraps & Hrest).
  split; [exact Htraps |].
  destruct Hrest as (H1 & H2 & H3 & H4 & H5 & H6 & H7).
  repeat (split; [assumption |]).
  now apply scheduleNextTrap_timer.
Qed.

Lemma trapTimerFires_spawn_witness :
  let s := gameState Examples.tenthPoint in
  let h' := trapTimerFires 40 40 77 Examples.tenthPoint in
  let s' := gameState h' in
  length (traps s') = 1%nat /\
  (traps s' = traps s \/
   exists newTrap,
     traps s' = traps s ++ [newTrap] /\
     playing s /\
     Z.of_nat (length (traps s)) < GAME_CONFIG.MAX_TRAPS /\
     Trap.isTriggered newTrap = false /\
     Trap.spawnTime newTrap = 77 /\
     freeOfSnake (snake s) (Trap.position newTrap) /\
     food s <> Trap.position newTrap /\
     freeOfTraps (traps s) (Trap.position newTrap) /\
     freeOfObstacles (obstacles s) (Trap.position newTrap)) /\
  snake s' = snake s /\ food s' = food s /\ obstacles s' = obstacles s /\
  score s' = score s /\ direction s' = direction s /\
  isPlaying s' = isPlaying s /\ isGameOver s' = isGameOver s /\
  (exists spawnDelay,
     trapSpawnTimerRef h' = Some spawnDelay /\
     (inject_Z GAME_CONFIG.TRAP_SPAWN_MIN_INTERVAL <= spawnDelay)%Q /\
     (spawnDelay <= inject_Z GAME_CONFIG.TRAP_SPAWN_MAX_INTERVAL)%Q).
Proof.
  split; [vm_compute; reflexivity |].
  apply (trapTimerFires_spawn 40 40 77 Examples.tenthPoint).
  exact in_unit_interval_zeros.
Defined.

Lemma in_unit_interval_advance k g :
  in_unit_interval g -> in_unit_interval (advance k g).
Proof. intros Hg n. apply Hg. Qed.

(** X18. Reset gives a fresh game.  On a board with positive sides and a
    tape of draws from [0, 1), [resetGame] returns the initial snake heading
    right, no traps, score 0, not playing and not over, the initial tick
    interval, both timers cancelled and no session active; a session that
    was active is ended once, as [user-quit], with the score and length
    before the reset, which takes one draw for the id of the stored
    session, and the saved game is cleared; the new obstacles are those
    [generateObstacles] makes of the draws that follow, with sizes within
    the configured bounds, the food is on the board, and the countdown is
    30 to 45.  Removals scheduled by earlier trap hits stay pending. *)
Theorem resetGame_fresh boardWidth boardHeight h :
  0 < boardWidth -> 0 < boardHeight ->
  in_unit_interval (random h) ->
  let h' := resetGame boardWidth boardHeight h in
  let s' := gameState h' in
  let afterSession :=
    if gameSessionActiveRef h then advance 1 (random h) else random h in
  snake s' = INITIAL_SNAKE /\ traps s' = [] /\ score s' = 0 /\
  direction s' = RIGHT /\ isPlaying s' = false /\ isGameOver s' = false /\
  trapWarning s' = None /\
  gameSpeedRef h' = GAME_CONFIG.INITIAL_SPEED /\
  trapSpawnTimerRef h' = None /\ obstacleReshapeTimerRef h' = false /\
  gameSessionActiveRef h' = false /\
  trapRemovals h' = trapRemovals h /\
  obstacles s' =
    fst (generateObstacles boardWidth boardHeight afterSession) /\
  Forall (wellPlaced boardWidth boardHeight) (obstacles s') /\
  30 <= obstacleReshapeCountdown s' <= 45 /\
  onBoard boardWidth boardHeight (food s') /\
  storageCalls h' =
    storageCalls h ++
    (if gameSessionActiveRef h then
       [EndGameSession (score (gameState h))
                       (Z.of_nat (length (snake (gameState h)))) UserQuit]
     else []) ++
    [ClearSavedGame].
Proof.
  intros Hw Hh Hg h' s' afterSession. subst h' s'.
  assert (Hafter : in_unit_interval afterSession).
  { subst afterSession. destruct (gameSessionActiveRef h);
      [now apply in_unit_interval_advance | exact Hg]. }
  unfold resetGame. cbv zeta. rewrite !draw_eq. cbv beta iota zeta.
  assert (Hrandom : random
            (setGameSpeedRef
               (stopObstacleReshapeTimer
                  (setTrapSpawnTimerRef
                     (call ClearSavedGame (endSession UserQuit (gameState h) h))
                     None))
               GAME_CONFIG.INITIAL_SPEED) = afterSession).
  { subst afterSession. unfold endSession.
    destruct (gameSessionActiveRef h); [| reflexivity].
    rewrite draw_eq. reflexivity. }
  unfold setGameState, setRandom.
  cbn [gameState random snake traps score direction isPlaying isGameOver
       obstacles food obstacleReshapeCountdown trapWarning gameSpeedRef
       trapSpawnTimerRef obstacleReshapeTimerRef gameSessionActiveRef
       trapRemovals storageCalls].
  rewrite Hrandom.
  destruct (obstacleLoop_wellPlaced boardWidth boardHeight 100
              ObstacleIdent (range 0 GAME_CONFIG.OBSTACLES_COUNT) []
              (reserveAround boardWidth boardHeight 3 INITIAL_SNAKE)
              ltac:(constructor) afterSession Hafter) as [Hplaced Hg1].
  fold (generateObstacles boardWidth boardHeight) in Hplaced, Hg1.
  set (obstaclesAndTape :=
         generateObstacles boardWidth boardHeight afterSession) in *.
  destruct (newReshapeCountdown_range (snd obstaclesAndTape) Hg1)
    as [Hcount Hg2].
  set (countAndTape := newReshapeCountdown (snd obstaclesAndTape)) in *.
  destruct (generateRandomFood_onBoard boardWidth boardHeight INITIAL_SNAKE []
              (fst obstaclesAndTape) Hw Hh (snd countAndTape) Hg2)
    as [Hfood _].
  clearbody obstaclesAndTape countAndTape afterSession.
  unfold endSession, stopObstacleReshapeTimer.
  unfold onBoard in *.
  destruct (gameSessionActiveRef h) eqn:Hactive;
    rewrite ?draw_eq; cbv beta iota zeta;
    cbn [gameState random snake traps score direction isPlaying isGameOver
         obstacles food obstacleReshapeCountdown trapWarning gameSpeedRef
         trapSpawnTimerRef obstacleReshapeTimerRef gameSessionActiveRef
         trapRemovals storageCalls setGameSessionActiveRef call setRandom
         setTrapSpawnTimerRef setObstacleReshapeTimerRef setGameSpeedRef];
    rewrite <- ?app_assoc;
    repeat split; try reflexivity; try assumption; lia.
Qed.

Lemma resetGame_fresh_witness :
  let h' := resetGame 40 40 Examples.crash in
  let s' := gameState h' in
  let afterSession :=
    if gameSessionActiveRef Examples.crash
    then advance 1 (random Examples.crash) else random Examples.crash in
  snake s' = INITIAL_SNAKE /\ traps s' = [] /\ score s' = 0 /\
  direction s' = RIGHT /\ isPlaying s' = false /\ isGameOver s' = false /\
  trapWarning s' = None /\
  gameSpeedRef h' = GAME_CONFIG.INITIAL_SPEED /\
  trapSpawnTimerRef h' = None /\ obstacleReshapeTimerRef h' = false /\
  gameSessionActiveRef h' = false /\
  trapRemovals h' = trapRemovals Examples.crash /\
  obstacles s' = fst (generateObstacles 40 40 afterSession) /\
  Forall (wellPlaced 40 40) (obstacles s') /\
  30 <= obstacleReshapeCountdown s' <= 45 /\
  onBoard 40 40 (food s') /\
  storageCalls h' =
    storageCalls Examples.crash ++
    (if gameSessionActiveRef Examples.crash then
       [EndGameSession (score (gameState Examples.crash))
          (Z.of_nat (length (snake (gameState Examples.crash)))) UserQuit]
     else []) ++
    [ClearSavedGame].
Proof.
  apply (resetGame_fresh 40 40 Examples.crash);
    [lia | lia | exact in_unit_interval_zeros].
Defined.

(** ** The keyboard *)

(** X19. What the keyboard handler lets through.  A key pressed less than
    50 ms after the last handled key changes nothing and passes nothing on.
    Any other key press, mapped or not, accepted or not, restarts that
    window.  A direction is passed on exactly when the key is outside the
    window, maps to that direction, and the direction is not the opposite
    of the one last recorded; it is then recorded. *)
Theorem handleKeyPress_passes_on now key k :
  (now - Keyboard.lastKeyTimeRef k < 50 ->
   Keyboard.handleKeyPress now key k = (k, None)) /\
  (50 <= now - Keyboard.lastKeyTimeRef k ->
   Keyboard.lastKeyTimeRef (fst (Keyboard.handleKeyPress now key k)) = now) /\
  (forall d,
     snd (Keyboard.handleKeyPress now key k) = Some d <->
     50 <= now - Keyboard.lastKeyTimeRef k /\
     Keyboard.keyDirection key = Some d /\
     d <> Keyboard.oppositeDirections (Keyboard.lastDirectionRef k)) /\
  (forall d,
     snd (Keyboard.handleKeyPress now key k) = Some d ->
     Keyboard.lastDirectionRef (fst (Keyboard.handleKeyPress now key k)) = d) /\
  (snd (Keyboard.handleKeyPress now key k) = None ->
   Keyboard.lastDirectionRef (fst (Keyboard.handleKeyPress now key k))
   = Keyboard.lastDirectionRef k).
Proof.
  unfold Keyboard.handleKeyPress.
  destruct (now - Keyboard.lastKeyTimeRef k <? 50) eqn:Hwin;
    [apply Z.ltb_lt in Hwin | apply Z.ltb_ge in Hwin].
  - simpl. intuition (try lia; try congruence).
  - destruct (Keyboard.keyDirection key) as [newDirection |]; simpl.
    + destruct (direction_eqb newDirection _) eqn:Heq; simpl.
      * apply direction_eqb_eq in Heq.
        intuition (try lia; try congruence).
      * assert (Hne : newDirection <>
                      Keyboard.oppositeDirections (Keyboard.lastDirectionRef k)).
        { intros Habs. apply direction_eqb_eq in Habs. congruence. }
        intuition (try lia; try congruence).
    + intuition (try lia; try congruence).
Qed.

Lemma oppositeDirections_inj a b :
  Keyboard.oppositeDirections a = Keyboard.oppositeDirections b -> a = b.
Proof. destruct a, b; simpl; congruence. Qed.

(** The direction after the space-bar handler: [RIGHT] after the reset of
    a finished game, the old direction otherwise. *)
Lemma handleSpaceBar_direction boardWidth boardHeight h :
  direction (gameState (GameBoard.handleSpaceBar boardWidth boardHeight h)) =
  if isGameOver (gameState h) then RIGHT else direction (gameState h).
Proof.
  unfold GameBoard.handleSpaceBar. cbv zeta.
  destruct (isGameOver (gameState h)).
  - unfold resetGame. rewrite !draw_eq. reflexivity.
  - destruct (negb (isPlaying (gameState h)) && _ && _).
    + unfold startGame, scheduleNextTrap. rewrite !draw_eq. reflexivity.
    + unfold togglePause. reflexivity.
Qed.

(** X20. With the keyboard hook in step with the game state, a key press
    stores the reverse of the stored direction in one case only.  Space
    on a finished game resets it, and the direction is then [RIGHT]
    whatever it was, the reverse of [LEFT] included.  After every other
    key press the direction is the old one or the one the key maps to,
    and it is not the opposite of the old one.  In both cases the hook is
    in step again. *)
Theorem keyDown_never_reverses boardWidth boardHeight now key isSpace b :
  GameBoard.inSync b ->
  let b' := GameBoard.keyDown boardWidth boardHeight now key isSpace b in
  let d := direction (gameState (GameBoard.hook b)) in
  let d' := direction (gameState (GameBoard.hook b')) in
  (if isSpace && isGameOver (gameState (GameBoard.hook b))
   then d' = RIGHT
   else d' <> Keyboard.oppositeDirections d /\
        (d' = d \/ Keyboard.keyDirection key = Some d')) /\
  GameBoard.inSync b'.
Proof.
  intros Hsync b' d d'. subst b' d d'.
  unfold GameBoard.keyDown, GameBoard.inSync in *.
  destruct (Keyboard.handleKeyPress now key (GameBoard.keyboard b))
    as [k emitted] eqn:Hpress.
  set (h1 := match emitted with
             | Some d => changeDirection d (GameBoard.hook b)
             | None => GameBoard.hook b
             end).
  assert (Hover : isGameOver (gameState h1) =
                  isGameOver (gameState (GameBoard.hook b)))
    by (subst h1; now destruct emitted).
  assert (Hdir :
    direction (gameState h1) <>
      Keyboard.oppositeDirections (direction (gameState (GameBoard.hook b))) /\
    (direction (gameState h1) = direction (gameState (GameBoard.hook b)) \/
     Keyboard.keyDirection key = Some (direction (gameState h1)))).
  { subst h1. destruct emitted as [e |].
    - destruct (handleKeyPress_never_reverses _ _ _ _ _ Hpress)
        as (Hne & Hkey & _).
      rewrite Hsync in Hne. cbn. auto.
    - split; [| auto].
      intros Heq. symmetry in Heq. now apply oppositeDirections_neq in Heq. }
  split; [| reflexivity].
  cbn [GameBoard.hook GameBoard.syncKeyboard].
  destruct isSpace; cbn [andb]; [| exact Hdir].
  rewrite handleSpaceBar_direction, Hover.
  destruct (isGameOver (gameState (GameBoard.hook b)));
    [reflexivity | exact Hdir].
Qed.

Lemma keyDown_never_reverses_witness :
  let b := Samples.board Samples.finishedHeadingLeft in
  let b' := GameBoard.keyDown 40 40 1000 Samples.keySpace true b in
  let d := direction (gameState (GameBoard.hook b)) in
  let d' := direction (gameState (GameBoard.hook b')) in
  (if true && isGameOver (gameState (GameBoard.hook b))
   then d' = RIGHT
   else d' <> Keyboard.oppositeDirections d /\
        (d' = d \/ Keyboard.keyDirection Samples.keySpace = Some d')) /\
  GameBoard.inSync b'.
Proof.
  apply (keyDown_never_reverses 40 40 1000 Samples.keySpace true
           (Samples.board Samples.finishedHeadingLeft)).
  reflexivity.
Defined.

(** A tick of a playing state whose second cell lies where the head goes is
    a collision with the body. *)
Lemma tick_into_second_cell boardWidth boardHeight h head second rest :
  playing (gameState h) ->
  snake (gameState h) = head :: second :: rest ->
  second =
    wrapPosition boardWidth boardHeight
      (Position.mk
         (Position.x head + Position.x (DIRECTIONS (direction (gameState h))))
         (Position.y head + Position.y (DIRECTIONS (direction (gameState h))))) ->
  exists h',
    moveSnake boardWidth boardHeight h = Some h' /\
    gameState h' = gameOver (gameState h).
Proof.
  intros Hplaying Hsnake Hsecond.
  assert (Hhead : nextHead boardWidth boardHeight (gameState h) = Some second).
  { unfold nextHead. rewrite Hsnake, Hsecond. reflexivity. }
  assert (Hcoll : terminalCollision (gameState h) second = true).
  { unfold terminalCollision. rewrite Hsnake. simpl.
    rewrite !Z.eqb_refl. simpl. now rewrite orb_true_r. }
  destruct (moveSnake_terminal _ _ _ _ Hplaying Hhead Hcoll)
    as (h' & Hmove & Hstate & _).
  exists h'. auto.
Qed.

(** X21. Two quick turns reverse the snake.  With the keyboard hook in step,
    in a playing state whose second cell is right behind the head, a key
    for a direction across the current one followed, at least 50 ms later
    and before the next tick, by the key for the opposite of the current
    direction stores that opposite direction, because the check only looks
    at the direction stored last; the next tick then ends the game. *)
Theorem two_turns_reverse boardWidth boardHeight t1 t2 key1 key2 across b
    head second rest :
  let d := direction (gameState (GameBoard.hook b)) in
  GameBoard.inSync b ->
  playing (gameState (GameBoard.hook b)) ->
  snake (gameState (GameBoard.hook b)) = head :: second :: rest ->
  second =
    wrapPosition boardWidth boardHeight
      (Position.mk
         (Position.x head +
          Position.x (DIRECTIONS (Keyboard.oppositeDirections d)))
         (Position.y head +
          Position.y (DIRECTIONS (Keyboard.oppositeDirections d)))) ->
  Keyboard.keyDirection key1 = Some across ->
  across <> d -> across <> Keyboard.oppositeDirections d ->
  Keyboard.keyDirection key2 = Some (Keyboard.oppositeDirections d) ->
  50 <= t1 - Keyboard.lastKeyTimeRef (GameBoard.keyboard b) ->
  50 <= t2 - t1 ->
  let b2 :=
    GameBoard.keyDown boardWidth boardHeight t2 key2 false
      (GameBoard.keyDown boardWidth boardHeight t1 key1 false b) in
  direction (gameState (GameBoard.hook b2)) = Keyboard.oppositeDirections d /\
  exists h',
    moveSnake boardWidth boardHeight (GameBoard.hook b2) = Some h' /\
    isGameOver (gameState h') = true /\
    isPlaying (gameState h') = false.
Proof.
  intros d Hsync Hplaying Hsnake Hsecond Hkey1 Hne1 Hne2 Hkey2 Ht1 Ht2 b2.
  subst b2. unfold GameBoard.inSync in Hsync. fold d in Hsync.
  assert (Hfirst :
    GameBoard.keyDown boardWidth boardHeight t1 key1 false b =
    GameBoard.mk (changeDirection across (GameBoard.hook b))
                 (Keyboard.mk across t1) (GameBoard.touch b)).
  { unfold GameBoard.keyDown, Keyboard.handleKeyPress.
    replace (t1 - Keyboard.lastKeyTimeRef (GameBoard.keyboard b) <? 50)
      with false by (symmetry; apply Z.ltb_ge; lia).
    rewrite Hkey1. simpl. rewrite Hsync.
    replace (direction_eqb across (Keyboard.oppositeDirections d))
      with false
      by (destruct (direction_eqb across _) eqn:E; [| reflexivity];
          apply direction_eqb_eq in E; contradiction).
    reflexivity. }
  rewrite Hfirst.
  assert (Hsecond2 :
    GameBoard.hook
      (GameBoard.keyDown boardWidth boardHeight t2 key2 false
         (GameBoard.mk (changeDirection across (GameBoard.hook b))
                       (Keyboard.mk across t1) (GameBoard.touch b))) =
    changeDirection (Keyboard.oppositeDirections d)
                    (changeDirection across (GameBoard.hook b))).
  { unfold GameBoard.keyDown, Keyboard.handleKeyPress. simpl.
    replace (t2 - t1 <? 50) with false by (symmetry; apply Z.ltb_ge; lia).
    rewrite Hkey2. simpl.
    replace (direction_eqb (Keyboard.oppositeDirections d)
                           (Keyboard.oppositeDirections across))
      with false
      by (destruct (direction_eqb _ _) eqn:E; [| reflexivity];
          apply direction_eqb_eq, oppositeDirections_inj in E;
          congruence).
    reflexivity. }
  rewrite Hsecond2. split; [reflexivity |].
  destruct (tick_into_second_cell boardWidth boardHeight
              (changeDirection (Keyboard.oppositeDirections d)
                 (changeDirection across (GameBoard.hook b)))
              head second rest)
    as (h' & Hmove & Hstate);
    [exact Hplaying | exact Hsnake | exact Hsecond |].
  exists h'. split; [assumption |]. rewrite Hstate. auto.
Qed.

Lemma two_turns_reverse_witness :
  let b := Samples.board Examples.plain in
  let d := direction (gameState (GameBoard.hook b)) in
  let b2 :=
    GameBoard.keyDown 40 40 160 Samples.keyA false
      (GameBoard.keyDown 40 40 100 Samples.keyW false b) in
  direction (gameState (GameBoard.hook b2)) = Keyboard.oppositeDirections d /\
  exists h',
    moveSnake 40 40 (GameBoard.hook b2) = Some h' /\
    isGameOver (gameState h') = true /\
    isPlaying (gameState h') = false.
Proof.
  apply (two_turns_reverse 40 40 100 160 Samples.keyW Samples.keyA UP
           (Samples.board Examples.plain)
           (Position.mk 10 10) (Position.mk 9 10) [Position.mk 8 10]);
    [reflexivity | split; reflexivity | reflexivity | reflexivity
     | reflexivity | discriminate | discriminate | reflexivity
     | simpl; lia | lia].
Defined.

(** ** The board component *)

(** The fields the coherence of a hook depends on. *)
Lemma coherent_same_flags h h' :
  isPlaying (gameState h') = isPlaying (gameState h) ->
  isGameOver (gameState h') = isGameOver (gameState h) ->
  gameSessionActiveRef h' = gameSessionActiveRef h ->
  snake (gameState h') = snake (gameState h) ->
  score (gameState h') = score (gameState h) ->
  GameBoard.coherent h -> GameBoard.coherent h'.
Proof.
  unfold GameBoard.coherent, GameBoard.looksFresh.
  intros -> -> -> -> ->. auto.
Qed.

Lemma timer_callbacks_flags boardWidth boardHeight op h :
  (exists now, op = TrapTimer now) \/ op = TrapRemoval \/
  (exists now, op = ReshapeTimer now) ->
  exists h',
    run boardWidth boardHeight op h = Some h' /\
    isPlaying (gameState h') = isPlaying (gameState h) /\
    isGameOver (gameState h') = isGameOver (gameState h) /\
    gameSessionActiveRef h' = gameSessionActiveRef h /\
    snake (gameState h') = snake (gameState h) /\
    score (gameState h') = score (gameState h).
Proof.
  intros [[now ->] | [-> | [now ->]]]; simpl;
    (eexists; split; [reflexivity |]).
  - unfold trapTimerFires, scheduleNextTrap, spawnTrap.
    rewrite !draw_eq. cbv beta iota zeta.
    repeat match goal with
           | |- context [if ?c then _ else _] => destruct c
           | |- context [match ?o with Some _ => _ | None => _ end] =>
             destruct o
           end; repeat split; reflexivity.
  - unfold trapRemovalFires.
    destruct (trapRemovals h); repeat split; reflexivity.
  - unfold reshapeTick. rewrite !draw_eq. cbv beta iota zeta.
    repeat match goal with
           | |- context [if ?c then _ else _] => destruct c
           end; repeat split; reflexivity.
Qed.

Lemma moveSnake_coherent boardWidth boardHeight h :
  snake (gameState h) <> [] ->
  GameBoard.coherent h ->
  exists h',
    moveSnake boardWidth boardHeight h = Some h' /\
    snake (gameState h') <> [] /\
    GameBoard.coherent h'.
Proof.
  intros Hne Hco.
  destruct (moveSnake_traps boardWidth boardHeight h Hne)
    as (h' & Hmove & _ & Hne').
  exists h'. split; [assumption |]. split; [assumption |].
  destruct (tick_classify boardWidth boardHeight h Hne) as
    [Hidle | (Hplaying & newHead & Hhead & [Hcoll | Hcoll])].
  - rewrite moveSnake_idle in Hmove by assumption.
    now injection Hmove as <-.
  - destruct (moveSnake_terminal _ _ _ _ Hplaying Hhead Hcoll)
      as (h1 & Hmove1 & Hstate & _).
    rewrite Hmove1 in Hmove. injection Hmove as <-.
    unfold GameBoard.coherent. rewrite Hstate. simpl.
    split; discriminate.
  - destruct (moveSnake_survives _ _ _ _ Hplaying Hhead Hcoll)
      as (h1 & Hmove1 & _ & _ & _ & _ & _ & _ & _ & Hplay & Hover & _ & _
          & Hactive & _).
    rewrite Hmove1 in Hmove. injection Hmove as <-.
    destruct Hplaying as [Hp _]. destruct Hco as [Hco _].
    destruct (Hco Hp) as [_ Hact].
    unfold GameBoard.coherent. rewrite Hplay, Hover, Hactive.
    split; [auto | discriminate].
Qed.

Lemma handleSpaceBar_coherent boardWidth boardHeight h :
  snake (gameState h) <> [] ->
  GameBoard.coherent h ->
  snake (gameState (GameBoard.handleSpaceBar boardWidth boardHeight h)) <> [] /\
  GameBoard.coherent (GameBoard.handleSpaceBar boardWidth boardHeight h).
Proof.
  intros Hne [Hplaying Hpaused]. unfold GameBoard.handleSpaceBar. cbv zeta.
  destruct (isGameOver (gameState h)) eqn:Hover.
  - unfold resetGame. cbv zeta. rewrite !draw_eq. cbv beta iota zeta.
    unfold GameBoard.coherent, GameBoard.looksFresh. simpl.
    split; [discriminate |]. split; [discriminate |]. auto.
  - destruct (negb (isPlaying (gameState h)) &&
              (Z.of_nat (length (snake (gameState h))) =? 3) &&
              (score (gameState h) =? 0)) eqn:Hfresh.
    + unfold startGame, scheduleNextTrap, startObstacleReshapeTimer.
      rewrite !draw_eq. cbv beta iota zeta.
      unfold GameBoard.coherent. simpl.
      split; [assumption |]. split; [auto | discriminate].
    + unfold togglePause. cbv zeta.
      destruct (isPlaying (gameState h)) eqn:Hplay; simpl.
      * destruct (Hplaying eq_refl) as [_ Hactive].
        unfold GameBoard.coherent. simpl.
        split; [assumption |]. split; [discriminate | auto].
      * rewrite Hover. simpl. unfold scheduleNextTrap.
        rewrite !draw_eq. cbv beta iota zeta.
        unfold GameBoard.coherent. simpl.
        split; [assumption |]. split; [| discriminate].
        intros _. split; [auto |].
        destruct (Hpaused eq_refl eq_refl) as [[Hlen Hscore] | Hactive];
          [| assumption].
        simpl in Hfresh. rewrite Hlen, Hscore in Hfresh. discriminate.
Qed.

Lemma changeDirection_coherent d h :
  snake (gameState h) <> [] -> GameBoard.coherent h ->
  snake (gameState (changeDirection d h)) <> [] /\
  GameBoard.coherent (changeDirection d h).
Proof.
  intros Hne Hco. split; [exact Hne |].
  now apply (coherent_same_flags h).
Qed.

Lemma step_coherent boardWidth boardHeight e b :
  GameBoard.coherent (GameBoard.hook b) ->
  snake (gameState (GameBoard.hook b)) <> [] ->
  GameBoard.inSync b ->
  exists b',
    GameBoard.step boardWidth boardHeight e b = Some b' /\
    GameBoard.coherent (GameBoard.hook b') /\
    snake (gameState (GameBoard.hook b')) <> [] /\
    GameBoard.inSync b'.
Proof.
  intros Hco Hne Hsync.
  assert (Htimer : forall op,
    (exists now, op = TrapTimer now) \/ op = TrapRemoval \/
    (exists now, op = ReshapeTimer now) ->
    exists b',
      match run boardWidth boardHeight op (GameBoard.hook b) with
      | Some h =>
        Some (GameBoard.syncKeyboard
                (GameBoard.mk h (GameBoard.keyboard b) (GameBoard.touch b)))
      | None => None
      end = Some b' /\
      GameBoard.coherent (GameBoard.hook b') /\
      snake (gameState (GameBoard.hook b')) <> [] /\
      GameBoard.inSync b').
  { intros op Hop.
    destruct (timer_callbacks_flags boardWidth boardHeight op
                (GameBoard.hook b) Hop)
      as (h' & -> & Hp & Ho & Ha & Hs & Hsc).
    eexists. split; [reflexivity |]. simpl.
    split; [now apply (coherent_same_flags (GameBoard.hook b)) |].
    split; [now rewrite Hs | reflexivity]. }
  destruct e as [| now | | now | now key isSpace | now touches
                 | now changedTouches]; simpl GameBoard.step.
  - destruct (moveSnake_coherent boardWidth boardHeight _ Hne Hco)
      as (h' & Hmove & Hne' & Hco').
    unfold GameBoard.timerOp, run. rewrite Hmove.
    eexists. split; [reflexivity |].
    split; [exact Hco' | split; [exact Hne' | reflexivity]].
  - apply (Htimer (TrapTimer now)). left. now exists now.
  - apply (Htimer TrapRemoval). right. now left.
  - apply (Htimer (ReshapeTimer now)). right. right. now exists now.
  - eexists. split; [reflexivity |]. unfold GameBoard.keyDown.
    destruct (Keyboard.handleKeyPress now key (GameBoard.keyboard b))
      as [k emitted].
    set (h1 := match emitted with
               | Some d => changeDirection d (GameBoard.hook b)
               | None => GameBoard.hook b
               end).
    assert (H1 : snake (gameState h1) <> [] /\ GameBoard.coherent h1).
    { subst h1. destruct emitted as [d |];
        [now apply changeDirection_coherent | now split]. }
    destruct H1 as [Hne1 Hco1].
    destruct isSpace.
    + destruct (handleSpaceBar_coherent boardWidth boardHeight h1 Hne1 Hco1)
        as [Hne2 Hco2].
      split; [exact Hco2 | split; [exact Hne2 | reflexivity]].
    + split; [exact Hco1 | split; [exact Hne1 | reflexivity]].
  - eexists. split; [reflexivity |].
    split; [exact Hco | split; [exact Hne | exact Hsync]].
  - eexists. split; [reflexivity |]. unfold GameBoard.touchEnd.
    destruct (Touch.handleTouchEnd _ now changedTouches (GameBoard.touch b))
      as [st emitted].
    destruct emitted as [d |].
    + destruct (changeDirection_coherent d _ Hne Hco) as [Hne1 Hco1].
      split; [exact Hco1 | split; [exact Hne1 | reflexivity]].
    + split; [exact Hco | split; [exact Hne | reflexivity]].
Qed.

(** The board a page without a saved game mounts is in such a state. *)
Lemma mounted_board_coherent boardWidth boardHeight g :
  let b :=
    GameBoard.mk (mount boardWidth boardHeight g) Keyboard.initial
                 Touch.initial in
  GameBoard.coherent (GameBoard.hook b) /\
  snake (gameState (GameBoard.hook b)) <> [] /\
  GameBoard.inSync b.
Proof.
  unfold GameBoard.inSync, GameBoard.coherent, GameBoard.looksFresh.
  cbn [GameBoard.hook GameBoard.keyboard]. unfold mount.
  destruct (generateObstacles _ _ g) as [obstacles g1].
  destruct (newReshapeCountdown g1) as [countdown g2].
  destruct (generateRandomFood _ _ _ _ _ g2) as [food g3].
  cbn. repeat split; try discriminate. left. split; reflexivity.
Qed.

(** X22. A board stays coherent.  Take a board with a snake, where a game
    that is playing is not over and has an active storage session, a game
    that is neither playing nor over is either the one the start overlay
    is shown for or a paused one with an active session, and the keyboard
    hook's last direction is the direction of the game state.  Whatever
    the timers, the keyboard and the touch screen then do, all of this
    stays true, and the tick never meets an empty snake, so it never
    raises. *)
Theorem board_stays_coherent boardWidth boardHeight es b :
  GameBoard.coherent (GameBoard.hook b) ->
  snake (gameState (GameBoard.hook b)) <> [] ->
  GameBoard.inSync b ->
  exists b',
    GameBoard.steps boardWidth boardHeight es b = Some b' /\
    GameBoard.coherent (GameBoard.hook b') /\
    snake (gameState (GameBoard.hook b')) <> [] /\
    GameBoard.inSync b'.
Proof.
  revert b. induction es as [| e rest IH]; intros b Hco Hne Hsync.
  - exists b. split; [reflexivity | now split].
  - destruct (step_coherent boardWidth boardHeight e b Hco Hne Hsync)
      as (b1 & Hstep & Hco1 & Hne1 & Hsync1).
    simpl. rewrite Hstep. now apply IH.
Qed.

Lemma board_stays_coherent_witness :
  exists b',
    GameBoard.steps 40 40
      [GameBoard.KeyDown 100 Samples.keyW false; GameBoard.TickFires;
       GameBoard.KeyDown 200 Samples.keySpace true]
      (Samples.board Examples.plain) = Some b' /\
    GameBoard.coherent (GameBoard.hook b') /\
    snake (gameState (GameBoard.hook b')) <> [] /\
    GameBoard.inSync b'.
Proof.
  apply (board_stays_coherent 40 40
           [GameBoard.KeyDown 100 Samples.keyW false; GameBoard.TickFires;
            GameBoard.KeyDown 200 Samples.keySpace true]
           (Samples.board Examples.plain));
    [split; simpl; [intros _; split; reflexivity | discriminate]
    | discriminate | reflexivity].
Defined.

(** ** Swipes *)

(** X23. A touch end passes a direction on only while the game is playing,
    for a single touch that started at most 300 ms earlier and at least
    100 ms after the last accepted swipe, and that moved at least 30
    pixels along one axis; the direction follows the axis with the larger
    movement (the vertical one on a tie), and the time of the swipe
    becomes the time of the last accepted one. The direction the snake is
    moving in plays no part. *)
Theorem handleTouchEnd_emits isGamePlaying now changedTouches st st' d :
  Touch.handleTouchEnd isGamePlaying now changedTouches st = (st', Some d) ->
  isGamePlaying = true /\
  st' = Touch.mk None now /\
  exists start endX endY,
    Touch.touchStartRef st = Some start /\
    changedTouches = [(endX, endY)] /\
    now - Touch.timestamp start <= 300 /\
    100 <= now - Touch.lastDirectionChangeRef st /\
    let deltaX := (endX - Touch.startX start)%Q in
    let deltaY := (endY - Touch.startY start)%Q in
    (inject_Z 30 <= Qmax (Qabs deltaX) (Qabs deltaY))%Q /\
    ((Qabs deltaY < Qabs deltaX)%Q /\
       (d = RIGHT /\ (0 < deltaX)%Q \/ d = LEFT /\ (deltaX <= 0)%Q) \/
     (Qabs deltaX <= Qabs deltaY)%Q /\
       (d = DOWN /\ (0 < deltaY)%Q \/ d = UP /\ (deltaY <= 0)%Q)).
Proof.
  unfold Touch.handleTouchEnd. intros H.
  destruct isGamePlaying; [| discriminate].
  destruct (Touch.touchStartRef st) as [start |] eqn:Hstart;
    [| discriminate].
  destruct changedTouches as [| [endX endY] [| ? ?]]; try discriminate.
  cbv zeta in H. cbn [fst snd] in H.
  destruct (now - Touch.timestamp start >? 300) eqn:Htime;
    [discriminate |].
  destruct (now - Touch.lastDirectionChangeRef st <? 100) eqn:Hlast;
    [discriminate |].
  cbn [orb] in H.
  destruct (Qlt_le_dec _ (inject_Z 30)) as [Hshort | Hlong];
    [discriminate |].
  assert (Href : st' = Touch.mk None now) by congruence.
  assert (Hdir : d =
    if Qlt_le_dec (Qabs (endY - Touch.startY start))
                  (Qabs (endX - Touch.startX start))
    then (if Qlt_le_dec 0 (endX - Touch.startX start) then RIGHT else LEFT)
    else (if Qlt_le_dec 0 (endY - Touch.startY start) then DOWN else UP))
    by congruence.
  clear H.
  split; [reflexivity |]. split; [exact Href |].
  exists start, endX, endY.
  split; [reflexivity |]. split; [reflexivity |].
  split; [lia |]. split; [lia |].
  cbv zeta. split; [exact Hlong |].
  destruct (Qlt_le_dec (Qabs (endY - Touch.startY start))
                       (Qabs (endX - Touch.startX start))) as [Hx | Hy].
  - left. split; [exact Hx |].
    destruct (Qlt_le_dec 0 (endX - Touch.startX start)); auto.
  - right. split; [exact Hy |].
    destruct (Qlt_le_dec 0 (endY - Touch.startY start)); auto.
Qed.

Lemma handleTouchEnd_emits_witness :
  let st := Touch.mk (Some (Touch.mkStart 50 80 900)) 0 in
  Touch.handleTouchEnd true 1000 [(150 # 1, 90 # 1)%Q] st =
    (Touch.mk None 1000, Some RIGHT) /\
  true = true /\
  Touch.mk None 1000 = Touch.mk None 1000 /\
  exists start endX endY,
    Touch.touchStartRef st = Some start /\
    [(150 # 1, 90 # 1)%Q] = [(endX, endY)] /\
    1000 - Touch.timestamp start <= 300 /\
    100 <= 1000 - Touch.lastDirectionChangeRef st /\
    let deltaX := (endX - Touch.startX start)%Q in
    let deltaY := (endY - Touch.startY start)%Q in
    (inject_Z 30 <= Qmax (Qabs deltaX) (Qabs deltaY))%Q /\
    ((Qabs deltaY < Qabs deltaX)%Q /\
       (RIGHT = RIGHT /\ (0 < deltaX)%Q \/ RIGHT = LEFT /\ (deltaX <= 0)%Q) \/
     (Qabs deltaX <= Qabs deltaY)%Q /\
       (RIGHT = DOWN /\ (0 < deltaY)%Q \/ RIGHT = UP /\ (deltaY <= 0)%Q)).
Proof.
  split; [reflexivity |].
  apply (handleTouchEnd_emits true 1000 [(150 # 1, 90 # 1)%Q]
           (Touch.mk (Some (Touch.mkStart 50 80 900)) 0)
           (Touch.mk None 1000) RIGHT).
  reflexivity.
Defined.

(** A swipe that meets the time and distance conditions is passed on. *)
Lemma handleTouchEnd_swipe now st start endX endY :
  Touch.touchStartRef st = Some start ->
  now - Touch.timestamp start <= 300 ->
  100 <= now - Touch.lastDirectionChangeRef st ->
  (inject_Z 30 <=
   Qmax (Qabs (endX - Touch.startX start))
        (Qabs (endY - Touch.startY start)))%Q ->
  Touch.handleTouchEnd true now [(endX, endY)] st =
    (Touch.mk None now,
     Some (if Qlt_le_dec (Qabs (endY - Touch.startY start))
                         (Qabs (endX - Touch.startX start))
           then (if Qlt_le_dec 0 (endX - Touch.startX start)
                 then RIGHT else LEFT)
           else (if Qlt_le_dec 0 (endY - Touch.startY start)
                 then DOWN else UP))).
Proof.
  intros Hstart Htime Hlast Hlong. unfold Touch.handleTouchEnd.
  rewrite Hstart. cbv zeta. cbn [fst snd].
  replace (now - Touch.timestamp start >? 300) with false
    by (symmetry; rewrite Z.gtb_ltb; apply Z.ltb_ge; lia).
  replace (now - Touch.lastDirectionChangeRef st <? 100) with false
    by (symmetry; apply Z.ltb_ge; lia).
  cbn [orb].
  destruct (Qlt_le_dec _ (inject_Z 30)) as [Hshort | _]; [| reflexivity].
  exfalso. exact (Qlt_not_le _ _ Hshort Hlong).
Qed.

(** X24. A swipe can reverse the snake.  In a playing state whose second
    cell is the cell left of the head, as it is while the snake moves
    right, a leftward swipe of at least 30 pixels, more horizontal than
    vertical, made within 300 ms and at least 100 ms after the last
    accepted swipe, stores the direction LEFT, and the next tick ends the
    game: the touch hook, unlike the keyboard hook, does not compare the
    new direction with the current one. *)
Theorem swipe_back_ends_game boardWidth boardHeight now b start endX endY
    head second rest :
  playing (gameState (GameBoard.hook b)) ->
  snake (gameState (GameBoard.hook b)) = head :: second :: rest ->
  second =
    wrapPosition boardWidth boardHeight
      (Position.mk (Position.x head + -1) (Position.y head + 0)) ->
  Touch.touchStartRef (GameBoard.touch b) = Some start ->
  now - Touch.timestamp start <= 300 ->
  100 <= now - Touch.lastDirectionChangeRef (GameBoard.touch b) ->
  (endX - Touch.startX start <= - inject_Z 30)%Q ->
  (Qabs (endY - Touch.startY start) < Qabs (endX - Touch.startX start))%Q ->
  let b' := GameBoard.touchEnd now [(endX, endY)] b in
  direction (gameState (GameBoard.hook b')) = LEFT /\
  exists h',
    moveSnake boardWidth boardHeight (GameBoard.hook b') = Some h' /\
    isGameOver (gameState h') = true /\
    isPlaying (gameState h') = false.
Proof.
  intros Hplaying Hsnake Hsecond Hstart Htime Hlast Hleft Hflat b'.
  assert (Hneg : (endX - Touch.startX start <= 0)%Q).
  { apply Qle_trans with (1 := Hleft). discriminate. }
  assert (Hlong : (inject_Z 30 <=
                   Qmax (Qabs (endX - Touch.startX start))
                        (Qabs (endY - Touch.startY start)))%Q).
  { apply Qle_trans with (2 := Q.le_max_l _ _).
    rewrite (Qabs_neg _ Hneg).
    apply Qopp_le_compat in Hleft. rewrite Qopp_involutive in Hleft.
    exact Hleft. }
  assert (Hhook : GameBoard.hook b' = changeDirection LEFT (GameBoard.hook b)).
  { subst b'. unfold GameBoard.touchEnd.
    destruct Hplaying as [-> _].
    rewrite (handleTouchEnd_swipe now _ start endX endY Hstart Htime Hlast
               Hlong).
    destruct (Qlt_le_dec _ _) as [_ | Hsteep];
      [| exfalso; exact (Qlt_not_le _ _ Hflat Hsteep)].
    destruct (Qlt_le_dec 0 _) as [Hpos | _];
      [exfalso; exact (Qlt_not_le _ _ Hpos Hneg) | reflexivity]. }
  rewrite Hhook. split; [reflexivity |].
  destruct (tick_into_second_cell boardWidth boardHeight
              (changeDirection LEFT (GameBoard.hook b)) head second rest
              Hplaying Hsnake Hsecond)
    as (h' & Hmove & Hstate).
  exists h'. split; [assumption |]. rewrite Hstate. auto.
Qed.

Lemma swipe_back_ends_game_witness :
  let b :=
    GameBoard.mk Examples.plain (Keyboard.mk RIGHT 0)
                 (Touch.mk (Some (Touch.mkStart 200 100 900)) 0) in
  let b' := GameBoard.touchEnd 1000 [(100 # 1, 110 # 1)%Q] b in
  direction (gameState (GameBoard.hook b')) = LEFT /\
  exists h',
    moveSnake 40 40 (GameBoard.hook b') = Some h' /\
    isGameOver (gameState h') = true /\
    isPlaying (gameState h') = false.
Proof.
  apply (swipe_back_ends_game 40 40 1000
           (GameBoard.mk Examples.plain (Keyboard.mk RIGHT 0)
                         (Touch.mk (Some (Touch.mkStart 200 100 900)) 0))
           (Touch.mkStart 200 100 900) (100 # 1)%Q (110 # 1)%Q
           (Position.mk 10 10) (Position.mk 9 10) [Position.mk 8 10]);
    [split; reflexivity | reflexivity | reflexivity | reflexivity
     | simpl; lia | simpl; lia | vm_compute; discriminate | reflexivity].
Defined.

(** ** The board size *)

Lemma floorDiv_div a b : Device.floorDiv a b = a / b.
Proof. unfold Device.floorDiv. symmetry. apply Zdiv_Qdiv. Qed.

Lemma Qfloor_Qmin a b : Qfloor (Qmin a b) = Z.min (Qfloor a) (Qfloor b).
Proof.
  destruct (Q.min_spec_le a b) as [[Hle Heq] | [Hle Heq]];
    rewrite (Qfloor_comp _ _ Heq);
    pose proof (Qfloor_resp_le _ _ Hle); lia.
Qed.

(** The mobile branch in integer arithmetic. *)
Lemma calculateGameBoardSize_mobile w :
  Device.isMobileDevice (Some w) = true ->
  let aw := Device.availableWidth w in
  let ah := Device.availableHeight w in
  let board := Z.max 15 (Z.min 25 (Z.min (aw / 8) (ah / 8))) in
  let cell := Z.max 8 (Z.min 16 (Z.min (aw / board) (ah / board))) in
  Device.calculateGameBoardSize (Some w) =
    if (board * cell >? aw) || (board * cell >? ah)
    then Device.mkSize (aw / cell) (ah / cell) cell true
    else Device.mkSize board board cell true.
Proof.
  intros Hmobile aw ah board cell.
  unfold Device.calculateGameBoardSize. rewrite Hmobile. cbv zeta.
  rewrite Qfloor_Qmin, !floorDiv_div, <- !Zdiv_Qdiv.
  rewrite !Z.min_id.
  reflexivity.
Qed.

(** X25. On a mobile window the cell size lies between 8 and 16 pixels and
    the board, in pixels, is never wider or taller than the space left
    after the margins (20 pixels of width, 320 of height), whatever the
    window size. *)
Theorem mobile_board_fits w :
  Device.isMobileDevice (Some w) = true ->
  let size := Device.calculateGameBoardSize (Some w) in
  8 <= Device.cellSize size <= 16 /\
  Device.width size * Device.cellSize size <= Device.availableWidth w /\
  Device.height size * Device.cellSize size <= Device.availableHeight w.
Proof.
  intros Hmobile size. subst size.
  rewrite (calculateGameBoardSize_mobile w Hmobile). cbv zeta.
  set (aw := Device.availableWidth w). set (ah := Device.availableHeight w).
  set (board := Z.max 15 (Z.min 25 (Z.min (aw / 8) (ah / 8)))).
  set (cell := Z.max 8 (Z.min 16 (Z.min (aw / board) (ah / board)))).
  assert (Hcell : 8 <= cell <= 16) by (subst cell; lia).
  destruct ((board * cell >? aw) || (board * cell >? ah)) eqn:Hfit;
    cbn [Device.cellSize Device.width Device.height].
  - split; [exact Hcell |].
    pose proof (Z.mul_div_le aw cell ltac:(lia)).
    pose proof (Z.mul_div_le ah cell ltac:(lia)). lia.
  - apply orb_false_iff in Hfit. lia.
Qed.

Lemma mobile_board_fits_witness :
  let size := Device.calculateGameBoardSize (Some Samples.phoneOnItsSide) in
  8 <= Device.cellSize size <= 16 /\
  Device.width size * Device.cellSize size <=
    Device.availableWidth Samples.phoneOnItsSide /\
  Device.height size * Device.cellSize size <=
    Device.availableHeight Samples.phoneOnItsSide.
Proof.
  apply (mobile_board_fits Samples.phoneOnItsSide). reflexivity.
Defined.

(** X26. On a mobile window that leaves at least 120 pixels in both
    directions the board is square, with a side between 15 and 25 cells:
    the number of 8-pixel cells that fit the shorter direction, clamped to
    that range. *)
Theorem mobile_board_square w :
  Device.isMobileDevice (Some w) = true ->
  120 <= Device.availableWidth w ->
  120 <= Device.availableHeight w ->
  let size := Device.calculateGameBoardSize (Some w) in
  Device.width size = Device.height size /\
  15 <= Device.width size <= 25 /\
  Device.width size =
    Z.max 15 (Z.min 25 (Z.min (Device.availableWidth w / 8)
                              (Device.availableHeight w / 8))).
Proof.
  intros Hmobile Hw Hh size. subst size.
  rewrite (calculateGameBoardSize_mobile w Hmobile). cbv zeta.
  set (aw := Device.availableWidth w) in *.
  set (ah := Device.availableHeight w) in *.
  set (board := Z.max 15 (Z.min 25 (Z.min (aw / 8) (ah / 8)))).
  set (cell := Z.max 8 (Z.min 16 (Z.min (aw / board) (ah / board)))).
  assert (Hboard : 15 <= board <= 25 /\ board * 8 <= aw /\ board * 8 <= ah).
  { subst board.
    pose proof (Z.mul_div_le aw 8 ltac:(lia)).
    pose proof (Z.mul_div_le ah 8 ltac:(lia)).
    assert (15 <= aw / 8) by (apply Z.div_le_lower_bound; lia).
    assert (15 <= ah / 8) by (apply Z.div_le_lower_bound; lia).
    lia. }
  assert (Hqw : 8 <= aw / board)
    by (apply Z.div_le_lower_bound; lia).
  assert (Hqh : 8 <= ah / board)
    by (apply Z.div_le_lower_bound; lia).
  pose proof (Z.mul_div_le aw board ltac:(lia)) as Hmw.
  pose proof (Z.mul_div_le ah board ltac:(lia)) as Hmh.
  assert (Hcell : cell <= aw / board /\ cell <= ah / board).
  { subst cell. revert Hqw Hqh.
    generalize (aw / board) (ah / board). intros qw qh Hqw Hqh. lia. }
  destruct Hcell as [Hcw Hch].
  assert (Hfit : (board * cell >? aw) || (board * cell >? ah) = false).
  { apply orb_false_iff. split; rewrite Z.gtb_ltb; apply Z.ltb_ge; nia. }
  rewrite Hfit. cbn [Device.width Device.height]. lia.
Qed.

Lemma mobile_board_square_witness :
  let size := Device.calculateGameBoardSize (Some Samples.phoneUpright) in
  Device.width size = Device.height size /\
  15 <= Device.width size <= 25 /\
  Device.width size =
    Z.max 15 (Z.min 25 (Z.min (Device.availableWidth Samples.phoneUpright / 8)
                              (Device.availableHeight Samples.phoneUpright
                               / 8))).
Proof.
  apply (mobile_board_square Samples.phoneUpright);
    [reflexivity | discriminate | discriminate].
Defined.

(** X27. On a mobile window that leaves less than 120 pixels in one
    direction the clamp to 15 to 25 cells is given up: the cells are 8
    pixels and each side is the number of cells that fit, so the board
    need not be square, a side can exceed 25, and a direction with less
    than 8 pixels left gives a side of zero or less. *)
Theorem mobile_board_cramped w :
  Device.isMobileDevice (Some w) = true ->
  Device.availableWidth w < 120 \/ Device.availableHeight w < 120 ->
  let size := Device.calculateGameBoardSize (Some w) in
  Device.cellSize size = 8 /\
  Device.width size = Device.availableWidth w / 8 /\
  Device.height size = Device.availableHeight w / 8 /\
  (Device.availableWidth w < 8 -> Device.width size <= 0) /\
  (Device.availableHeight w < 8 -> Device.height size <= 0).
Proof.
  intros Hmobile Hsmall size. subst size.
  rewrite (calculateGameBoardSize_mobile w Hmobile). cbv zeta.
  set (aw := Device.availableWidth w) in *.
  set (ah := Device.availableHeight w) in *.
  assert (Hboard : Z.max 15 (Z.min 25 (Z.min (aw / 8) (ah / 8))) = 15).
  { destruct Hsmall as [Hsmall | Hsmall];
      [assert (aw / 8 < 15) by (apply Z.div_lt_upper_bound; lia)
      | assert (ah / 8 < 15) by (apply Z.div_lt_upper_bound; lia)]; lia. }
  rewrite Hboard.
  assert (Hcell : Z.max 8 (Z.min 16 (Z.min (aw / 15) (ah / 15))) = 8).
  { destruct Hsmall as [Hsmall | Hsmall];
      [assert (aw / 15 < 8) by (apply Z.div_lt_upper_bound; lia)
      | assert (ah / 15 < 8) by (apply Z.div_lt_upper_bound; lia)]; lia. }
  rewrite Hcell.
  assert (Hfit : (15 * 8 >? aw) || (15 * 8 >? ah) = true).
  { apply orb_true_iff. rewrite !Z.gtb_ltb, !Z.ltb_lt. lia. }
  rewrite Hfit. cbn [Device.cellSize Device.width Device.height].
  repeat split; try reflexivity; intros Hnone;
    [assert (aw / 8 < 1) by (apply Z.div_lt_upper_bound; lia)
    | assert (ah / 8 < 1) by (apply Z.div_lt_upper_bound; lia)]; lia.
Qed.

Lemma mobile_board_cramped_witness :
  let size := Device.calculateGameBoardSize (Some Samples.phoneOnItsSide) in
  Device.cellSize size = 8 /\
  Device.width size = Device.availableWidth Samples.phoneOnItsSide / 8 /\
  Device.height size = Device.availableHeight Samples.phoneOnItsSide / 8 /\
  (Device.availableWidth Samples.phoneOnItsSide < 8 ->
   Device.width size <= 0) /\
  (Device.availableHeight Samples.phoneOnItsSide < 8 ->
   Device.height size <= 0).
Proof.
  apply (mobile_board_cramped Samples.phoneOnItsSide);
    [reflexivity | right; reflexivity].
Defined.

(** ** Pausing before the first point *)

(** X28. Space pauses a running game, but a game paused before the first
    point, with the snake still three cells long, looks like a game that
    has not started: the second Space calls [startGame] instead of
    resuming, so the storage service is told to start a session a second
    time while the game state is the one that was paused. *)
Theorem space_restarts_session_after_early_pause boardWidth boardHeight h :
  playing (gameState h) ->
  length (snake (gameState h)) = 3%nat ->
  score (gameState h) = 0 ->
  let paused := GameBoard.handleSpaceBar boardWidth boardHeight h in
  let again := GameBoard.handleSpaceBar boardWidth boardHeight paused in
  isPlaying (gameState paused) = false /\
  storageCalls paused = storageCalls h /\
  storageCalls again = storageCalls h ++ [StartGameSession] /\
  gameSessionActiveRef again = true /\
  gameState again = gameState h.
Proof.
  intros [Hplay Hover] Hlen Hscore paused again.
  assert (Hpaused : paused = togglePause h).
  { subst paused. unfold GameBoard.handleSpaceBar. cbv zeta.
    now rewrite Hover, Hplay. }
  assert (Hstate : gameState paused =
    mkGameState (snake (gameState h)) (food (gameState h))
      (traps (gameState h)) (obstacles (gameState h))
      (direction (gameState h)) (score (gameState h)) false false
      (trapWarning (gameState h))
      (obstacleReshapeCountdown (gameState h))).
  { rewrite Hpaused. unfold togglePause. cbv zeta.
    rewrite Hplay, Hover. reflexivity. }
  assert (Hcalls : storageCalls paused = storageCalls h).
  { rewrite Hpaused. unfold togglePause. cbv zeta.
    rewrite Hplay. reflexivity. }
  assert (Hagain : again = startGame paused).
  { subst again. unfold GameBoard.handleSpaceBar. cbv zeta.
    rewrite Hstate. cbn [isGameOver isPlaying snake score].
    now rewrite Hlen, Hscore. }
  split; [now rewrite Hstate |]. split; [exact Hcalls |].
  rewrite Hagain. unfold startGame, scheduleNextTrap,
    startObstacleReshapeTimer.
  rewrite !draw_eq. cbv beta iota zeta.
  unfold setObstacleReshapeTimerRef, setTrapSpawnTimerRef, setRandom,
    setGameState, setGameSessionActiveRef, call.
  cbn [storageCalls gameSessionActiveRef gameState random gameSpeedRef
       trapSpawnTimerRef obstacleReshapeTimerRef trapRemovals].
  rewrite Hcalls, Hstate.
  cbn [snake food traps obstacles direction score trapWarning
       obstacleReshapeCountdown].
  split; [reflexivity |]. split; [reflexivity |].
  destruct (gameState h); simpl in *. now subst.
Qed.

Lemma space_restarts_session_after_early_pause_witness :
  let paused := GameBoard.handleSpaceBar 40 40 Examples.plain in
  let again := GameBoard.handleSpaceBar 40 40 paused in
  isPlaying (gameState paused) = false /\
  storageCalls paused = storageCalls Examples.plain /\
  storageCalls again = storageCalls Examples.plain ++ [StartGameSession] /\
  gameSessionActiveRef again = true /\
  gameState again = gameState Examples.plain.
Proof.
  apply (space_restarts_session_after_early_pause 40 40 Examples.plain);
    [split; reflexivity | reflexivity | reflexivity].
Defined.

(** ** The storage service *)

Lemma slice_suffix {A : Type} (n : Z) (l : list A) :
  Storage.slice n l `suffix_of` l.
Proof. unfold Storage.slice. apply suffix_drop. Qed.

Lemma length_slice_last {A : Type} (n : Z) (l : list A) :
  0 < n ->
  Z.of_nat (length (Storage.slice (- n) l)) = Z.min n (Z.of_nat (length l)).
Proof.
  intros Hn. unfold Storage.slice. cbv zeta.
  replace (- n <? 0) with true by (symmetry; apply Z.ltb_lt; lia).
  rewrite length_skipn. lia.
Qed.

Lemma Forall_suffix {A : Type} (P : A -> Prop) (l1 l2 : list A) :
  l1 `suffix_of` l2 -> Forall P l2 -> Forall P l1.
Proof. intros [k ->] H. apply Forall_app in H. tauto. Qed.

Lemma assignHistory_data l s :
  Storage.dataHistory (Storage.assignHistory l s) = l /\
  sameButHistory s (Storage.assignHistory l s).
Proof.
  unfold sameButHistory, Storage.dataStatistics, Storage.dataHistory.
  destruct s. simpl. repeat split; reflexivity.
Qed.

Lemma setLocalStorage_data d s :
  Storage.dataHistory (Storage.setLocalStorage d s) = Storage.dataHistory s /\
  sameButHistory s (Storage.setLocalStorage d s).
Proof.
  unfold sameButHistory, Storage.dataStatistics, Storage.dataHistory.
  destruct s. simpl. repeat split; reflexivity.
Qed.

Lemma sameButHistory_refl s : sameButHistory s s.
Proof. unfold sameButHistory. repeat split; reflexivity. Qed.

Lemma sameButHistory_trans s1 s2 s3 :
  sameButHistory s1 s2 -> sameButHistory s2 s3 -> sameButHistory s1 s3.
Proof.
  unfold sameButHistory. intros H1 H2.
  destruct H1 as (? & ? & ? & ? & ? & ? & ? & ?).
  destruct H2 as (? & ? & ? & ? & ? & ? & ? & ?).
  repeat split; congruence.
Qed.

(** What [saveData] does to the data: the history becomes one of its
    suffixes, no longer than the settings allow, and nothing else
    changes. *)
Lemma saveData_data first retry s :
  0 < Settings.maxHistorySize (Storage.settings s) ->
  let s' := snd (Storage.saveData first retry s) in
  Storage.dataHistory s' `suffix_of` Storage.dataHistory s /\
  Z.of_nat (length (Storage.dataHistory s')) <=
    Settings.maxHistorySize (Storage.settings s) /\
  sameButHistory s s' /\
  (first = Storage.Stores ->
   fst (Storage.saveData first retry s) = true /\
   Storage.dataHistory s' =
     if Z.of_nat (length (Storage.dataHistory s)) >?
        Settings.maxHistorySize (Storage.settings s)
     then Storage.slice (- Settings.maxHistorySize (Storage.settings s))
                        (Storage.dataHistory s)
     else Storage.dataHistory s).
Proof.
  intros Hmax. unfold Storage.saveData. cbv zeta.
  set (s1 := if Z.of_nat (length (Storage.dataHistory s)) >?
                Settings.maxHistorySize (Storage.settings s)
             then Storage.assignHistory
                    (Storage.slice (- Settings.maxHistorySize
                                        (Storage.settings s))
                                   (Storage.dataHistory s)) s
             else s).
  assert (H1 : Storage.dataHistory s1 `suffix_of` Storage.dataHistory s /\
               Z.of_nat (length (Storage.dataHistory s1)) <=
                 Settings.maxHistorySize (Storage.settings s) /\
               sameButHistory s s1).
  { subst s1.
    destruct (Z.of_nat (length (Storage.dataHistory s)) >?
              Settings.maxHistorySize (Storage.settings s)) eqn:Hlong.
    - destruct (assignHistory_data
                  (Storage.slice (- Settings.maxHistorySize
                                      (Storage.settings s))
                                 (Storage.dataHistory s)) s) as [-> Hsame].
      split; [apply slice_suffix |]. split; [| exact Hsame].
      rewrite length_slice_last by exact Hmax. lia.
    - split; [reflexivity |]. split; [lia | apply sameButHistory_refl]. }
  destruct H1 as (Hsuffix & Hlen & Hsame).
  assert (Hstore : forall s2,
    Storage.dataHistory s2 `suffix_of` Storage.dataHistory s ->
    Z.of_nat (length (Storage.dataHistory s2)) <=
      Settings.maxHistorySize (Storage.settings s) ->
    sameButHistory s s2 ->
    let s3 := Storage.setLocalStorage (Some (Storage.data s2)) s2 in
    Storage.dataHistory s3 `suffix_of` Storage.dataHistory s /\
    Z.of_nat (length (Storage.dataHistory s3)) <=
      Settings.maxHistorySize (Storage.settings s) /\
    sameButHistory s s3).
  { intros s2 Hs Hl Hsm s3. subst s3.
    destruct (setLocalStorage_data (Some (Storage.data s2)) s2)
      as [-> Hsame2].
    split; [exact Hs |]. split; [exact Hl |].
    exact (sameButHistory_trans _ _ _ Hsm Hsame2). }
  assert (Hclear :
    let s2 := Storage.clearOldestGames 10 s1 in
    Storage.dataHistory s2 `suffix_of` Storage.dataHistory s /\
    Z.of_nat (length (Storage.dataHistory s2)) <=
      Settings.maxHistorySize (Storage.settings s) /\
    sameButHistory s s2).
  { unfold Storage.clearOldestGames. cbv zeta.
    destruct (assignHistory_data (Storage.slice 10 (Storage.dataHistory s1))
                                 s1) as [-> Hsame2].
    pose proof (slice_suffix 10 (Storage.dataHistory s1)) as Hsl.
    split; [etrans; eassumption |].
    split; [| exact (sameButHistory_trans _ _ _ Hsame Hsame2)].
    apply suffix_length in Hsl. lia. }
  assert (Hexact :
    Storage.dataHistory s1 =
      if Z.of_nat (length (Storage.dataHistory s)) >?
         Settings.maxHistorySize (Storage.settings s)
      then Storage.slice (- Settings.maxHistorySize (Storage.settings s))
                         (Storage.dataHistory s)
      else Storage.dataHistory s).
  { subst s1.
    destruct (Z.of_nat (length (Storage.dataHistory s)) >?
              Settings.maxHistorySize (Storage.settings s));
      [apply assignHistory_data | reflexivity]. }
  destruct first; cbn [fst snd].
  - destruct (Hstore s1 Hsuffix Hlen Hsame) as (Ha & Hb & Hc).
    split; [exact Ha |]. split; [exact Hb |]. split; [exact Hc |].
    intros _. split; [reflexivity |].
    rewrite <- Hexact. apply setLocalStorage_data.
  - destruct Hclear as (Hs2 & Hl2 & Hsm2).
    destruct retry; cbn [snd];
      [destruct (Hstore _ Hs2 Hl2 Hsm2) as (Ha & Hb & Hc) | |];
      (split; [assumption |]; split; [assumption |];
       split; [assumption | discriminate]).
  - split; [assumption |]. split; [assumption |].
    split; [assumption | discriminate].
Qed.

(** *** The data after each assignment *)

Lemma updateStatistics_data f s :
  Storage.dataHistory (Storage.updateStatistics f s) = Storage.dataHistory s /\
  Storage.dataStatistics (Storage.updateStatistics f s) =
    f (Storage.dataStatistics s) /\
  Storage.settings (Storage.updateStatistics f s) = Storage.settings s /\
  (Storage.statistics (Storage.updateStatistics f s) = Storage.Shared <->
   Storage.statistics s = Storage.Shared).
Proof.
  unfold Storage.dataStatistics, Storage.dataHistory, Storage.updateStatistics.
  destruct s as [dh ds v h st sg se ss ev tr ls]. simpl.
  destruct st; simpl; repeat split; try reflexivity; discriminate.
Qed.

Lemma pushHistory_data x s :
  Storage.dataHistory (Storage.pushHistory x s) =
    Storage.dataHistory s ++ [x] /\
  Storage.dataStatistics (Storage.pushHistory x s) =
    Storage.dataStatistics s /\
  Storage.settings (Storage.pushHistory x s) = Storage.settings s /\
  Storage.statistics (Storage.pushHistory x s) = Storage.statistics s.
Proof.
  unfold Storage.dataStatistics, Storage.dataHistory, Storage.pushHistory.
  destruct s as [dh ds v h st sg se ss ev tr ls]. simpl.
  destruct h; simpl; repeat split; reflexivity.
Qed.

Lemma setSession_data start events traps s :
  Storage.dataHistory (Storage.setSession start events traps s) =
    Storage.dataHistory s /\
  Storage.dataStatistics (Storage.setSession start events traps s) =
    Storage.dataStatistics s /\
  Storage.settings (Storage.setSession start events traps s) =
    Storage.settings s /\
  Storage.statistics (Storage.setSession start events traps s) =
    Storage.statistics s.
Proof. destruct s. repeat split; reflexivity. Qed.

Lemma setSavedGame_data g s :
  Storage.dataHistory (Storage.setSavedGame g s) = Storage.dataHistory s /\
  Storage.dataStatistics (Storage.setSavedGame g s) =
    Storage.dataStatistics s /\
  Storage.settings (Storage.setSavedGame g s) = Storage.settings s /\
  Storage.statistics (Storage.setSavedGame g s) = Storage.statistics s.
Proof. destruct s. repeat split; reflexivity. Qed.


(** The session [endGameSession] adds to the history. *)
Lemma endGameSession_data finalScore snakeLength reason now later r first
    retry s :
  0 < Settings.maxHistorySize (Storage.settings s) ->
  Storage.sessionStartTime s <> 0 ->
  let session :=
    GameSession.mk (Storage.sessionStartTime s, r)
      (Storage.sessionStartTime s) finalScore
      (now - Storage.sessionStartTime s) snakeLength
      (Storage.trapsEncountered s) (Storage.currentGameEvents s) reason in
  let s' :=
    snd (Storage.endGameSession finalScore snakeLength reason now later r
                                first retry s) in
  Storage.dataHistory s' `suffix_of` Storage.dataHistory s ++ [session] /\
  Z.of_nat (length (Storage.dataHistory s')) <=
    Settings.maxHistorySize (Storage.settings s) /\
  Storage.settings s' = Storage.settings s /\
  (Storage.statistics s' = Storage.Shared <->
   Storage.statistics s = Storage.Shared) /\
  GameStatistics.bestScore (Storage.dataStatistics s') =
    Z.max (GameStatistics.bestScore (Storage.dataStatistics s)) finalScore /\
  GameStatistics.totalGamesPlayed (Storage.dataStatistics s') =
    GameStatistics.totalGamesPlayed (Storage.dataStatistics s) + 1 /\
  GameStatistics.totalPlaytime (Storage.dataStatistics s') =
    GameStatistics.totalPlaytime (Storage.dataStatistics s) +
    (now - Storage.sessionStartTime s) /\
  GameStatistics.lastPlayed (Storage.dataStatistics s') = later /\
  Storage.savedGame s' = None /\
  Storage.sessionStartTime s' = 0 /\
  Storage.currentGameEvents s' = [] /\
  Storage.trapsEncountered s' = 0 /\
  (first = Storage.Stores ->
   fst (Storage.endGameSession finalScore snakeLength reason now later r
                               first retry s) = true /\
   Storage.dataHistory s' =
     if Z.of_nat (length (Storage.dataHistory s)) + 1 >?
        Settings.maxHistorySize (Storage.settings s)
     then Storage.slice (- Settings.maxHistorySize (Storage.settings s))
                        (Storage.dataHistory s ++ [session])
     else Storage.dataHistory s ++ [session]).
Proof.
  intros Hmax Hactive session s'. subst s'.
  unfold Storage.endGameSession.
  rewrite (proj2 (Z.eqb_neq _ _) Hactive). cbv zeta. fold session.
  set (s1 := Storage.pushHistory session s).
  destruct (pushHistory_data session s) as (Hh1 & Hst1 & Hse1 & Hsh1).
  fold s1 in Hh1, Hst1, Hse1, Hsh1.
  match goal with
  | |- context [Storage.updateStatistics ?f s1] =>
    set (s2 := Storage.updateStatistics f s1);
    destruct (updateStatistics_data f s1) as (Hh2 & Hst2 & Hse2 & Hsh2);
    fold s2 in Hh2, Hst2, Hse2, Hsh2
  end.
  match goal with
  | |- context [if ?c then Storage.updateStatistics ?f s2 else s2] =>
    set (s3 := if c then Storage.updateStatistics f s2 else s2);
    assert (H3 :
      Storage.dataHistory s3 = Storage.dataHistory s2 /\
      Storage.dataStatistics s3 =
        (if c then f (Storage.dataStatistics s2)
         else Storage.dataStatistics s2) /\
      Storage.settings s3 = Storage.settings s2 /\
      (Storage.statistics s3 = Storage.Shared <->
       Storage.statistics s2 = Storage.Shared))
      by (subst s3; destruct c;
          [apply updateStatistics_data | repeat split; auto])
  end.
  destruct H3 as (Hh3 & Hst3 & Hse3 & Hsh3).
  match goal with
  | |- context [Storage.updateStatistics ?f s3] =>
    set (s4 := Storage.updateStatistics f s3);
    destruct (updateStatistics_data f s3) as (Hh4 & Hst4 & Hse4 & Hsh4);
    fold s4 in Hh4, Hst4, Hse4, Hsh4
  end.
  set (s5 := Storage.setSavedGame None s4).
  destruct (setSavedGame_data None s4) as (Hh5 & Hst5 & Hse5 & Hsh5).
  fold s5 in Hh5, Hst5, Hse5, Hsh5.
  set (s6 := Storage.setSession 0 [] 0 s5).
  destruct (setSession_data 0 [] 0 s5) as (Hh6 & Hst6 & Hse6 & Hsh6).
  fold s6 in Hh6, Hst6, Hse6, Hsh6.
  assert (Hsettings : Storage.settings s6 = Storage.settings s)
    by congruence.
  assert (Hhistory :
    Storage.dataHistory s6 = Storage.dataHistory s ++ [session])
    by congruence.
  assert (Hsaved : Storage.savedGame s6 = None /\
                   Storage.sessionStartTime s6 = 0 /\
                   Storage.currentGameEvents s6 = [] /\
                   Storage.trapsEncountered s6 = 0).
  { subst s6 s5. destruct s4. repeat split; reflexivity. }
  destruct (saveData_data first retry s6) as (Hsuf & Hlen & Hsame & Hstores);
    [rewrite Hsettings; exact Hmax |].
  destruct Hsame as (Hd & Hr & _ & Hset & Hsg & Hss & Hev & Htr).
  rewrite Hhistory, Hsettings in *.
  destruct Hsaved as (Hsg6 & Hss6 & Hev6 & Htr6).
  assert (Hstats : Storage.dataStatistics s6 = Storage.dataStatistics s4)
    by congruence.
  rewrite Hd, Hstats, Hst4, Hst3, Hst2, Hst1. cbv beta.
  cbn [GameStatistics.bestScore].
  assert (Hcases :
    forall (c : bool) (a b : GameStatistics.t),
      c = (finalScore >? GameStatistics.bestScore (Storage.dataStatistics s)) ->
      GameStatistics.bestScore a = finalScore ->
      GameStatistics.bestScore b =
        GameStatistics.bestScore (Storage.dataStatistics s) ->
      GameStatistics.bestScore (if c then a else b) =
        Z.max (GameStatistics.bestScore (Storage.dataStatistics s))
              finalScore).
  { intros c a b -> Ha Hb.
    destruct (Z.gtb_spec finalScore
                (GameStatistics.bestScore (Storage.dataStatistics s))); lia. }
  split; [exact Hsuf |]. split; [exact Hlen |].
  split; [congruence |].
  split; [rewrite Hr, Hsh6, Hsh5, <- Hsh1; tauto |].
  split; [apply Hcases; reflexivity |].
  split;
    [destruct (finalScore >?
               GameStatistics.bestScore (Storage.dataStatistics s));
     reflexivity |].
  split;
    [destruct (finalScore >?
               GameStatistics.bestScore (Storage.dataStatistics s));
     reflexivity |].
  split;
    [destruct (finalScore >?
               GameStatistics.bestScore (Storage.dataStatistics s));
     reflexivity |].
  split; [congruence |]. split; [congruence |].
  split; [congruence |]. split; [congruence |].
  intros Hfirst. destruct (Hstores Hfirst) as [Hok Hexact].
  split; [exact Hok |]. rewrite Hexact.
  rewrite length_app. cbn [length].
  replace (Z.of_nat (length (Storage.dataHistory s) + 1))
    with (Z.of_nat (length (Storage.dataHistory s)) + 1) by lia.
  reflexivity.
Qed.

(** Which statistics object the service holds after a call. *)
Lemma perform_statistics_object c s :
  (Storage.statistics s <> Storage.Shared ->
   Storage.statistics (Storage.perform c s) <> Storage.Shared /\
   Storage.defaultStatistics (Storage.perform c s) =
     Storage.defaultStatistics s) /\
  ((forall first retry, c <> Storage.ClearHistory first retry) ->
   Storage.statistics s = Storage.Shared ->
   Storage.statistics (Storage.perform c s) = Storage.Shared).
Proof.
  destruct s as [dh ds v h st sg se ss ev tr ls].
  assert (Hsave : forall first retry s0,
    Storage.statistics (snd (Storage.saveData first retry s0)) =
      Storage.statistics s0 /\
    Storage.defaultStatistics (snd (Storage.saveData first retry s0)) =
      Storage.defaultStatistics s0).
  { intros first retry s0. unfold Storage.saveData. cbv zeta.
    destruct (_ >? _); destruct first, retry; destruct s0;
      split; reflexivity. }
  destruct c as [now | event now | finalScore snakeLength reason now later r
                 first retry | gameState gameSpeed first retry |
                 | first retry | first retry];
    cbn [Storage.perform].
  - destruct st; split; intros; cbn in *; try congruence.
    split; [discriminate | reflexivity].
  - destruct st, event; split; intros; cbn in *; try congruence;
      (split; [discriminate | reflexivity]).
  - unfold Storage.endGameSession. cbn [Storage.sessionStartTime].
    destruct (ss =? 0); cbn [snd];
      [split; intros; [split; [assumption | reflexivity] | assumption] |].
    cbv zeta.
    match goal with
    | |- context [Storage.saveData first retry ?s0] =>
      destruct (Hsave first retry s0) as [-> ->]
    end.
    destruct st, h; cbn;
      destruct (finalScore >? _); split; intros; cbn; try congruence;
      (split; [discriminate | reflexivity]).
  - unfold Storage.saveGameState. cbn [Storage.sessionStartTime].
    destruct (ss =? 0); cbn [snd];
      [split; intros; [split; [assumption | reflexivity] | assumption] |].
    match goal with
    | |- context [Storage.saveData first retry ?s0] =>
      destruct (Hsave first retry s0) as [-> ->]
    end.
    split; intros; [split; [assumption | reflexivity] | assumption].
  - unfold Storage.resumeSavedGame. cbn [Storage.savedGame].
    destruct sg; cbn [snd];
      (split; intros; [split; [assumption | reflexivity] | assumption]).
  - unfold Storage.clearSavedGame.
    match goal with
    | |- context [Storage.saveData first retry ?s0] =>
      destruct (Hsave first retry s0) as [-> ->]
    end.
    split; intros; [split; [assumption | reflexivity] | assumption].
  - unfold Storage.clearHistory. cbv zeta.
    match goal with
    | |- context [Storage.saveData first retry ?s0] =>
      destruct (Hsave first retry s0) as [-> ->]
    end.
    split; [intros _; split; [discriminate | reflexivity] |].
    intros Hc. exfalso. exact (Hc first retry eq_refl).
Qed.

Lemma slice_nil {A : Type} (n : Z) : Storage.slice n (@nil A) = [].
Proof. unfold Storage.slice. apply skipn_nil. Qed.

Lemma clearHistory_data first retry s :
  let s' := snd (Storage.clearHistory first retry s) in
  let d := Storage.defaultStatistics s in
  Storage.dataHistory s' = [] /\
  Storage.dataStatistics s' =
    GameStatistics.mk
      (GameStatistics.totalGamesPlayed d) (GameStatistics.bestScore d)
      (GameStatistics.averageScore d) (GameStatistics.totalPlaytime d)
      (GameStatistics.totalFoodEaten d) (GameStatistics.totalTrapsHit d)
      (GameStatistics.totalWallPassthroughs d)
      (GameStatistics.gamesThisSession (Storage.dataStatistics s))
      (GameStatistics.lastPlayed d) /\
  Storage.settings s' = Storage.settings s.
Proof.
  destruct s as [dh ds v h st sg se ss ev tr ls].
  unfold Storage.clearHistory, Storage.saveData, Storage.clearOldestGames.
  cbv zeta.
  cbn [Storage.assignHistory Storage.assignStatistics Storage.dataHistory
       Storage.history Storage.defaultHistory Storage.defaultStatistics
       Storage.version Storage.statistics Storage.savedGame Storage.settings
       Storage.sessionStartTime Storage.currentGameEvents
       Storage.trapsEncountered Storage.localStorage length].
  destruct (Z.of_nat 0 >? Settings.maxHistorySize se);
    destruct first, retry;
    cbn [snd Storage.assignHistory Storage.assignStatistics
         Storage.dataHistory Storage.setLocalStorage
         Storage.history Storage.defaultHistory Storage.defaultStatistics
         Storage.version Storage.statistics Storage.savedGame Storage.settings
         Storage.sessionStartTime Storage.currentGameEvents
         Storage.trapsEncountered Storage.localStorage Storage.dataStatistics];
    rewrite ?slice_nil; repeat split; reflexivity.
Qed.

Lemma performAll_statistics_object cs s :
  (Storage.statistics s <> Storage.Shared ->
   Storage.statistics (Storage.performAll cs s) <> Storage.Shared /\
   Storage.defaultStatistics (Storage.performAll cs s) =
     Storage.defaultStatistics s) /\
  (Forall (fun c => forall first retry, c <> Storage.ClearHistory first retry)
          cs ->
   Storage.statistics s = Storage.Shared ->
   Storage.statistics (Storage.performAll cs s) = Storage.Shared).
Proof.
  revert s. induction cs as [| c rest IH]; intros s.
  - split; [intros H; split; [exact H | reflexivity] | auto].
  - unfold Storage.performAll. cbn [fold_left].
    fold (Storage.performAll rest (Storage.perform c s)).
    destruct (perform_statistics_object c s) as [Hown Hshared].
    destruct (IH (Storage.perform c s)) as [IHown IHshared].
    split.
    + intros H. destruct (Hown H) as [H1 H2].
      destruct (IHown H1) as [H3 H4]. split; [exact H3 | congruence].
    + intros Hcs H. inversion Hcs as [| ? ? Hc Hrest]; subst.
      apply IHshared; [exact Hrest |]. apply Hshared; assumption.
Qed.

(** X30. Clearing the history empties it, but what happens to the
    statistics depends on where the data came from.  In a service that
    found no stored data and has not cleared its history before, the
    statistics object is the one of [DEFAULT_STORAGE_DATA] itself, every
    game has been counted in that object, and [clearHistory], which copies
    the defaults, leaves every statistic as it was.  In a service that
    loaded stored data, the statistics are reset to zero, except the
    number of games of this session. *)
Theorem clearHistory_resets_only_loaded_statistics cs first retry :
  (Forall (fun c => forall f r, c <> Storage.ClearHistory f r) cs ->
   let s := Storage.performAll cs (Storage.fresh None) in
   let s' := snd (Storage.clearHistory first retry s) in
   Storage.getGameHistory s' = [] /\
   Storage.getStatistics s' = Storage.getStatistics s) /\
  (forall parsed,
     let s := Storage.performAll cs (Storage.fresh (Some parsed)) in
     let s' := snd (Storage.clearHistory first retry s) in
     Storage.getGameHistory s' = [] /\
     Storage.getStatistics s' =
       GameStatistics.mk 0 0 0 0 0 0 0
         (GameStatistics.gamesThisSession (Storage.getStatistics s)) 0).
Proof.
  split.
  - intros Hcs s s'.
    destruct (clearHistory_data first retry s) as (Hh & Hst & _).
    fold s' in Hh, Hst. unfold Storage.getGameHistory, Storage.getStatistics.
    rewrite Hh, Hst. split; [reflexivity |].
    assert (Hshared : Storage.statistics s = Storage.Shared).
    { subst s. apply performAll_statistics_object; [exact Hcs | reflexivity]. }
    unfold Storage.dataStatistics. rewrite Hshared.
    now destruct (Storage.defaultStatistics s).
  - intros parsed s s'.
    destruct (clearHistory_data first retry s) as (Hh & Hst & _).
    fold s' in Hh, Hst. unfold Storage.getGameHistory, Storage.getStatistics.
    rewrite Hh, Hst. split; [reflexivity |].
    assert (Hown : Storage.defaultStatistics s =
                   GameStatistics.mk 0 0 0 0 0 0 0 0 0).
    { subst s.
      destruct (performAll_statistics_object cs
                  (Storage.fresh (Some parsed))) as [Hown _].
      destruct Hown as [_ ->]; [discriminate | reflexivity]. }
    rewrite Hown. reflexivity.
Qed.

(** A call that keeps the best score and shortens the history at most. *)
Lemma historyWithinStatistics_suffix s s' :
  Storage.settings s' = Storage.settings s ->
  Storage.dataHistory s' `suffix_of` Storage.dataHistory s ->
  GameStatistics.bestScore (Storage.dataStatistics s') =
    GameStatistics.bestScore (Storage.dataStatistics s) ->
  Storage.historyWithinStatistics s ->
  Storage.settings s' = Storage.settings s /\
  Storage.historyWithinStatistics s'.
Proof.
  unfold Storage.historyWithinStatistics.
  intros Hset Hsuf Hbest [Hlen Hall]. split; [exact Hset |].
  rewrite Hset, Hbest. split.
  - apply suffix_length in Hsuf. lia.
  - exact (Forall_suffix _ _ _ Hsuf Hall).
Qed.

Lemma perform_historyWithinStatistics c s :
  0 < Settings.maxHistorySize (Storage.settings s) ->
  Storage.historyWithinStatistics s ->
  Storage.settings (Storage.perform c s) = Storage.settings s /\
  Storage.historyWithinStatistics (Storage.perform c s).
Proof.
  intros Hmax Hinv.
  destruct c as [now | event now | finalScore snakeLength reason now later r
                 first retry | gameState gameSpeed first retry |
                 | first retry | first retry];
    cbn [Storage.perform].
  - unfold Storage.startGameSession. cbv zeta.
    match goal with
    | |- context [Storage.updateStatistics ?f ?s0] =>
      destruct (updateStatistics_data f s0) as (Hh & Hst & Hse & _);
      destruct (setSession_data now [] 0 s) as (Hh0 & Hst0 & Hse0 & _)
    end.
    apply historyWithinStatistics_suffix;
      [congruence | rewrite Hh, Hh0; reflexivity
       | rewrite Hst, Hst0; reflexivity | exact Hinv].
  - unfold Storage.recordEvent. cbv zeta.
    destruct (setSession_data (Storage.sessionStartTime s)
                (Storage.currentGameEvents s ++ [(event, now)])
                (Storage.trapsEncountered s) s) as (Hh0 & Hst0 & Hse0 & _).
    destruct event;
      try match goal with
          | |- context [Storage.setSession ?a ?b ?c
                          (Storage.updateStatistics ?f ?s0)] =>
            destruct (setSession_data a b c (Storage.updateStatistics f s0))
              as (Hh1 & Hst1 & Hse1 & _)
          end;
      try match goal with
          | |- context [Storage.updateStatistics ?f ?s0] =>
            destruct (updateStatistics_data f s0) as (Hh & Hst & Hse & _)
          end;
      apply historyWithinStatistics_suffix; try exact Hinv;
      try congruence;
      repeat match goal with
             | H : Storage.dataHistory _ = _ |- _ => rewrite H; clear H
             | H : Storage.dataStatistics _ = _ |- _ => rewrite H; clear H
             end; reflexivity.
  - destruct (Z.eq_dec (Storage.sessionStartTime s) 0) as [Hnone | Hactive].
    + unfold Storage.endGameSession.
      rewrite (proj2 (Z.eqb_eq _ _) Hnone). cbn [snd].
      split; [reflexivity | exact Hinv].
    + destruct (endGameSession_data finalScore snakeLength reason now later
                  r first retry s Hmax Hactive)
        as (Hsuf & Hlen & Hset & _ & Hbest & _).
      split; [exact Hset |].
      unfold Storage.historyWithinStatistics.
      rewrite Hset, Hbest. split; [exact Hlen |].
      apply (Forall_suffix _ _ _ Hsuf). apply Forall_app. split.
      * destruct Hinv as [_ Hall].
        eapply List.Forall_impl; [| exact Hall]. cbv beta. intros; lia.
      * constructor; [cbn; lia | constructor].
  - unfold Storage.saveGameState.
    destruct (Storage.sessionStartTime s =? 0); cbn [snd];
      [split; [reflexivity | exact Hinv] |].
    match goal with
    | |- context [Storage.saveData first retry (Storage.setSavedGame ?g s)] =>
      destruct (setSavedGame_data g s) as (Hh0 & Hst0 & Hse0 & _);
      destruct (saveData_data first retry (Storage.setSavedGame g s))
        as (Hsuf & _ & Hsame & _); [rewrite Hse0; exact Hmax |]
    end.
    destruct Hsame as (Hd & _ & _ & Hset & _).
    apply historyWithinStatistics_suffix;
      [congruence | rewrite <- Hh0; exact Hsuf | congruence | exact Hinv].
  - unfold Storage.resumeSavedGame.
    destruct (Storage.savedGame s) as [saved |]; cbn [snd];
      [| split; [reflexivity | exact Hinv]].
    destruct (setSession_data (SavedGameState.sessionStartTime saved)
                (SavedGameState.events saved)
                (SavedGameState.trapsEncountered saved) s)
      as (Hh0 & Hst0 & Hse0 & _).
    apply historyWithinStatistics_suffix;
      [congruence | rewrite Hh0; reflexivity | congruence | exact Hinv].
  - unfold Storage.clearSavedGame.
    destruct (setSavedGame_data None s) as (Hh0 & Hst0 & Hse0 & _).
    destruct (saveData_data first retry (Storage.setSavedGame None s))
      as (Hsuf & _ & Hsame & _); [rewrite Hse0; exact Hmax |].
    destruct Hsame as (Hd & _ & _ & Hset & _).
    apply historyWithinStatistics_suffix;
      [congruence | rewrite <- Hh0; exact Hsuf | congruence | exact Hinv].
  - destruct (clearHistory_data first retry s) as (Hh & _ & Hset).
    split; [exact Hset |].
    unfold Storage.historyWithinStatistics. rewrite Hh, Hset.
    split; [cbn; lia | constructor].
Qed.

Lemma performAll_historyWithinStatistics cs s :
  0 < Settings.maxHistorySize (Storage.settings s) ->
  Storage.historyWithinStatistics s ->
  Storage.settings (Storage.performAll cs s) = Storage.settings s /\
  Storage.historyWithinStatistics (Storage.performAll cs s).
Proof.
  revert s. induction cs as [| c rest IH]; intros s Hmax Hinv.
  - split; [reflexivity | exact Hinv].
  - unfold Storage.performAll. cbn [fold_left].
    fold (Storage.performAll rest (Storage.perform c s)).
    destruct (perform_historyWithinStatistics c s Hmax Hinv) as [Hset Hinv1].
    destruct (IH (Storage.perform c s)) as [Hset2 Hinv2];
      [rewrite Hset; exact Hmax | exact Hinv1 |].
    split; [congruence | exact Hinv2].
Qed.

(** X29. The history stays within the statistics.  If
    [settings.maxHistorySize] is positive, the history holds no more
    sessions than that and no session in it has a score above the best
    score of the statistics, as in a service that found no stored data,
    then this stays so however the game uses the service: sessions
    started, events recorded, sessions ended, games saved and resumed,
    saved games and the history cleared, with [localStorage] storing or
    refusing as it likes. *)
Theorem history_stays_within_statistics cs s :
  0 < Settings.maxHistorySize (Storage.settings s) ->
  Storage.historyWithinStatistics s ->
  Storage.historyWithinStatistics (Storage.performAll cs s).
Proof.
  intros Hmax Hinv.
  exact (proj2 (performAll_historyWithinStatistics cs s Hmax Hinv)).
Qed.

Lemma history_stays_within_statistics_witness :
  Storage.historyWithinStatistics
    (Storage.performAll
       [Storage.StartGameSession 1000;
        Storage.RecordEvent (FoodEaten (Position.mk 3 4) 1 4) 1500;
        Storage.EndGameSession 1 4 SelfCollision 2000 2000 (1 # 2)
                               Storage.QuotaExceeded Storage.Stores]
       (Storage.fresh None)).
Proof.
  apply (history_stays_within_statistics
           [Storage.StartGameSession 1000;
            Storage.RecordEvent (FoodEaten (Position.mk 3 4) 1 4) 1500;
            Storage.EndGameSession 1 4 SelfCollision 2000 2000 (1 # 2)
                                   Storage.QuotaExceeded Storage.Stores]
           (Storage.fresh None));
    [reflexivity | split; [discriminate | constructor]].
Defined.

Lemma rev_slice_last {A : Type} (n : Z) (l : list A) :
  0 < n ->
  rev (if Z.of_nat (length l) >? n then Storage.slice (- n) l else l) =
  firstn (Z.to_nat n) (rev l).
Proof.
  intros Hn. destruct (Z.gtb_spec (Z.of_nat (length l)) n) as [Hlong | Hfits].
  - rewrite firstn_rev. unfold Storage.slice. cbv zeta.
    replace (- n <? 0) with true by (symmetry; apply Z.ltb_lt; lia).
    f_equal. f_equal. lia.
  - rewrite firstn_all2; [reflexivity |]. rewrite length_rev. lia.
Qed.

(** X9. Ending an active session while [localStorage] accepts the data
    returns [true] and puts the session, with the score, the length, the
    events and the traps of the session, first in the history that
    [getGameHistory] returns; of the older sessions only as many are kept
    as [settings.maxHistorySize] allows.  The games played go up by one,
    the best score becomes the larger of the old one and the final score,
    the saved game is dropped, and the session is over: ending it again
    returns [false] and changes nothing. *)
Theorem endGameSession_records finalScore snakeLength reason now later r
    retry s :
  0 < Settings.maxHistorySize (Storage.settings s) ->
  Storage.sessionStartTime s <> 0 ->
  let session :=
    GameSession.mk (Storage.sessionStartTime s, r)
      (Storage.sessionStartTime s) finalScore
      (now - Storage.sessionStartTime s) snakeLength
      (Storage.trapsEncountered s) (Storage.currentGameEvents s) reason in
  let result :=
    Storage.endGameSession finalScore snakeLength reason now later r
                           Storage.Stores retry s in
  fst result = true /\
  Storage.getGameHistory (snd result) =
    firstn (Z.to_nat (Settings.maxHistorySize (Storage.settings s)))
           (session :: Storage.getGameHistory s) /\
  GameStatistics.totalGamesPlayed (Storage.getStatistics (snd result)) =
    GameStatistics.totalGamesPlayed (Storage.getStatistics s) + 1 /\
  GameStatistics.bestScore (Storage.getStatistics (snd result)) =
    Z.max (GameStatistics.bestScore (Storage.getStatistics s)) finalScore /\
  Storage.loadSavedGame (snd result) = None /\
  forall finalScore' snakeLength' reason' now' later' r' first' retry',
    Storage.endGameSession finalScore' snakeLength' reason' now' later' r'
                           first' retry' (snd result) =
    (false, snd result).
Proof.
  intros Hmax Hactive session result.
  destruct (endGameSession_data finalScore snakeLength reason now later r
              Storage.Stores retry s Hmax Hactive)
    as (_ & _ & _ & _ & Hbest & Hgames & _ & _ & Hsaved & Hstart & _ & _
        & Hstores).
  destruct (Hstores eq_refl) as [Hok Hhistory].
  fold session in Hhistory. fold result in Hok, Hhistory, Hbest, Hgames,
    Hsaved, Hstart.
  split; [exact Hok |].
  split.
  { unfold Storage.getGameHistory. rewrite Hhistory.
    replace (Z.of_nat (length (Storage.dataHistory s)) + 1)
      with (Z.of_nat (length (Storage.dataHistory s ++ [session])))
      by (rewrite length_app; cbn [length]; lia).
    rewrite (rev_slice_last _ _ Hmax), rev_app_distr. reflexivity. }
  split; [exact Hgames |]. split; [exact Hbest |].
  split; [exact Hsaved |].
  intros. unfold Storage.endGameSession. rewrite Hstart. reflexivity.
Qed.

Lemma endGameSession_records_witness :
  let s := Storage.startGameSession 1000 (Storage.fresh None) in
  let session :=
    GameSession.mk (Storage.sessionStartTime s, (1 # 2)%Q)
      (Storage.sessionStartTime s) 7
      (2000 - Storage.sessionStartTime s) 10
      (Storage.trapsEncountered s) (Storage.currentGameEvents s)
      ObstacleCollision in
  let result :=
    Storage.endGameSession 7 10 ObstacleCollision 2000 2001 (1 # 2)
                           Storage.Stores Storage.Stores s in
  fst result = true /\
  Storage.getGameHistory (snd result) =
    firstn (Z.to_nat (Settings.maxHistorySize (Storage.settings s)))
           (session :: Storage.getGameHistory s) /\
  GameStatistics.totalGamesPlayed (Storage.getStatistics (snd result)) =
    GameStatistics.totalGamesPlayed (Storage.getStatistics s) + 1 /\
  GameStatistics.bestScore (Storage.getStatistics (snd result)) =
    Z.max (GameStatistics.bestScore (Storage.getStatistics s)) 7 /\
  Storage.loadSavedGame (snd result) = None /\
  forall finalScore' snakeLength' reason' now' later' r' first' retry',
    Storage.endGameSession finalScore' snakeLength' reason' now' later' r'
                           first' retry' (snd result) =
    (false, snd result).
Proof.
  apply (endGameSession_records 7 10 ObstacleCollision 2000 2001 (1 # 2)
           Storage.Stores (Storage.startGameSession 1000 (Storage.fresh None)));
    [reflexivity | discriminate].
Defined.

Lemma clearHistory_resets_only_loaded_statistics_witness :
  let cs :=
    [Storage.StartGameSession 1000;
     Storage.EndGameSession 7 10 ObstacleCollision 2000 2001 (1 # 2)
                            Storage.Stores Storage.Stores] in
  let s := Storage.performAll cs (Storage.fresh None) in
  let s' := snd (Storage.clearHistory Storage.Stores Storage.Stores s) in
  Storage.getGameHistory s' = [] /\
  Storage.getStatistics s' = Storage.getStatistics s.
Proof.
  apply (proj1 (clearHistory_resets_only_loaded_statistics
                  [Storage.StartGameSession 1000;
                   Storage.EndGameSession 7 10 ObstacleCollision 2000 2001
                     (1 # 2) Storage.Stores Storage.Stores]
                  Storage.Stores Storage.Stores)).
  repeat constructor; discriminate.
Defined.
